(** * Autobot_vsoul: the trading-bot orchestrator and its market-data clients

    A shallow embedding of [src/main.py] (class [TradingBot] and the
    interrupt handler of [main]), [src/exchange/binance_client.py],
    [src/utility/data_fetcher.py] and [src/notifications/telegram.py].

    Python values are modelled as data ([pyval], [pyfloat], dictionaries as
    [gmap string pyval]), Python exceptions as values of [exn] carried by
    [Result], and the effectful methods in a state-and-exception monad [M]
    whose state is the bot's [running] flag together with the history of
    observable events (collaborator calls with their outcome, log records,
    prints).  The collaborators that are not part of the sources (data
    collector, storage, indicators, strategy, notifier, clock, event loop)
    are oracles over that history. *)

From Stdlib Require Import ZArith NArith String Ascii List Bool Lia.
From stdpp Require Import base option gmap strings list.

Local Open Scope Z_scope.

(** ** Python exceptions and results *)

(** [Exception cls msg] is an instance of a subclass of Python's [Exception]
    (class name, and the text [str(e)]); the other constructors are the
    [BaseException]s that an [except Exception] clause does not catch. *)
Inductive exn : Type :=
| Exception (cls msg : string)
| SystemExit (code : Z)
| KeyboardInterrupt
| CancelledError.

Definition is_Exception (e : exn) : bool :=
  match e with
  | Exception _ _ => true
  | _ => false
  end.

Inductive Result (A : Type) : Type :=
| Ok (a : A)
| Raise (e : exn).
Arguments Ok {A} a.
Arguments Raise {A} e.

Definition is_Ok {A} (r : Result A) : bool :=
  match r with
  | Ok _ => true
  | Raise _ => false
  end.

#[global] Instance Result_ret : MRet Result := fun A a => Ok a.
#[global] Instance Result_bind : MBind Result := fun A B f r =>
  match r with
  | Ok a => f a
  | Raise e => Raise e
  end.

(** First failure wins, left to right. *)
Fixpoint traverse {A B} (f : A -> Result B) (l : list A) : Result (list B) :=
  match l with
  | [] => Ok []
  | x :: l' => y ← f x; ys ← traverse f l'; Ok (y :: ys)
  end.

(** ** Python values *)

(** A float is NaN, an infinity, or the finite dyadic number
    [(-1)^neg * m * 2^e]; every binary64 value has this form. *)
Inductive pyfloat : Type :=
| Fnan
| Finf (neg : bool)
| Ffin (neg : bool) (m : N) (e : Z).

Inductive pyval : Type :=
| PyNone
| PyStr (s : string)
| PyInt (z : Z)
| PyFloat (f : pyfloat).

(** [v == 'literal'] for a string literal. *)
Definition py_eq_str (v : pyval) (lit : string) : bool :=
  match v with
  | PyStr s => String.eqb s lit
  | _ => false
  end.

(** [v == k] for an int literal. *)
Definition py_eq_int (v : pyval) (k : Z) : bool :=
  match v with
  | PyInt z => z =? k
  | PyFloat (Ffin neg m e) =>
      if e <? 0
      then (if neg then - Z.of_N m else Z.of_N m) =? k * 2 ^ (- e)
      else (if neg then - Z.of_N m else Z.of_N m) * 2 ^ e =? k
  | _ => false
  end.

(** The line feed, [\n] in the Python sources. *)
Definition LF : string := String (ascii_of_N 10) EmptyString.

(** ** Decimal rendering *)

Definition digit_char (d : N) : ascii := ascii_of_N (48 + d mod 10).


(** The [k] low decimal digits of [n], most significant first. *)
Fixpoint fixed_digits (k : nat) (n : N) (acc : string) : string :=
  match k with
  | O => acc
  | S k' => fixed_digits k' (n / 10)%N (String (digit_char n) acc)
  end.

Fixpoint dec_digits_aux (fuel : nat) (n : N) (acc : string) : string :=
  match fuel with
  | O => acc
  | S fuel' =>
      let acc' := String (digit_char n) acc in
      if (n <? 10)%N then acc' else dec_digits_aux fuel' (n / 10)%N acc'
  end.

(** [str(n)] for a natural number: no leading zero, "0" for zero. *)
Definition dec_N (n : N) : string :=
  dec_digits_aux (S (N.to_nat (N.log2 n))) n EmptyString.

Definition dec_Z (z : Z) : string :=
  match z with
  | Zneg p => String "-" (dec_N (Npos p))
  | _ => dec_N (Z.to_N z)
  end.

(** ** Fixed-point formatting: [format(x, '.<prec>f')] *)

(** The nearest integer to [num / den], ties to even (0 < den). *)
Definition round_half_even (num den : N) : N :=
  let q := (num / den)%N in
  let r := (num mod den)%N in
  match (2 * r ?= den)%N with
  | Lt => q
  | Gt => (q + 1)%N
  | Eq => if N.even q then q else (q + 1)%N
  end.

(** [|x| * 10^prec] rounded to an integer, for [|x| = m * 2^e]. *)
Definition scaled_digits (prec : nat) (m : N) (e : Z) : N :=
  let p := (10 ^ N.of_nat prec)%N in
  if e <? 0
  then round_half_even (m * p) (2 ^ Z.to_N (- e))
  else (m * 2 ^ Z.to_N e * p)%N.

Definition point_and_fraction (prec : nat) (n : N) : string :=
  match prec with
  | O => EmptyString
  | _ => String "." (fixed_digits prec n EmptyString)
  end.

Definition format_f (prec : nat) (f : pyfloat) : string :=
  match f with
  | Fnan => "nan"
  | Finf neg => if neg then "-inf" else "inf"
  | Ffin neg m e =>
      let n := scaled_digits prec m e in
      (if neg then "-" else "")
        +:+ dec_N (n / 10 ^ N.of_nat prec)
        +:+ point_and_fraction prec n
  end.

(** [float(z)]: the nearest binary64 value, ties to even; [OverflowError]
    from 2^1024 on. *)
Definition float_of_int (z : Z) : Result pyfloat :=
  let neg := z <? 0 in
  let n := Z.abs_N z in
  let bits := N.size n in
  if (bits <=? 53)%N then Ok (Ffin neg n 0)
  else
    let shift := (bits - 53)%N in
    let q := round_half_even n (2 ^ shift) in
    if (2 ^ 1024 <=? q * 2 ^ shift)%N
    then Raise (Exception "OverflowError" "int too large to convert to float")
    else Ok (Ffin neg q (Z.of_N shift)).

(** The replacement field [{v:.<prec>f}]. *)
Definition format_spec_f (prec : nat) (v : pyval) : Result string :=
  match v with
  | PyFloat f => Ok (format_f prec f)
  | PyInt z => f ← float_of_int z; Ok (format_f prec f)
  | PyStr _ =>
      Raise (Exception "ValueError" "Unknown format code 'f' for object of type 'str'")
  | PyNone =>
      Raise (Exception "TypeError" "unsupported format string passed to NoneType.__format__")
  end.

(** ** [str.strip()] on UTF-8 text

    Strings are byte strings holding UTF-8.  The characters [str.strip()]
    removes are those with [str.isspace()]: the ASCII ones (one byte) and
    U+0085, U+00A0, U+1680, U+2000..U+200A, U+2028, U+2029, U+202F, U+205F,
    U+3000 (two or three bytes). *)

Definition byte_is (c : ascii) (n : N) : bool := (N_of_ascii c =? n)%N.

Definition ws1 (c : ascii) : bool :=
  let n := N_of_ascii c in
  (((9 <=? n) && (n <=? 13)) || ((28 <=? n) && (n <=? 32)))%N.

(** First byte of a multi-byte whitespace character. *)
Definition ws_lead (c : ascii) : bool :=
  byte_is c 194 || byte_is c 225 || byte_is c 226 || byte_is c 227.

Definition ws2 (c1 c2 : ascii) : bool :=
  byte_is c1 194 && (byte_is c2 133 || byte_is c2 160).

Definition ws3 (c1 c2 c3 : ascii) : bool :=
  let n3 := N_of_ascii c3 in
  (byte_is c1 225 && byte_is c2 154 && byte_is c3 128)
  || (byte_is c1 226 && byte_is c2 128
      && (((128 <=? n3) && (n3 <=? 138))%N
          || byte_is c3 168 || byte_is c3 169 || byte_is c3 175))
  || (byte_is c1 226 && byte_is c2 129 && byte_is c3 159)
  || (byte_is c1 227 && byte_is c2 128 && byte_is c3 128).

Fixpoint lstrip (s : string) : string :=
  match s with
  | EmptyString => s
  | String c1 s1 =>
      if ws1 c1 then lstrip s1
      else if negb (ws_lead c1) then s
      else
        match s1 with
        | EmptyString => s
        | String c2 s2 =>
            if ws2 c1 c2 then lstrip s2
            else
              match s2 with
              | EmptyString => s
              | String c3 s3 => if ws3 c1 c2 c3 then lstrip s3 else s
              end
        end
  end.

Definition is_empty_string (s : string) : bool :=
  match s with
  | EmptyString => true
  | String _ _ => false
  end.

(** A byte is kept unless everything from it to the end is whitespace. *)
Fixpoint rstrip (s : string) : string :=
  match s with
  | EmptyString => EmptyString
  | String c s' =>
      if is_empty_string (lstrip s) then EmptyString else String c (rstrip s')
  end.

Definition strip (s : string) : string := rstrip (lstrip s).

(** A pandas timestamp: nanoseconds since the epoch, or not-a-time. *)
Inductive Timestamp : Type :=
| NaT
| Ts (ns : Z).

(** ** Library functions left abstract

    Conversions that belong to the Python runtime, [datetime] and pandas;
    they are pure, and the properties below hold for any choice of them. *)
Record Lib : Type := {
  (** [str(x)] of a float (shortest round-trip representation) *)
  float_repr : pyfloat -> string;
  (** [strftime('%Y-%m-%d %H:%M:%S')] of a pandas timestamp, in ns *)
  timestamp_strftime : Z -> string;
  (** [strftime('%Y-%m-%d %H:%M:%S')] of a [datetime], in microseconds *)
  datetime_strftime : Z -> string;
  (** [f"{d:.2f}"] of a duration held in microseconds *)
  seconds_2f : Z -> string;
  (** [pd.to_datetime(v, unit='ms')] of one cell; [None] where pandas
      rejects the value *)
  parse_ms : pyval -> option Timestamp
}.

Definition to_datetime_ms (lib : Lib) (v : pyval) : Result Timestamp :=
  match parse_ms lib v with
  | Some t => Ok t
  | None => Raise (Exception "ValueError" "cannot convert input with unit 'ms'")
  end.

(** [str(v)], which is also the replacement field [{v}]. *)
Definition py_str (lib : Lib) (v : pyval) : string :=
  match v with
  | PyNone => "None"
  | PyStr s => s
  | PyInt z => dec_Z z
  | PyFloat f => float_repr lib f
  end.

Definition exn_str (e : exn) : string :=
  match e with
  | Exception _ msg => msg
  | SystemExit code => dec_Z code
  | KeyboardInterrupt => ""
  | CancelledError => ""
  end.

(** ** Dictionaries *)

(** [d[key]]; [str(KeyError(key))] is the quoted key. *)
Definition getitem (d : gmap string pyval) (key : string) : Result pyval :=
  match d !! key with
  | Some v => Ok v
  | None => Raise (Exception "KeyError" ("'" +:+ key +:+ "'"))
  end.

(** [d.get(key, default)] with a string default, rendered. *)
Definition get_or (lib : Lib) (d : gmap string pyval) (key default : string) : string :=
  match d !! key with
  | Some v => py_str lib v
  | None => default
  end.

(** Truth value of what a strategy returns: [None] and the empty
    dictionary are false. *)
Definition truthy (o : option (gmap string pyval)) : bool :=
  match o with
  | Some d => negb (bool_decide (d = ∅))
  | None => false
  end.

(** ** Timestamps and data frames *)

Definition strftime (lib : Lib) (t : Timestamp) : Result string :=
  match t with
  | NaT => Raise (Exception "ValueError" "NaTType does not support strftime")
  | Ts ns => Ok (timestamp_strftime lib ns)
  end.

(** A frame before [set_index]: labelled columns over the default index. *)
Definition Columns : Type := list (string * list pyval).

(** A frame indexed by timestamps. *)
Record DataFrame : Type := {
  df_index : list Timestamp;
  df_columns : Columns
}.

Definition df_len (df : DataFrame) : Z := Z.of_nat (length (df_index df)).

Fixpoint column (cols : Columns) (label : string) : option (list pyval) :=
  match cols with
  | [] => None
  | (l, vs) :: cols' => if String.eqb l label then Some vs else column cols' label
  end.

Definition drop_column (cols : Columns) (label : string) : Columns :=
  filter (fun c => negb (String.eqb (fst c) label)) cols.

(** [df[label]] *)
Definition df_getitem (cols : Columns) (label : string) : Result (list pyval) :=
  match column cols label with
  | Some vs => Ok vs
  | None => Raise (Exception "KeyError" ("'" +:+ label +:+ "'"))
  end.

(** [series.iloc[-1]] *)
Definition iloc_last (vs : list pyval) : Result pyval :=
  match last vs with
  | Some v => Ok v
  | None => Raise (Exception "IndexError" "single positional indexer is out-of-bounds")
  end.

(** [df.index[-1]] *)
Definition index_last (df : DataFrame) : Result Timestamp :=
  match last (df_index df) with
  | Some t => Ok t
  | None => Raise (Exception "IndexError" "index -1 is out of bounds for axis 0 with size 0")
  end.

(** [pd.DataFrame(rows, columns=labels)] for a list of lists: the width is
    that of the longest row, shorter rows are padded, and a width other
    than the number of labels is a [ValueError]; no rows give empty
    columns. *)
Definition pd_DataFrame (rows : list (list pyval)) (labels : list string) : Result Columns :=
  let width := foldr (fun row w => Nat.max (length row) w) O rows in
  match rows with
  | [] => Ok (map (fun l => (l, [])) labels)
  | _ =>
      if Nat.eqb width (length labels)
      then Ok (imap (fun i l => (l, map (fun row => nth i row PyNone) rows)) labels)
      else Raise (Exception "ValueError"
                    (dec_N (N.of_nat (length labels)) +:+ " columns passed, passed data had "
                       +:+ dec_N (N.of_nat width) +:+ " columns"))
  end.

(** ** Observable events *)

Inductive Level : Type := DEBUG | INFO | WARNING | ERROR.

(** The output of an indicator is opaque to the orchestrator. *)
Definition IndicatorResult : Type := list (string * pyval).

(** One event per collaborator call, with the arguments it was given and
    how it ended, per log record and per line printed. *)
Inductive Event : Type :=
| EvLog (level : Level) (msg : string)
| EvPrint (msg : string)
| EvNow (t : Z)
| EvSleep (us : Z) (r : Result unit)
| EvGetMarketData (symbol timeframe : string) (lookback : Z) (r : Result (option DataFrame))
| EvStoreMarketData (symbol : string) (data : DataFrame) (r : Result unit)
| EvTdiCalculate (data : DataFrame) (r : Result IndicatorResult)
| EvBollingerCalculate (data : DataFrame) (r : Result IndicatorResult)
| EvGenerateSignal (data : DataFrame) (tdi bollinger : IndicatorResult)
    (r : Result (option (gmap string pyval)))
| EvStoreSignal (symbol : string) (signal : gmap string pyval) (timestamp : Timestamp)
    (r : Result unit)
| EvSendMessage (text : string) (r : Result unit)
| EvStorageInitialize (r : Result unit)
| EvStorageClose (r : Result unit)
| EvNotifierInitialize (r : Result unit)
| EvNotifierShutdown (r : Result unit)
| EvCreateTask (coroutine : string)
| EvFetchOhlcv (symbol timeframe : string) (limit : Z) (r : Result (list (list pyval)))
| EvHttpPost (url : string) (params : list (string * string)) (r : Result unit).

(** ** The state-and-exception monad

    An exception leaves the state as it was when it was raised: what
    happened before it stays in the history. *)

Record State : Type := {
  running : bool;
  history : list Event
}.

Definition M (A : Type) : Type := State -> Result A * State.

#[global] Instance M_ret : MRet M := fun A a s => (Ok a, s).
#[global] Instance M_bind : MBind M := fun A B f m s =>
  match m s with
  | (Ok a, s') => f a s'
  | (Raise e, s') => (Raise e, s')
  end.

Definition raise {A} (e : exn) : M A := fun s => (Raise e, s).

(** A pure computation that may raise. *)
Definition lift {A} (r : Result A) : M A := fun s => (r, s).

(** [try: body  except Exception as e: handler e].  What is not an
    instance of [Exception] passes through, and so does whatever the
    handler itself raises. *)
Definition try_except {A} (body : M A) (handler : exn -> M A) : M A := fun s =>
  match body s with
  | (Ok a, s') => (Ok a, s')
  | (Raise e, s') => if is_Exception e then handler e s' else (Raise e, s')
  end.

Definition emit (ev : Event) : M unit := fun s =>
  (Ok tt, {| running := running s; history := history s ++ [ev] |}).

Definition log (level : Level) (msg : string) : M unit := emit (EvLog level msg).

Definition print (msg : string) : M unit := emit (EvPrint msg).

(** A synchronous call of a collaborator: the oracle sees the history so
    far and decides how the call ends. *)
Definition call {A} (oracle : list Event -> Result A) (ev : Result A -> Event) : M A := fun s =>
  let r := oracle (history s) in
  (r, {| running := running s; history := history s ++ [ev r] |}).

Definition get_running : M bool := fun s => (Ok (running s), s).

Definition set_running (b : bool) : M unit := fun s =>
  (Ok tt, {| running := b; history := history s |}).

(** [for x in l: body x] *)
Fixpoint for_each {A} (l : list A) (body : A -> M unit) : M unit :=
  match l with
  | [] => mret tt
  | x :: l' => body x;; for_each l' body
  end.

(** How a bounded unrolling of [while self.running] ends. *)
Inductive Completion : Type := Finished | OutOfFuel.

(** ** The market-data clients *)

Definition ohlcv_labels : list string :=
  ["timestamp"; "open"; "high"; "low"; "close"; "volume"].

(** The statements between the exchange call and [return df]: build the
    frame, parse its timestamp column, and make that column the index
    ([set_index] takes it out of the columns). *)
Definition frame_of_ohlcv (lib : Lib) (ohlcv : list (list pyval)) : Result DataFrame :=
  df ← pd_DataFrame ohlcv ohlcv_labels;
  raw ← df_getitem df "timestamp";
  parsed ← traverse (to_datetime_ms lib) raw;
  Ok {| df_index := parsed; df_columns := drop_column df "timestamp" |}.

Module BinanceClient.

(** [self.exchange.fetch_ohlcv(symbol, timeframe, limit=limit)] *)
Definition Exchange : Type := list Event -> string -> string -> Z -> Result (list (list pyval)).


End BinanceClient.

Module DataFetcher.


End DataFetcher.

(** ** [src/notifications/telegram.py] *)

Module TelegramNotifier.

Record Secrets : Type := {
  token : string;
  chat_id : string
}.

(** [requests.post(url, params=params)] *)
Definition Http : Type := list Event -> string -> list (string * string) -> Result unit.

Definition _send_message (secrets : Secrets) (http : Http) (text : string) : M unit :=
  let url := "https://api.telegram.org/bot" +:+ token secrets +:+ "/sendMessage" in
  let params := [("chat_id", chat_id secrets); ("text", text); ("parse_mode", "Markdown")] in
  call (fun h => http h url params) (EvHttpPost url params).

Definition signal_text (lib : Lib) (signal : gmap string pyval)
    (symbol timeframe : string) : Result string :=
  type ← getitem signal "type";
  let emoji := if py_eq_str type "BUY" then "🟢" else "🔴" in
  entry ← getitem signal "entry";
  entry_s ← format_spec_f 4 entry;
  stop_loss ← getitem signal "stop_loss";
  stop_loss_s ← format_spec_f 4 stop_loss;
  take_profit ← getitem signal "take_profit";
  take_profit_s ← format_spec_f 4 take_profit;
  risk_factor ← getitem signal "risk_factor";
  tdi_value ← getitem signal "tdi_value";
  tdi_value_s ← format_spec_f 2 tdi_value;
  time ← getitem signal "time";
  Ok (emoji +:+ " *" +:+ py_str lib type +:+ " Signal* " +:+ emoji +:+ LF +:+ LF
      +:+ "*Symbol:* " +:+ symbol +:+ LF
      +:+ "*Timeframe:* " +:+ timeframe +:+ LF
      +:+ "*Entry:* `" +:+ entry_s +:+ "`" +:+ LF
      +:+ "*SL:* `" +:+ stop_loss_s +:+ "` | *TP:* `" +:+ take_profit_s +:+ "`" +:+ LF
      +:+ "*Risk:* " +:+ py_str lib risk_factor +:+ "x | TDI: `" +:+ tdi_value_s +:+ "`" +:+ LF
      +:+ "*Time:* " +:+ py_str lib time +:+ LF +:+ LF
      +:+ "*Conditions Met:*" +:+ LF
      +:+ "- TDI in " +:+ (if py_eq_int risk_factor 2 then "Hard" else "Soft")
      +:+ " " +:+ py_str lib type +:+ " Zone" +:+ LF
      +:+ "- Price rejected " +:+ (if py_eq_str type "BUY" then "lower" else "upper")
      +:+ " BB" +:+ LF
      +:+ "- MA crossover confirmed" +:+ LF).

Definition send_signal (lib : Lib) (secrets : Secrets) (http : Http)
    (signal : gmap string pyval) (symbol timeframe : string) : M unit :=
  message ← lift (signal_text lib signal symbol timeframe);
  _send_message secrets http message.

End TelegramNotifier.

(** ** [src/main.py] *)

(** The settings the orchestrator reads.  A settings object that lacks one
    of these keys is outside the model. *)
Record Settings : Type := {
  timeframe : string;          (* data_config['timeframe'] *)
  lookback_periods : Z;        (* data_config['lookback_periods'] *)
  min_data_points : Z;         (* strategy_config['min_data_points'] *)
  symbols : list string;       (* trading_config['symbols'] *)
  analysis_interval : Z        (* trading_config['analysis_interval'], in microseconds *)
}.

(** The collaborators of the orchestrator.  Each one is an oracle: given
    the history so far and the arguments of the call it returns a value or
    raises.  [now] is the clock, in microseconds.  [stop_requested] tells
    whether, while the main task was suspended in the await that has just
    been recorded, another task of the event loop assigned
    [self.running = False]. *)
Record Collaborators : Type := {
  get_market_data : list Event -> string -> string -> Z -> Result (option DataFrame);
  store_market_data : list Event -> string -> DataFrame -> Result unit;
  store_signal : list Event -> string -> gmap string pyval -> Timestamp -> Result unit;
  storage_initialize : list Event -> Result unit;
  storage_close : list Event -> Result unit;
  tdi_calculate : list Event -> DataFrame -> Result IndicatorResult;
  bollinger_calculate : list Event -> DataFrame -> Result IndicatorResult;
  generate_signal :
    list Event -> DataFrame -> IndicatorResult -> IndicatorResult ->
    Result (option (gmap string pyval));
  notifier_initialize : list Event -> Result unit;
  notifier_shutdown : list Event -> Result unit;
  send_message : list Event -> string -> Result unit;
  asyncio_sleep : list Event -> Z -> Result unit;
  now : list Event -> Z;
  stop_requested : list Event -> bool
}.

Module TradingBot.

Section Methods.

Variable lib : Lib.
Variable settings : Settings.
Variable env : Collaborators.

(** [await collaborator(...)]: the call, and what other tasks did to
    the flag while this one was suspended. *)
Definition await {A} (oracle : list Event -> Result A) (ev : Result A -> Event) : M A :=
  fun s =>
    let r := oracle (history s) in
    let h := history s ++ [ev r] in
    (r, {| running := running s && negb (stop_requested env h); history := h |}).

(** [datetime.now()] *)
Definition datetime_now : M Z := fun s =>
  let t := now env (history s) in
  (Ok t, {| running := running s; history := history s ++ [EvNow t] |}).

Definition action_emoji (action : pyval) : string :=
  if py_eq_str action "BUY" then "🟢"
  else if py_eq_str action "SELL" then "🔴"
  else "🟡".

(** The text [send_signal_notification] builds: the f-string, fields
    evaluated left to right, then [.strip()]. *)
Definition signal_message (symbol : string) (signal : gmap string pyval)
    (price : pyval) (timestamp : Timestamp) : Result string :=
  action ← getitem signal "action";
  price_s ← format_spec_f 4 price;
  time_s ← strftime lib timestamp;
  confidence ← getitem signal "confidence";
  confidence_s ← format_spec_f 2 confidence;
  strategy_name ← getitem signal "strategy_name";
  Ok (strip
        (LF +:+ action_emoji action +:+ " **" +:+ py_str lib action +:+ " SIGNAL**" +:+ LF
         +:+ "📊 Symbol: " +:+ symbol +:+ LF
         +:+ "💰 Price: $" +:+ price_s +:+ LF
         +:+ "⏰ Time: " +:+ time_s +:+ LF
         +:+ "🎯 Confidence: " +:+ confidence_s +:+ "%" +:+ LF
         +:+ "📈 Strategy: " +:+ py_str lib strategy_name +:+ LF
         +:+ LF
         +:+ "**Indicator Analysis:**" +:+ LF
         +:+ "• TDI: " +:+ get_or lib signal "tdi_signal" "N/A" +:+ LF
         +:+ "• Bollinger: " +:+ get_or lib signal "bollinger_signal" "N/A" +:+ LF
         +:+ LF
         +:+ "**Risk Management:**" +:+ LF
         +:+ "• Stop Loss: $" +:+ get_or lib signal "stop_loss" "N/A" +:+ LF
         +:+ "• Take Profit: $" +:+ get_or lib signal "take_profit" "N/A" +:+ LF
         +:+ "            ")).

Definition send_signal_notification (symbol : string) (signal : gmap string pyval)
    (price : pyval) (timestamp : Timestamp) : M unit :=
  try_except
    (message ← lift (signal_message symbol signal price timestamp);
     await (fun h => send_message env h message) (EvSendMessage message))
    (fun e => log ERROR ("Error sending notification: " +:+ exn_str e)).

Definition handle_signal (symbol : string) (signal : gmap string pyval)
    (data : DataFrame) : M unit :=
  try_except
    (current_price ← lift (close ← df_getitem (df_columns data) "close"; iloc_last close);
     timestamp ← lift (index_last data);
     action ← lift (getitem signal "action");
     log INFO ("Signal generated for " +:+ symbol +:+ ": " +:+ py_str lib action
               +:+ " at " +:+ py_str lib current_price);;
     await (fun h => store_signal env h symbol signal timestamp)
           (EvStoreSignal symbol signal timestamp);;
     send_signal_notification symbol signal current_price timestamp)
    (fun e => log ERROR ("Error handling signal for " +:+ symbol +:+ ": " +:+ exn_str e)).

Definition insufficient_data (data : option DataFrame) : bool :=
  match data with
  | None => true
  | Some df => df_len df <? min_data_points settings
  end.

Definition collect_and_analyze_data (symbol : string) : M unit :=
  try_except
    (data ← await (fun h => get_market_data env h symbol (timeframe settings)
                              (lookback_periods settings))
                  (EvGetMarketData symbol (timeframe settings) (lookback_periods settings));
     if insufficient_data data
     then log WARNING ("Insufficient data for " +:+ symbol)
     else
       match data with
       | None => mret tt
       | Some df =>
           await (fun h => store_market_data env h symbol df) (EvStoreMarketData symbol df);;
           tdi_signals ← call (fun h => tdi_calculate env h df) (EvTdiCalculate df);
           bollinger_signals ← call (fun h => bollinger_calculate env h df)
                                    (EvBollingerCalculate df);
           strategy_signal ← call (fun h => generate_signal env h df tdi_signals
                                              bollinger_signals)
                                  (EvGenerateSignal df tdi_signals bollinger_signals);
           if truthy strategy_signal
           then
             match strategy_signal with
             | None => mret tt
             | Some signal => handle_signal symbol signal df
             end
           else mret tt
       end)
    (fun e =>
       log ERROR ("Error processing data for " +:+ symbol +:+ ": " +:+ exn_str e);;
       await (fun h => send_message env h
                         ("❌ Error processing " +:+ symbol +:+ ": " +:+ exn_str e))
             (EvSendMessage ("❌ Error processing " +:+ symbol +:+ ": " +:+ exn_str e))).

Definition run_analysis_cycle : M unit :=
  for_each (symbols settings) (fun symbol =>
    collect_and_analyze_data symbol;;
    await (fun h => asyncio_sleep env h 1000000) (EvSleep 1000000)).

(** One pass through the body of [while self.running].  Times are held
    exactly, in microseconds, the resolution of [datetime]; the rounding of
    [total_seconds()] to a float is not modelled. *)
Definition run_iteration : M unit :=
  start_time ← datetime_now;
  run_analysis_cycle;;
  end_time ← datetime_now;
  let cycle_duration := end_time - start_time in
  let sleep_time := Z.max 0 (analysis_interval settings - cycle_duration) in
  if 0 <? sleep_time
  then
    log DEBUG ("Cycle completed in " +:+ seconds_2f lib cycle_duration
               +:+ "s, sleeping for " +:+ seconds_2f lib sleep_time +:+ "s");;
    await (fun h => asyncio_sleep env h sleep_time) (EvSleep sleep_time)
  else
    log WARNING ("Cycle took " +:+ seconds_2f lib cycle_duration
                 +:+ "s, longer than interval!").

(** [while self.running: ...], at most [fuel] passes. *)
Fixpoint main_loop (fuel : nat) : M Completion :=
  match fuel with
  | O => mret OutOfFuel
  | S fuel' =>
      r ← get_running;
      if r : bool then run_iteration;; main_loop fuel' else mret Finished
  end.

Definition run (fuel : nat) : M Completion :=
  set_running true;;
  log INFO "Starting trading bot main loop...";;
  try_except
    (main_loop fuel)
    (fun e =>
       log ERROR ("Error in main loop: " +:+ exn_str e);;
       await (fun h => send_message env h ("❌ Trading bot error: " +:+ exn_str e))
             (EvSendMessage ("❌ Trading bot error: " +:+ exn_str e));;
       raise e).

Definition initialize : M unit :=
  try_except
    (log INFO "Initializing trading bot...";;
     await (storage_initialize env) EvStorageInitialize;;
     await (notifier_initialize env) EvNotifierInitialize;;
     t ← datetime_now;
     await (fun h => send_message env h
                       ("🤖 Trading Bot Started at " +:+ datetime_strftime lib t))
           (EvSendMessage ("🤖 Trading Bot Started at " +:+ datetime_strftime lib t));;
     log INFO "Trading bot initialized successfully")
    (fun e =>
       log ERROR ("Failed to initialize trading bot: " +:+ exn_str e);;
       raise e).

Definition shutdown : M unit :=
  log INFO "Shutting down trading bot...";;
  set_running false;;
  try_except
    (t ← datetime_now;
     await (fun h => send_message env h
                       ("🛑 Trading Bot Stopped at " +:+ datetime_strftime lib t))
           (EvSendMessage ("🛑 Trading Bot Stopped at " +:+ datetime_strftime lib t));;
     await (notifier_shutdown env) EvNotifierShutdown;;
     await (storage_close env) EvStorageClose)
    (fun e => log ERROR ("Error during shutdown: " +:+ exn_str e)).

End Methods.

(** The handler [main] installs for SIGINT and SIGTERM; [bot] tells
    whether [main]'s variable is bound to a [TradingBot] yet. *)
Definition signal_handler (bot : bool) (signum : Z) : M unit :=
  print (LF +:+ "Received signal " +:+ dec_Z signum +:+ ", shutting down...");;
  (if bot then emit (EvCreateTask "bot.shutdown()") else mret tt);;
  raise (SystemExit 0).

End TradingBot.

(** ** The entry point [main] *)

(** [try: body  finally: cleanup]: the cleanup runs however the body ends,
    and what it raises replaces the outcome of the body. *)
Definition try_finally {A} (body : M A) (cleanup : M unit) : M A := fun s =>
  match body s with
  | (r, s') =>
      match cleanup s' with
      | (Ok _, s'') => (r, s'')
      | (Raise e, s'') => (Raise e, s'')
      end
  end.

(** [bot = TradingBot()].  [__init__] builds the settings, the logger and
    the components, whose classes are not part of the sources, and ends with
    [self.running = False]; [construct] tells how the construction ends. *)
Definition new_bot (construct : list Event -> Result unit) : M unit := fun s =>
  match construct (history s) with
  | Ok _ => (Ok tt, {| running := false; history := history s |})
  | Raise e => (Raise e, s)
  end.

(** The [except] clauses of [main], in their order.  [logging.error] writes
    a record of the root logger, kept here like the records of the bot's
    own logger; [sys.exit(1)] raises [SystemExit(1)]. *)
Definition main_except (e : exn) : M Completion :=
  match e with
  | KeyboardInterrupt =>
      print (LF +:+ "Keyboard interrupt received, shutting down...");;
      mret Finished
  | Exception _ _ =>
      log ERROR ("Fatal error: " +:+ exn_str e);;
      raise (SystemExit 1)
  | _ => raise e
  end.

(** [main], with the loop of [run] unrolled at most [fuel] times; when the
    unrolling runs out the program is still inside the loop and nothing of
    what follows it has happened.  The variable [bot] is bound exactly when
    the constructor has returned, which is what the [finally] clause tests.
    The two [signal.signal] calls install [signal_handler]; an interrupt
    reaches [main] as the [SystemExit(0)] that handler raises. *)
Definition main (lib : Lib) (settings : Settings) (env : Collaborators)
    (construct : list Event -> Result unit) (fuel : nat) : M Completion := fun s =>
  match new_bot construct s with
  | (Raise e, s0) => main_except e s0
  | (Ok _, s0) =>
      match (TradingBot.initialize lib env;; TradingBot.run lib settings env fuel) s0 with
      | (Ok OutOfFuel, s1) => (Ok OutOfFuel, s1)
      | (Ok Finished, s1) => try_finally (mret Finished) (TradingBot.shutdown lib env) s1
      | (Raise e, s1) => try_finally (main_except e) (TradingBot.shutdown lib env) s1
      end
  end.

(** ** The account and trading methods of [BinanceClient] *)

Module BinanceAccount.

(** What these methods handle besides scalars: a dictionary of scalars,
    such as [balance['total']] or the [params] of an order. *)
Inductive pyobj : Type :=
| Scalar (v : pyval)
| Dict (items : list (string * pyval)).

(** An order as the exchange returns it; [{}] is the empty list. *)
Definition Order : Type := list (string * pyobj).

(** One event per call of the exchange, with its keyword arguments and how
    it ended, and per line printed. *)
Inductive ExchangeEvent : Type :=
| FetchBalance (r : Result (gmap string pyobj))
| CreateOrder (kwargs : list (string * pyobj)) (r : Result Order)
| FetchTime (r : Result Z)
| Printed (msg : string).

(** The ccxt exchange object: oracles over the calls made so far. *)
Record Exchange : Type := {
  fetch_balance : list ExchangeEvent -> Result (gmap string pyobj);
  exchange_create_order : list ExchangeEvent -> list (string * pyobj) -> Result Order;
  fetch_time : list ExchangeEvent -> Result Z
}.

(** These methods are synchronous and have no state but the exchange. *)
Definition X (A : Type) : Type := list ExchangeEvent -> Result A * list ExchangeEvent.

#[global] Instance X_ret : MRet X := fun A a h => (Ok a, h).
#[global] Instance X_bind : MBind X := fun A B f m h =>
  match m h with
  | (Ok a, h') => f a h'
  | (Raise e, h') => (Raise e, h')
  end.

Definition lift {A} (r : Result A) : X A := fun h => (r, h).

Definition try_except {A} (body : X A) (handler : exn -> X A) : X A := fun h =>
  match body h with
  | (Ok a, h') => (Ok a, h')
  | (Raise e, h') => if is_Exception e then handler e h' else (Raise e, h')
  end.

Definition print (msg : string) : X unit := fun h => (Ok tt, h ++ [Printed msg]).

Definition call {A} (oracle : list ExchangeEvent -> Result A)
    (ev : Result A -> ExchangeEvent) : X A := fun h =>
  let r := oracle h in (r, h ++ [ev r]).

(** [bool(v)] *)
Definition py_bool (v : pyval) : bool :=
  match v with
  | PyNone => false
  | PyStr s => negb (String.eqb s "")
  | PyInt z => negb (z =? 0)
  | PyFloat (Ffin _ m _) => negb (m =? 0)%N
  | PyFloat _ => true
  end.

Definition type_name (v : pyval) : string :=
  match v with
  | PyNone => "NoneType"
  | PyStr _ => "str"
  | PyInt _ => "int"
  | PyFloat _ => "float"
  end.

(** [float(v)].  [float_of_str] is the conversion of a string, left to the
    Python runtime: the float, or the message of the [ValueError]. *)
Definition py_float (float_of_str : string -> pyfloat + string) (v : pyval) : Result pyfloat :=
  match v with
  | PyNone =>
      Raise (Exception "TypeError"
               "float() argument must be a string or a real number, not 'NoneType'")
  | PyStr s =>
      match float_of_str s with
      | inl f => Ok f
      | inr msg => Raise (Exception "ValueError" msg)
      end
  | PyInt z => float_of_int z
  | PyFloat f => Ok f
  end.

(** [f > 0] *)
Definition gt_zero (f : pyfloat) : bool :=
  match f with
  | Fnan => false
  | Finf neg => negb neg
  | Ffin neg m _ => negb neg && negb (m =? 0)%N
  end.

(** [balance[key]] *)
Definition getitem (d : gmap string pyobj) (key : string) : Result pyobj :=
  match d !! key with
  | Some o => Ok o
  | None => Raise (Exception "KeyError" ("'" +:+ key +:+ "'"))
  end.

(** [o.items()] *)
Definition items (o : pyobj) : Result (list (string * pyval)) :=
  match o with
  | Dict kvs => Ok kvs
  | Scalar v =>
      Raise (Exception "AttributeError"
               ("'" +:+ type_name v +:+ "' object has no attribute 'items'"))
  end.

(** [{k: v for k, v in kvs if float(v) > 0}]: the items are visited in
    their order, and the first value [float] rejects ends the comprehension. *)
Fixpoint positive_items (float_of_str : string -> pyfloat + string)
    (kvs : list (string * pyval)) : Result (list (string * pyval)) :=
  match kvs with
  | [] => Ok []
  | (k, v) :: kvs' =>
      f ← py_float float_of_str v;
      rest ← positive_items float_of_str kvs';
      Ok (if gt_zero f then (k, v) :: rest else rest)
  end.

Definition get_account_balance (float_of_str : string -> pyfloat + string)
    (exchange : Exchange) : X (list (string * pyval)) :=
  try_except
    (balance ← call (fetch_balance exchange) FetchBalance;
     total ← lift (getitem balance "total");
     kvs ← lift (items total);
     lift (positive_items float_of_str kvs))
    (fun e =>
       print ("Error fetching balance: " +:+ exn_str e);;
       mret []).

(** The keyword arguments of the main order: [order_params]. *)
Definition order_params (symbol side : string) (quantity price : pyval)
    : list (string * pyobj) :=
  let order_type := if py_bool price then "limit" else "market" in
  [("symbol", Scalar (PyStr symbol));
   ("side", Scalar (PyStr side));
   ("type", Scalar (PyStr order_type));
   ("quantity", Scalar quantity)]
  ++ (if py_bool price then [("price", Scalar price)] else []).

(** The keyword arguments of the stop-loss order. *)
Definition protective_params (symbol side : string) (quantity stop_loss take_profit : pyval)
    : list (string * pyobj) :=
  [("symbol", Scalar (PyStr symbol));
   ("side", Scalar (PyStr (if String.eqb side "BUY" then "SELL" else "BUY")));
   ("type", Scalar (PyStr "STOP_LOSS_LIMIT"));
   ("quantity", Scalar quantity);
   ("stopPrice", Scalar stop_loss);
   ("price", Scalar stop_loss);
   ("params", Dict [("stopLossPrice", stop_loss); ("takeProfitPrice", take_profit)])].

(** [price], [stop_loss] and [take_profit] default to [None]. *)
Definition create_order (exchange : Exchange) (symbol side : string)
    (quantity price stop_loss take_profit : pyval) : X Order :=
  try_except
    (let params := order_params symbol side quantity price in
     order ← call (fun h => exchange_create_order exchange h params) (CreateOrder params);
     (if py_bool stop_loss && py_bool take_profit
      then
        let params' := protective_params symbol side quantity stop_loss take_profit in
        call (fun h => exchange_create_order exchange h params') (CreateOrder params');;
        mret tt
      else mret tt);;
     mret order)
    (fun e =>
       print ("Error creating order: " +:+ exn_str e);;
       mret []).

Definition test_connection (exchange : Exchange) : X bool :=
  try_except
    (call (fetch_time exchange) FetchTime;;
     mret true)
    (fun e =>
       print ("Connection test failed: " +:+ exn_str e);;
       mret false).

End BinanceAccount.

(** ** Vocabulary of the specification *)

(** What a computation returns or raises, and the events it adds to the
    history. *)
Definition result_of {A} (m : M A) (s : State) : Result A := (m s).1.

Definition events_of {A} (m : M A) (s : State) : list Event :=
  drop (length (history s)) (history (m s).2).

Definition count (p : Event -> bool) (d : list Event) : nat :=
  length (List.filter p d).

Definition is_send_message (ev : Event) : bool :=
  match ev with EvSendMessage _ _ => true | _ => false end.

Definition is_store_signal (ev : Event) : bool :=
  match ev with EvStoreSignal _ _ _ _ => true | _ => false end.

Definition is_notifier_shutdown (ev : Event) : bool :=
  match ev with EvNotifierShutdown _ => true | _ => false end.

Definition is_storage_close (ev : Event) : bool :=
  match ev with EvStorageClose _ => true | _ => false end.

(** A call of the data store. *)
Definition is_data_store (ev : Event) : bool :=
  match ev with
  | EvStoreMarketData _ _ _ | EvStoreSignal _ _ _ _
  | EvStorageInitialize _ | EvStorageClose _ => true
  | _ => false
  end.

(** A call of the notifier. *)
Definition is_notifier (ev : Event) : bool :=
  match ev with
  | EvSendMessage _ _ | EvNotifierInitialize _ | EvNotifierShutdown _ => true
  | _ => false
  end.

(** A call of an indicator or of the strategy. *)
Definition is_analysis (ev : Event) : bool :=
  match ev with
  | EvTdiCalculate _ _ | EvBollingerCalculate _ _ | EvGenerateSignal _ _ _ _ => true
  | _ => false
  end.

Definition is_warning (ev : Event) : bool :=
  match ev with EvLog WARNING _ => true | _ => false end.

Definition is_error (ev : Event) : bool :=
  match ev with EvLog ERROR _ => true | _ => false end.

(** [s.startswith(p)] *)
Fixpoint starts_with (p s : string) : bool :=
  match p with
  | EmptyString => true
  | String a p' =>
      match s with
      | EmptyString => false
      | String b s' => Ascii.eqb a b && starts_with p' s'
      end
  end.

(** The warning of a cycle that took longer than the interval. *)
Definition is_overrun_warning (ev : Event) : bool :=
  match ev with
  | EvLog WARNING msg => starts_with "Cycle took " msg
  | _ => false
  end.

(** The texts handed to the notifier, in order. *)
Definition sent_texts (d : list Event) : list string :=
  omap (fun ev => match ev with EvSendMessage text _ => Some text | _ => None end) d.

(** The symbols whose market data was requested, in order. *)
Definition fetched_symbols (d : list Event) : list string :=
  omap (fun ev => match ev with EvGetMarketData symbol _ _ _ => Some symbol | _ => None end) d.

(** The log record an [except Exception as e] clause that only logs
    leaves behind for the outcome [r] of the step it guards. *)
Definition failure_log {A} (prefix : string) (r : Result A) : list Event :=
  match r with
  | Ok _ => []
  | Raise e => if is_Exception e then [EvLog ERROR (prefix +:+ exn_str e)] else []
  end.

(** What such a clause lets through. *)
Definition swallowed {A} (r : Result A) : Result unit :=
  match r with
  | Ok _ => Ok tt
  | Raise e => if is_Exception e then Ok tt else Raise e
  end.

(** The same collaborators under another schedule of stop requests. *)
Definition with_stop (env : Collaborators) (stop : list Event -> bool) : Collaborators :=
  {| get_market_data := get_market_data env;
     store_market_data := store_market_data env;
     store_signal := store_signal env;
     storage_initialize := storage_initialize env;
     storage_close := storage_close env;
     tdi_calculate := tdi_calculate env;
     bollinger_calculate := bollinger_calculate env;
     generate_signal := generate_signal env;
     notifier_initialize := notifier_initialize env;
     notifier_shutdown := notifier_shutdown env;
     send_message := send_message env;
     asyncio_sleep := asyncio_sleep env;
     now := now env;
     stop_requested := stop |}.

(** What [handle_signal] reads before it stores and notifies: the last
    close, the last index entry and the action of the signal. *)
Definition dispatch_inputs (signal : gmap string pyval) (data : DataFrame)
    : Result (pyval * Timestamp * pyval) :=
  current_price ← (close ← df_getitem (df_columns data) "close"; iloc_last close);
  timestamp ← index_last data;
  action ← getitem signal "action";
  Ok (current_price, timestamp, action).

(** The dispatch of a signal for [symbol] goes through from the state [s]:
    every step the pipeline takes up to the send, called after the steps
    before it, returns what the next one needs. *)
Definition dispatch_goes_through (lib : Lib) (settings : Settings) (env : Collaborators)
    (symbol : string) (s : State) (data : DataFrame) (tdi bollinger : IndicatorResult)
    (signal : gmap string pyval) (price : pyval) (timestamp : Timestamp) (action : pyval)
    (text : string) : Prop :=
  let h1 := history s ++ [EvGetMarketData symbol (timeframe settings)
                            (lookback_periods settings) (Ok (Some data))] in
  let h2 := h1 ++ [EvStoreMarketData symbol data (Ok tt)] in
  let h3 := h2 ++ [EvTdiCalculate data (Ok tdi)] in
  let h4 := h3 ++ [EvBollingerCalculate data (Ok bollinger)] in
  let h5 := h4 ++ [EvGenerateSignal data tdi bollinger (Ok (Some signal))] in
  let h6 := h5 ++ [EvLog INFO ("Signal generated for " +:+ symbol +:+ ": "
                               +:+ py_str lib action +:+ " at " +:+ py_str lib price)] in
  get_market_data env (history s) symbol (timeframe settings) (lookback_periods settings)
  = Ok (Some data)
  /\ min_data_points settings <= df_len data
  /\ store_market_data env h1 symbol data = Ok tt
  /\ tdi_calculate env h2 data = Ok tdi
  /\ bollinger_calculate env h3 data = Ok bollinger
  /\ generate_signal env h4 data tdi bollinger = Ok (Some signal)
  /\ signal <> ∅
  /\ dispatch_inputs signal data = Ok (price, timestamp, action)
  /\ store_signal env h6 symbol signal timestamp = Ok tt
  /\ TradingBot.signal_message lib symbol signal price timestamp = Ok text.






(** ** Sample data

    The scenario of the specification: BTC/USDT and ETH/USDT on the 5-minute
    timeframe, a lookback of 100 bars, at least 50 bars required, and a BUY
    signal of confidence 72.5. *)

Definition sample_lib : Lib :=
  {| float_repr := format_f 1;
     timestamp_strftime := dec_Z;
     datetime_strftime := dec_Z;
     seconds_2f := fun us => dec_Z (us / 1000000);
     parse_ms := fun v => match v with PyInt ms => Some (Ts (ms * 1000000)) | _ => None end |}.

Definition sample_settings : Settings :=
  {| timeframe := "5m";
     lookback_periods := 100;
     min_data_points := 50;
     symbols := ["ETH/USDT"; "BTC/USDT"];
     analysis_interval := 300000000 |}.

(** 30450.125 *)
Definition sample_price : pyval := PyFloat (Ffin false 243601 (-3)).

Definition sample_frame (bars : nat) : DataFrame :=
  {| df_index := map (fun i => Ts (Z.of_nat i * 300000000000)) (seq 0 bars);
     df_columns := map (fun label => (label, repeat sample_price bars))
                       ["open"; "high"; "low"; "close"; "volume"] |}.

Definition sample_signal : gmap string pyval :=
  <["action" := PyStr "BUY"]>
    (<["confidence" := PyFloat (Ffin false 145 (-1))]>
       (<["strategy_name" := PyStr "consolidated"]> ∅)).

Definition sample_state : State := {| running := true; history := [] |}.

(** Collaborators that all succeed, but for the three given: the fetch,
    [store_signal] and [send_message].  The clock advances by one second
    per event. *)
Definition sample_env
    (fetch : string -> Result (option DataFrame))
    (store : Result unit) (send : string -> Result unit) : Collaborators :=
  {| get_market_data := fun _ symbol _ _ => fetch symbol;
     store_market_data := fun _ _ _ => Ok tt;
     store_signal := fun _ _ _ _ => store;
     storage_initialize := fun _ => Ok tt;
     storage_close := fun _ => Ok tt;
     tdi_calculate := fun _ _ => Ok [];
     bollinger_calculate := fun _ _ => Ok [];
     generate_signal := fun _ _ _ _ => Ok (Some sample_signal);
     notifier_initialize := fun _ => Ok tt;
     notifier_shutdown := fun _ => Ok tt;
     send_message := fun _ text => send text;
     asyncio_sleep := fun _ _ => Ok tt;
     now := fun h => Z.of_nat (length h) * 1000000;
     stop_requested := fun _ => false |}.

Definition quiet_env : Collaborators :=
  sample_env (fun _ => Ok (Some (sample_frame 100))) (Ok tt) (fun _ => Ok tt).

(** The sample settings with a five-second interval, which no cycle over
    two symbols meets on the sample clock. *)
Definition hurried_settings : Settings :=
  {| timeframe := "5m";
     lookback_periods := 100;
     min_data_points := 50;
     symbols := ["ETH/USDT"; "BTC/USDT"];
     analysis_interval := 5000000 |}.


(** ** Vocabulary and sample data for the entry point and the clients *)

(** What a method of the client returns or raises, and the events it adds. *)
Definition outcome_of {A} (m : BinanceAccount.X A) (h : list BinanceAccount.ExchangeEvent)
    : Result A := (m h).1.

Definition calls_of {A} (m : BinanceAccount.X A) (h : list BinanceAccount.ExchangeEvent)
    : list BinanceAccount.ExchangeEvent := drop (length h) (m h).2.

(** [float(v) > 0] holds: the value converts, and to a positive float. *)
Definition positive_total (float_of_str : string -> pyfloat + string) (v : pyval) : bool :=
  match BinanceAccount.py_float float_of_str v with
  | Ok f => BinanceAccount.gt_zero f
  | Raise _ => false
  end.

(** [kwargs[key]] of a call *)
Fixpoint kwarg (kwargs : list (string * BinanceAccount.pyobj)) (key : string)
    : option BinanceAccount.pyobj :=
  match kwargs with
  | [] => None
  | (k, o) :: kwargs' => if String.eqb k key then Some o else kwarg kwargs' key
  end.

Definition is_create_order (ev : BinanceAccount.ExchangeEvent) : bool :=
  match ev with BinanceAccount.CreateOrder _ _ => true | _ => false end.

Definition is_printed (ev : BinanceAccount.ExchangeEvent) : bool :=
  match ev with BinanceAccount.Printed _ => true | _ => false end.

(** The record [shutdown] opens with. *)
Definition is_shutdown_log (ev : Event) : bool :=
  match ev with
  | EvLog INFO msg => String.eqb msg "Shutting down trading bot..."
  | _ => false
  end.

(** What only [shutdown] does: its opening record and the two closings. *)
Definition is_closing (ev : Event) : bool :=
  is_shutdown_log ev || is_notifier_shutdown ev || is_storage_close ev.

(** The one-second pause between symbols. *)
Definition is_pause (ev : Event) : bool :=
  match ev with
  | EvSleep us _ => us =? 1000000
  | _ => false
  end.

(** The failure [ev] records, when [ev] is a call of one of the steps the
    pipeline guards (fetch, storing of the data, indicators and strategy)
    that raised an [Exception]. *)
Definition step_failure (ev : Event) : option exn :=
  match ev with
  | EvGetMarketData _ _ _ (Raise e)
  | EvStoreMarketData _ _ (Raise e)
  | EvTdiCalculate _ (Raise e)
  | EvBollingerCalculate _ (Raise e)
  | EvGenerateSignal _ _ _ (Raise e) => if is_Exception e then Some e else None
  | _ => None
  end.

(** [ev] is a call that raised [e] and that nothing guards: the alert of
    the pipeline's [except] clause, or an [asyncio.sleep]. *)
Definition unguarded_failure (ev : Event) (e : exn) : Prop :=
  match ev with
  | EvSendMessage text (Raise e') => e' = e /\ starts_with "❌ Error processing " text = true
  | EvSleep _ (Raise e') => e' = e
  | _ => False
  end.

Definition is_storage_initialize (ev : Event) : bool :=
  match ev with EvStorageInitialize _ => true | _ => false end.

Definition is_notifier_initialize (ev : Event) : bool :=
  match ev with EvNotifierInitialize _ => true | _ => false end.

(** The first failure of three steps taken in order, each only after the
    one before it returned. *)
Definition first_failure (r1 r2 r3 : Result unit) : Result unit :=
  match r1 with
  | Raise e => Raise e
  | Ok _ => match r2 with
            | Raise e => Raise e
            | Ok _ => r3
            end
  end.

(** The record [main] writes for an [Exception] it catches. *)
Definition is_fatal_log (ev : Event) : bool :=
  match ev with
  | EvLog ERROR msg => starts_with "Fatal error: " msg
  | _ => false
  end.

(** The record [run] opens with. *)
Definition is_loop_start (ev : Event) : bool :=
  match ev with
  | EvLog INFO msg => String.eqb msg "Starting trading bot main loop..."
  | _ => false
  end.

(** What the loop never does: a step of [shutdown], or the record of a fatal
    error. *)
Definition is_outside_loop (ev : Event) : bool := is_closing ev || is_fatal_log ev.

(** A value the replacement field [{v:.4f}] accepts: a float, or an int
    within the range of floats. *)
Definition formattable (v : pyval) : bool :=
  match v with
  | PyFloat _ => true
  | PyInt z => is_Ok (float_of_int z)
  | _ => false
  end.

(** The signal has every key [TelegramNotifier.send_signal] reads, and a
    number under each key it formats. *)
Definition legacy_complete (signal : gmap string pyval) : bool :=
  forallb (fun key => bool_decide (is_Some (signal !! key)))
    ["type"; "entry"; "stop_loss"; "take_profit"; "risk_factor"; "tdi_value"; "time"]
  && forallb (fun key => match signal !! key with
                         | Some v => formattable v
                         | None => false
                         end)
       ["entry"; "stop_loss"; "take_profit"; "tdi_value"].

(** The widest row of what the exchange returned. *)
Definition widest (rows : list (list pyval)) : nat :=
  foldr (fun row w => Nat.max (length row) w) O rows.

(** Collaborators that all succeed, except that the notifier is
    unreachable. *)
Definition unreachable_env : Collaborators :=
  sample_env (fun _ => Ok (Some (sample_frame 100))) (Ok tt)
    (fun _ => Raise (Exception "NetworkError" "telegram unreachable")).

(** Collaborators whose fetch for ETH/USDT times out while the notifier is
    unreachable. *)
Definition failing_env : Collaborators :=
  sample_env
    (fun symbol => if String.eqb symbol "ETH/USDT"
                   then Raise (Exception "NetworkError" "timeout")
                   else Ok (Some (sample_frame 100)))
    (Ok tt)
    (fun _ => Raise (Exception "NetworkError" "telegram unreachable")).

(** A string conversion that accepts nothing. *)
Definition sample_float_of_str : string -> pyfloat + string :=
  fun s => inr ("could not convert string to float: '" +:+ s +:+ "'").

(** Totals of 0.5 BTC, no ETH and 1200 USDT. *)
Definition sample_totals : list (string * pyval) :=
  [("BTC", PyFloat (Ffin false 1 (-1))); ("ETH", PyFloat (Ffin false 0 0));
   ("USDT", PyInt 1200)].

(** An exchange that reports [totals], accepts a main order and rejects
    every stop-loss order. *)
Definition sample_exchange (totals : list (string * pyval)) : BinanceAccount.Exchange :=
  {| BinanceAccount.fetch_balance := fun _ =>
       Ok (<["total" := BinanceAccount.Dict totals]> ∅);
     BinanceAccount.exchange_create_order := fun _ kwargs =>
       match kwarg kwargs "stopPrice" with
       | Some _ => Raise (Exception "InvalidOrder" "stop price would trigger immediately")
       | None => Ok [("id", BinanceAccount.Scalar (PyStr "42"))]
       end;
     BinanceAccount.fetch_time := fun _ => Ok 1700000000000 |}.

(** * Properties *)

(** ** Decimal digits *)

Lemma append_cons (c : ascii) (a b : string) : String c a +:+ b = String c (a +:+ b).
Proof. reflexivity. Qed.


Lemma append_assoc (a b c : string) : (a +:+ b) +:+ c = a +:+ (b +:+ c).
Proof.
  induction a as [|x a IH]; [reflexivity|].
  rewrite !append_cons. now rewrite IH.
Qed.









(** ** Stripping *)














(** ** The signal notification *)




(** ** Running the monad *)

Arguments TradingBot.signal_message : simpl never.
Arguments strip : simpl never.
Arguments exn_str : simpl never.
Arguments py_str : simpl never.
Arguments dec_Z : simpl never.

Ltac mrun :=
  unfold try_except, TradingBot.await, TradingBot.datetime_now, call, lift, log, print,
    emit, raise, get_running, set_running, mbind, M_bind, mret, M_ret;
  cbn beta iota zeta delta [fst snd history running].

Lemma events_of_app {A} (m : M A) (s : State) (d : list Event) :
  history (m s).2 = history s ++ d -> events_of m s = d.
Proof. unfold events_of. intros ->. apply drop_app_length. Qed.

Lemma signal_message_raises (lib : Lib) (symbol : string) (signal : gmap string pyval)
    (price : pyval) (timestamp : Timestamp) (e : exn) :
  TradingBot.signal_message lib symbol signal price timestamp = Raise e ->
  is_Exception e = true.
Proof.
  unfold TradingBot.signal_message, getitem, format_spec_f, float_of_int, strftime.
  intros H.
  repeat match type of H with
         | context [match ?x with _ => _ end] => destruct x; cbn [mbind Result_bind] in H
         | context [if ?x then _ else _] => destruct x; cbn [mbind Result_bind] in H
         end;
    try discriminate; injection H as <-; reflexivity.
Qed.

(** [send_signal_notification], step by step: nothing is sent when the text
    cannot be built; otherwise the text is sent once, and a failure of
    either step is logged and goes no further. *)
Lemma send_signal_notification_run (lib : Lib) (env : Collaborators)
    (symbol : string) (signal : gmap string pyval) (price : pyval) (timestamp : Timestamp)
    (s : State) :
  TradingBot.send_signal_notification lib env symbol signal price timestamp s =
    match TradingBot.signal_message lib symbol signal price timestamp with
    | Ok text =>
        let r := send_message env (history s) text in
        let h := history s ++ [EvSendMessage text r] in
        (swallowed r,
         {| running := running s && negb (stop_requested env h);
            history := h ++ failure_log "Error sending notification: " r |})
    | Raise e =>
        (Ok tt,
         {| running := running s;
            history := history s ++ [EvLog ERROR ("Error sending notification: " +:+ exn_str e)] |})
    end.
Proof.
  unfold TradingBot.send_signal_notification. mrun.
  destruct (TradingBot.signal_message lib symbol signal price timestamp) as [text|e] eqn:E.
  - destruct (send_message env (history s) text) as [[]|e]; simpl.
    + now rewrite app_nil_r.
    + destruct (is_Exception e); simpl; [reflexivity | now rewrite app_nil_r].
  - now rewrite (signal_message_raises _ _ _ _ _ _ E).
Qed.

(** C8: the text of a signal notification is a function of the symbol, the
    signal, the price and the timestamp alone: whatever the collaborators
    do, whatever the clock shows and whatever happened before, two calls with
    the same four inputs hand the notifier the same texts (the one text
    [signal_message] builds, or none when it cannot be built). *)
Theorem signal_notification_deterministic
    (lib : Lib) (env1 env2 : Collaborators) (s1 s2 : State)
    (symbol : string) (signal : gmap string pyval) (price : pyval) (timestamp : Timestamp) :
  sent_texts (events_of
                (TradingBot.send_signal_notification lib env1 symbol signal price timestamp) s1)
  = sent_texts (events_of
                  (TradingBot.send_signal_notification lib env2 symbol signal price timestamp) s2)
  /\ sent_texts (events_of
                   (TradingBot.send_signal_notification lib env1 symbol signal price timestamp) s1)
     = match TradingBot.signal_message lib symbol signal price timestamp with
       | Ok text => [text]
       | Raise _ => []
       end.
Proof.
  assert (G : forall env s,
             sent_texts (events_of
                (TradingBot.send_signal_notification lib env symbol signal price timestamp) s)
             = match TradingBot.signal_message lib symbol signal price timestamp with
               | Ok text => [text]
               | Raise _ => []
               end).
  { intros env s.
    destruct (TradingBot.signal_message lib symbol signal price timestamp) as [text|e] eqn:E.
    - rewrite (events_of_app _ s
                 (EvSendMessage text (send_message env (history s) text)
                    :: failure_log "Error sending notification: "
                         (send_message env (history s) text))).
      + destruct (send_message env (history s) text) as [[]|e]; [reflexivity|].
        simpl. now destruct (is_Exception e).
      + rewrite send_signal_notification_run, E. cbn. now rewrite <- app_assoc.
    - rewrite (events_of_app _ s
                 [EvLog ERROR ("Error sending notification: " +:+ exn_str e)]); [reflexivity|].
      now rewrite send_signal_notification_run, E. }
  split; [now rewrite !G | apply G].
Qed.

(** ** Signal dispatch *)

Lemma dispatch_inputs_raises (signal : gmap string pyval) (data : DataFrame) (e : exn) :
  dispatch_inputs signal data = Raise e -> is_Exception e = true.
Proof.
  unfold dispatch_inputs, df_getitem, iloc_last, index_last, getitem. intros H.
  repeat match type of H with
         | context [match ?x with _ => _ end] => destruct x; cbn [mbind Result_bind] in H
         end;
    try discriminate; injection H as <-; reflexivity.
Qed.

Lemma swallowed_not_Exception {A} (r : Result A) (e : exn) :
  swallowed r = Raise e -> is_Exception e = false.
Proof.
  destruct r as [a|e']; simpl; [discriminate|].
  destruct (is_Exception e') eqn:E; [discriminate | congruence].
Qed.

(** [handle_signal], step by step. *)
Lemma handle_signal_run (lib : Lib) (env : Collaborators)
    (symbol : string) (signal : gmap string pyval) (data : DataFrame) (s : State) :
  TradingBot.handle_signal lib env symbol signal data s =
    match dispatch_inputs signal data with
    | Raise e =>
        (Ok tt,
         {| running := running s;
            history := history s
                       ++ [EvLog ERROR ("Error handling signal for " +:+ symbol +:+ ": "
                                        +:+ exn_str e)] |})
    | Ok (current_price, timestamp, action) =>
        let h0 := history s
                  ++ [EvLog INFO ("Signal generated for " +:+ symbol +:+ ": "
                                  +:+ py_str lib action +:+ " at " +:+ py_str lib current_price)] in
        let r := store_signal env h0 symbol signal timestamp in
        let h1 := h0 ++ [EvStoreSignal symbol signal timestamp r] in
        let s1 := {| running := running s && negb (stop_requested env h1); history := h1 |} in
        match r with
        | Ok _ =>
            TradingBot.send_signal_notification lib env symbol signal current_price timestamp s1
        | Raise _ =>
            (swallowed r,
             {| running := running s1;
                history := h1 ++ failure_log ("Error handling signal for " +:+ symbol +:+ ": ") r |})
        end
    end.
Proof.
  unfold TradingBot.handle_signal, dispatch_inputs, df_getitem, iloc_last, index_last, getitem.
  mrun. unfold Result_bind.
  destruct (column (df_columns data) "close") as [close|]; [|reflexivity].
  destruct (last close) as [current_price|]; [|reflexivity].
  destruct (last (df_index data)) as [timestamp|]; [|reflexivity].
  destruct (signal !! "action") as [action|]; [|reflexivity].
  cbn beta iota zeta.
  set (h0 := history s ++ _).
  destruct (store_signal env h0 symbol signal timestamp) as [[]|e] eqn:E4.
  - rewrite send_signal_notification_run.
    destruct (TradingBot.signal_message lib symbol signal current_price timestamp);
      [|reflexivity].
    cbv zeta. cbn [history running].
    destruct (swallowed _) as [[]|e'] eqn:Es; [reflexivity|].
    now rewrite (swallowed_not_Exception _ _ Es).
  - simpl. rewrite !append_assoc.
    destruct (is_Exception e); simpl; [reflexivity | now rewrite app_nil_r].
Qed.




(** ** Shutdown *)

(** [shutdown], step by step: one notification, then the notifier, then the
    storage, each step only after the one before it succeeded. *)
Lemma shutdown_run (lib : Lib) (env : Collaborators) (s : State) :
  let h0 := history s ++ [EvLog INFO "Shutting down trading bot..."] in
  let t := now env h0 in
  let text := "🛑 Trading Bot Stopped at " +:+ datetime_strftime lib t in
  let h1 := h0 ++ [EvNow t] in
  let sent := send_message env h1 text in
  let h2 := h1 ++ [EvSendMessage text sent] in
  let closed1 := notifier_shutdown env h2 in
  let h3 := h2 ++ [EvNotifierShutdown closed1] in
  let closed2 := storage_close env h3 in
  let h4 := h3 ++ [EvStorageClose closed2] in
  TradingBot.shutdown lib env s =
    match sent with
    | Raise _ =>
        (swallowed sent,
         {| running := false; history := h2 ++ failure_log "Error during shutdown: " sent |})
    | Ok _ =>
        match closed1 with
        | Raise _ =>
            (swallowed closed1,
             {| running := false;
                history := h3 ++ failure_log "Error during shutdown: " closed1 |})
        | Ok _ =>
            (swallowed closed2,
             {| running := false;
                history := h4 ++ failure_log "Error during shutdown: " closed2 |})
        end
    end.
Proof.
  intros h0 t text h1 sent h2 closed1 h3 closed2 h4.
  unfold TradingBot.shutdown. mrun.
  fold h0. fold t. fold text. fold h1. fold sent.
  destruct sent as [[]|e] eqn:E1.
  - fold h2. fold closed1. destruct closed1 as [[]|e] eqn:E2.
    + fold h3. fold closed2. destruct closed2 as [[]|e] eqn:E3.
      * simpl. now rewrite app_nil_r.
      * simpl. destruct (is_Exception e); simpl; [reflexivity | now rewrite app_nil_r].
    + simpl. destruct (is_Exception e); simpl; [reflexivity | now rewrite app_nil_r].
  - simpl. destruct (is_Exception e); simpl; [reflexivity | now rewrite app_nil_r].
Qed.

Lemma count_failure_log {A} (p : Event -> bool) (prefix : string) (r : Result A) :
  (forall msg, p (EvLog ERROR msg) = false) -> count p (failure_log prefix r) = 0%nat.
Proof.
  intros Hp. destruct r as [a|e]; [reflexivity|].
  unfold count. simpl. destruct (is_Exception e); [|reflexivity].
  simpl. now rewrite Hp.
Qed.

Lemma count_cons (p : Event -> bool) (ev : Event) (d : list Event) :
  count p (ev :: d) = ((if p ev then 1 else 0) + count p d)%nat.
Proof. unfold count. simpl. now destruct (p ev). Qed.

Lemma count_app (p : Event -> bool) (d1 d2 : list Event) :
  count p (d1 ++ d2) = (count p d1 + count p d2)%nat.
Proof. unfold count. now rewrite List.filter_app, length_app. Qed.

(** The events of one [shutdown]. *)
Lemma shutdown_events (lib : Lib) (env : Collaborators) (s : State) :
  let h0 := history s ++ [EvLog INFO "Shutting down trading bot..."] in
  let t := now env h0 in
  let text := "🛑 Trading Bot Stopped at " +:+ datetime_strftime lib t in
  let h1 := h0 ++ [EvNow t] in
  let sent := send_message env h1 text in
  let h2 := h1 ++ [EvSendMessage text sent] in
  let closed1 := notifier_shutdown env h2 in
  let h3 := h2 ++ [EvNotifierShutdown closed1] in
  let closed2 := storage_close env h3 in
  events_of (TradingBot.shutdown lib env) s =
    EvLog INFO "Shutting down trading bot..." :: EvNow t :: EvSendMessage text sent ::
      match sent with
      | Raise _ => failure_log "Error during shutdown: " sent
      | Ok _ =>
          EvNotifierShutdown closed1 ::
            match closed1 with
            | Raise _ => failure_log "Error during shutdown: " closed1
            | Ok _ => EvStorageClose closed2 :: failure_log "Error during shutdown: " closed2
            end
      end.
Proof.
  intros h0 t text h1 sent h2 closed1 h3 closed2.
  apply events_of_app. rewrite shutdown_run.
  fold h0. fold t. fold text. fold h1. fold sent. fold h2. fold closed1. fold h3. fold closed2.
  unfold h3, h2, h1, h0.
  destruct sent; [destruct closed1|]; cbn [snd history]; now rewrite <- !app_assoc.
Qed.

(** C3 as stated fails: when the shutdown notification raises, neither the
    notifier nor the storage is closed. *)
Lemma failed_stop_notification_skips_closing :
  let env := sample_env (fun _ => Ok None) (Ok tt)
               (fun _ => Raise (Exception "NetworkError" "telegram unreachable")) in
  let d := events_of (TradingBot.shutdown sample_lib env) sample_state in
  count is_send_message d = 1%nat
  /\ count is_notifier_shutdown d = 0%nat
  /\ count is_storage_close d = 0%nat
  /\ result_of (TradingBot.shutdown sample_lib env) sample_state = Ok tt.
Proof. vm_compute. repeat split. Qed.

(** C3, amended: every invocation of [shutdown] clears the running flag and
    attempts exactly one shutdown notification; it attempts to close the
    notifier exactly when the notification succeeded, and the storage
    exactly when the notifier was closed successfully as well; a failure of
    any of the three is logged once and is not escalated (no [Exception]
    leaves [shutdown]). *)
Theorem shutdown_sequence (lib : Lib) (env : Collaborators) (s : State) :
  let h0 := history s ++ [EvLog INFO "Shutting down trading bot..."] in
  let t := now env h0 in
  let text := "🛑 Trading Bot Stopped at " +:+ datetime_strftime lib t in
  let h1 := h0 ++ [EvNow t] in
  let sent := send_message env h1 text in
  let h2 := h1 ++ [EvSendMessage text sent] in
  let closed1 := notifier_shutdown env h2 in
  let h3 := h2 ++ [EvNotifierShutdown closed1] in
  let closed2 := storage_close env h3 in
  let d := events_of (TradingBot.shutdown lib env) s in
  running (TradingBot.shutdown lib env s).2 = false
  /\ sent_texts d = [text]
  /\ count is_notifier_shutdown d = (if is_Ok sent then 1 else 0)%nat
  /\ count is_storage_close d = (if is_Ok sent && is_Ok closed1 then 1 else 0)%nat
  /\ count is_error d
     = (if is_Ok sent && is_Ok closed1 && is_Ok closed2 then 0
        else match result_of (TradingBot.shutdown lib env) s with
             | Ok _ => 1
             | Raise _ => 0
             end)%nat
  /\ (forall e, result_of (TradingBot.shutdown lib env) s = Raise e -> is_Exception e = false).
Proof.
  intros h0 t text h1 sent h2 closed1 h3 closed2 d.
  pose proof (shutdown_events lib env s) as Hd. cbv zeta in Hd.
  pose proof (shutdown_run lib env s) as Hr. cbv zeta in Hr.
  fold h0 t text h1 sent h2 closed1 h3 closed2 in Hd, Hr. fold d in Hd.
  unfold result_of. rewrite Hr, Hd. clear Hr Hd.
  destruct sent as [[]|e1]; [destruct closed1 as [[]|e2]; [destruct closed2 as [[]|e3]|]|];
    cbn [fst snd running is_Ok andb swallowed failure_log];
    try destruct (is_Exception _) eqn:Ex;
    repeat split; try reflexivity; try discriminate; try congruence.
Qed.

Lemma shutdown_clears_flag (lib : Lib) (env : Collaborators) (s : State) :
  running (TradingBot.shutdown lib env s).2 = false.
Proof.
  rewrite shutdown_run. cbv zeta.
  destruct (send_message _ _ _); [destruct (notifier_shutdown _ _)|]; reflexivity.
Qed.

(** C9 as stated fails: with collaborators that all succeed, a second
    [shutdown] sends a second notification and closes both resources again. *)
Lemma second_shutdown_is_not_a_noop :
  let twice := TradingBot.shutdown sample_lib quiet_env;; TradingBot.shutdown sample_lib quiet_env in
  let d := events_of twice sample_state in
  count is_send_message d = 2%nat
  /\ count is_notifier_shutdown d = 2%nat
  /\ count is_storage_close d = 2%nat.
Proof. vm_compute. repeat split. Qed.

(** C9, amended: [shutdown] keeps no record of having run.  A second
    request leaves the running flag false, but is no no-op: what it does
    does not depend on the flag, so it attempts a shutdown notification of
    its own and, when that succeeds, closes the notifier and then the
    storage again, exactly as a first request would. *)
Theorem second_shutdown_repeats (lib : Lib) (env : Collaborators) (s : State) :
  let s1 := (TradingBot.shutdown lib env s).2 in
  let h0 := history s1 ++ [EvLog INFO "Shutting down trading bot..."] in
  let t := now env h0 in
  let text := "🛑 Trading Bot Stopped at " +:+ datetime_strftime lib t in
  let sent := send_message env (h0 ++ [EvNow t]) text in
  let closed1 := notifier_shutdown env ((h0 ++ [EvNow t]) ++ [EvSendMessage text sent]) in
  let d := events_of (TradingBot.shutdown lib env) s1 in
  running s1 = false
  /\ running (TradingBot.shutdown lib env s1).2 = false
  /\ (forall b h, TradingBot.shutdown lib env {| running := b; history := h |}
                  = TradingBot.shutdown lib env {| running := true; history := h |})
  /\ sent_texts d = [text]
  /\ count is_notifier_shutdown d = (if is_Ok sent then 1 else 0)%nat
  /\ count is_storage_close d = (if is_Ok sent && is_Ok closed1 then 1 else 0)%nat.
Proof.
  intros s1 h0 t text sent closed1 d.
  split; [apply shutdown_clears_flag|]. split; [apply shutdown_clears_flag|].
  split; [intros b h; now rewrite !shutdown_run|].
  pose proof (shutdown_events lib env s1) as Hd. cbv zeta in Hd.
  fold h0 t text sent closed1 in Hd. fold d in Hd. rewrite Hd. clear Hd.
  destruct sent as [[]|e1]; [destruct closed1 as [[]|e2]; [destruct (storage_close _ _) as [[]|e3]|]|];
    cbn [is_Ok andb failure_log];
    try destruct (is_Exception _);
    repeat split; reflexivity.
Qed.

(** ** The per-symbol pipeline *)

(** What the paths of [collect_and_analyze_data] branch on. *)
Ltac scrutinee x :=
  first
    [ is_var x
    | lazymatch x with
      | get_market_data _ _ _ _ _ => idtac
      | store_market_data _ _ _ _ => idtac
      | store_signal _ _ _ _ _ => idtac
      | tdi_calculate _ _ _ => idtac
      | bollinger_calculate _ _ _ => idtac
      | generate_signal _ _ _ _ _ => idtac
      | send_message _ _ _ => idtac
      | asyncio_sleep _ _ _ => idtac
      | is_Exception _ => idtac
      | truthy _ => idtac
      | (_ <? _) => idtac
      | dispatch_inputs _ _ => idtac
      | TradingBot.signal_message _ _ _ _ _ => idtac
      end ].

Ltac path_step :=
  first
    [ rewrite handle_signal_run
    | rewrite send_signal_notification_run
    | match goal with
      | |- context [match ?x with _ => _ end] => scrutinee x; destruct x eqn:?
      | |- context [failure_log _ ?x] => scrutinee x; destruct x eqn:?
      | |- context [swallowed ?x] => scrutinee x; destruct x eqn:?
      | |- context [send_message ?env ?h ?text] => destruct (send_message env h text) eqn:?
      end ];
  cbn beta iota zeta delta [fst snd history running swallowed failure_log].

Ltac units := repeat match goal with u : unit |- _ => destruct u end.

(** Reads the oracles of [with_stop env stop] off [env]. *)
Ltac oracles :=
  cbn beta iota zeta delta
    [with_stop get_market_data store_market_data store_signal storage_initialize
       storage_close tdi_calculate bollinger_calculate generate_signal
       notifier_initialize notifier_shutdown send_message asyncio_sleep now].

(** Every path of the pipeline only adds to the history, requests the
    market data of its symbol once, and logs no overrun warning. *)
Lemma collect_trace (lib : Lib) (settings : Settings) (env : Collaborators)
    (symbol : string) (s : State) :
  exists d,
    history (TradingBot.collect_and_analyze_data lib settings env symbol s).2 = history s ++ d
    /\ fetched_symbols d = [symbol]
    /\ count is_overrun_warning d = 0%nat.
Proof.
  unfold TradingBot.collect_and_analyze_data, TradingBot.insufficient_data. mrun.
  repeat path_step.
  all: eexists; split; [rewrite <- ?app_assoc; reflexivity | split; reflexivity].
Qed.

Lemma collect_shape (lib : Lib) (settings : Settings) (env : Collaborators)
    (symbol : string) (s : State) :
  exists r b,
    TradingBot.collect_and_analyze_data lib settings env symbol s
    = (r, {| running := b;
             history := history s
                        ++ events_of (TradingBot.collect_and_analyze_data lib settings env symbol) s |}).
Proof.
  destruct (collect_trace lib settings env symbol s) as (d & Hd & _).
  rewrite (events_of_app _ s d Hd).
  destruct (TradingBot.collect_and_analyze_data lib settings env symbol s) as [r [b h]].
  simpl in Hd. subst h. now exists r, b.
Qed.

(** Splits a run of the pipeline into its paths. *)
Ltac collect_inv H :=
  revert H;
  unfold TradingBot.collect_and_analyze_data, TradingBot.insufficient_data; mrun;
  repeat path_step;
  intros H; injection H as <- <- H;
  rewrite <- ?app_assoc in H; apply app_inv_head in H; simpl in H; subst; units.

(** The events of a dispatch that goes through. *)
Lemma dispatch_path (lib : Lib) (settings : Settings) (env : Collaborators)
    (symbol : string) (s : State) (data : DataFrame) (tdi bollinger : IndicatorResult)
    (signal : gmap string pyval) (price : pyval) (timestamp : Timestamp) (action : pyval)
    (text : string) :
  dispatch_goes_through lib settings env symbol s data tdi bollinger signal price timestamp
    action text ->
  exists sent,
    events_of (TradingBot.collect_and_analyze_data lib settings env symbol) s
    = [EvGetMarketData symbol (timeframe settings) (lookback_periods settings) (Ok (Some data));
       EvStoreMarketData symbol data (Ok tt);
       EvTdiCalculate data (Ok tdi);
       EvBollingerCalculate data (Ok bollinger);
       EvGenerateSignal data tdi bollinger (Ok (Some signal));
       EvLog INFO ("Signal generated for " +:+ symbol +:+ ": " +:+ py_str lib action
                   +:+ " at " +:+ py_str lib price);
       EvStoreSignal symbol signal timestamp (Ok tt);
       EvSendMessage text sent]
      ++ failure_log "Error sending notification: " sent.
Proof.
  unfold dispatch_goes_through. cbv zeta.
  intros (Hf & Hmin & Hs & Ht & Hb & Hg & Hne & Hd & Hst & Hm).
  exists (send_message env
            (((((((history s
                   ++ [EvGetMarketData symbol (timeframe settings) (lookback_periods settings)
                         (Ok (Some data))])
                  ++ [EvStoreMarketData symbol data (Ok tt)])
                 ++ [EvTdiCalculate data (Ok tdi)])
                ++ [EvBollingerCalculate data (Ok bollinger)])
               ++ [EvGenerateSignal data tdi bollinger (Ok (Some signal))])
              ++ [EvLog INFO ("Signal generated for " +:+ symbol +:+ ": "
                              +:+ py_str lib action +:+ " at " +:+ py_str lib price)])
             ++ [EvStoreSignal symbol signal timestamp (Ok tt)]) text).
  apply events_of_app.
  unfold TradingBot.collect_and_analyze_data, TradingBot.insufficient_data. mrun.
  rewrite Hf. cbn beta iota zeta delta [fst snd history running].
  replace (df_len data <? min_data_points settings) with false
    by (symmetry; apply Z.ltb_ge; lia).
  cbn beta iota zeta delta [fst snd history running].
  rewrite Hs. cbn beta iota zeta delta [fst snd history running].
  rewrite Ht. cbn beta iota zeta delta [fst snd history running].
  rewrite Hb. cbn beta iota zeta delta [fst snd history running].
  rewrite Hg. cbn beta iota zeta delta [fst snd history running].
  replace (truthy (Some signal)) with true
    by (symmetry; unfold truthy; apply negb_true_iff, bool_decide_eq_false; exact Hne).
  cbn beta iota zeta delta [fst snd history running].
  rewrite handle_signal_run, Hd. cbn beta iota zeta delta [fst snd history running].
  rewrite Hst. rewrite send_signal_notification_run, Hm.
  cbn beta iota zeta delta [fst snd history running].
  destruct (send_message env _ text) as [[]|e] eqn:Es;
    cbn beta iota zeta delta [fst snd history running swallowed failure_log];
    try (destruct (is_Exception e) eqn:Hexc;
         cbn beta iota zeta delta [fst snd history running]; rewrite ?Hexc);
    cbn beta iota zeta delta [fst snd history running];
    rewrite <- ?app_assoc; reflexivity.
Qed.

Lemma dispatch_iff (lib : Lib) (settings : Settings) (env : Collaborators)
    (symbol : string) (s : State) (r : Result unit) (b : bool) (d : list Event) :
  TradingBot.collect_and_analyze_data lib settings env symbol s
  = (r, {| running := b; history := history s ++ d |}) ->
  count is_store_signal d = 1%nat /\ count is_send_message d = 1%nat ->
  exists data tdi bollinger signal price timestamp action text,
    dispatch_goes_through lib settings env symbol s data tdi bollinger signal price timestamp
      action text.
Proof.
  intros H. collect_inv H.
  all: unfold count; simpl; intros [H1 H2]; try discriminate.
  all: repeat match goal with
              | H : (_ <? _) = false |- _ => apply Z.ltb_ge in H
              | H : truthy (Some _) = true |- _ =>
                  unfold truthy in H; apply negb_true_iff, bool_decide_eq_false in H
              end.
  all: do 8 eexists; unfold dispatch_goes_through; cbv zeta;
    repeat (split; [eassumption|]); eassumption.
Qed.

Lemma insufficient_data_trace (lib : Lib) (settings : Settings) (env : Collaborators)
    (symbol : string) (s : State) (r : Result unit) (b : bool) (d : list Event)
    (data : option DataFrame) :
  TradingBot.collect_and_analyze_data lib settings env symbol s
  = (r, {| running := b; history := history s ++ d |}) ->
  In (EvGetMarketData symbol (timeframe settings) (lookback_periods settings) (Ok data)) d ->
  TradingBot.insufficient_data settings data = true ->
  r = Ok tt
  /\ d = [EvGetMarketData symbol (timeframe settings) (lookback_periods settings) (Ok data);
          EvLog WARNING ("Insufficient data for " +:+ symbol)].
Proof.
  intros H Hin Hins. unfold TradingBot.insufficient_data in Hins. collect_inv H.
  all: simpl in Hin;
    repeat match goal with
           | H : _ \/ _ |- _ => destruct H as [H|H]; try discriminate H
           | H : False |- _ => destruct H
           end;
    simplify_eq; try (split; reflexivity); congruence.
Qed.

(** C2 as stated fails: 100 bars are fetched (at least the 50 required) and
    the strategy returns a BUY signal, yet no notification goes out,
    because [store_signal] raises. *)
Lemma dispatch_needs_successful_store :
  let env := sample_env (fun _ => Ok (Some (sample_frame 100)))
               (Raise (Exception "PersistenceError" "disk full")) (fun _ => Ok tt) in
  let d := events_of (TradingBot.collect_and_analyze_data sample_lib sample_settings env
                        "BTC/USDT") sample_state in
  In (EvGetMarketData "BTC/USDT" "5m" 100 (Ok (Some (sample_frame 100)))) d
  /\ min_data_points sample_settings <= df_len (sample_frame 100)
  /\ In (EvGenerateSignal (sample_frame 100) [] [] (Ok (Some sample_signal))) d
  /\ truthy (Some sample_signal) = true
  /\ count is_store_signal d = 1%nat
  /\ count is_send_message d = 0%nat.
Proof.
  vm_compute. repeat split; try discriminate; auto 10.
Qed.

(** C2, amended: for every symbol, one [store_signal] call and one
    notification happen if and only if every step of the pipeline up to the
    send returns what the next one needs: the fetch returns a series that is
    non-null and at least as long as the configured minimum, the series is
    stored and both indicators return, the strategy returns a non-empty
    signal, the frame has a last close and a last index entry and the signal
    an action, [store_signal] returns normally and the notification text can
    be built.  The signal is then stored under that index entry, and the
    text is the one text handed to the notifier.  When the fetch result is
    null or shorter than the minimum, exactly one warning is logged and
    nothing else happens: no call of the data store, of the notifier, of an
    indicator or of the strategy. *)
Theorem signal_dispatch_condition
    (lib : Lib) (settings : Settings) (env : Collaborators) (symbol : string) (s : State) :
  let d := events_of (TradingBot.collect_and_analyze_data lib settings env symbol) s in
  (count is_store_signal d = 1%nat /\ count is_send_message d = 1%nat <->
   exists data tdi bollinger signal price timestamp action text,
     dispatch_goes_through lib settings env symbol s data tdi bollinger signal price
       timestamp action text)
  /\ (forall data tdi bollinger signal price timestamp action text,
        dispatch_goes_through lib settings env symbol s data tdi bollinger signal price
          timestamp action text ->
        In (EvStoreSignal symbol signal timestamp (Ok tt)) d
        /\ sent_texts d = [text])
  /\ (forall data,
        In (EvGetMarketData symbol (timeframe settings) (lookback_periods settings)
              (Ok data)) d ->
        TradingBot.insufficient_data settings data = true ->
        d = [EvGetMarketData symbol (timeframe settings) (lookback_periods settings) (Ok data);
             EvLog WARNING ("Insufficient data for " +:+ symbol)]
        /\ count is_warning d = 1%nat
        /\ count is_data_store d = 0%nat
        /\ count is_notifier d = 0%nat
        /\ count is_analysis d = 0%nat).
Proof.
  intros d.
  destruct (collect_shape lib settings env symbol s) as (r & b & Hrun). fold d in Hrun.
  assert (Hpath : forall data tdi bollinger signal price timestamp action text,
            dispatch_goes_through lib settings env symbol s data tdi bollinger signal price
              timestamp action text ->
            count is_store_signal d = 1%nat /\ count is_send_message d = 1%nat
            /\ In (EvStoreSignal symbol signal timestamp (Ok tt)) d
            /\ sent_texts d = [text]).
  { intros data tdi bollinger signal price timestamp action text Hgo.
    destruct (dispatch_path _ _ _ _ _ _ _ _ _ _ _ _ _ Hgo) as (sent & Hd).
    fold d in Hd. rewrite Hd.
    rewrite !count_app, !count_failure_log by reflexivity.
    unfold sent_texts. rewrite omap_app.
    split; [reflexivity|]. split; [reflexivity|].
    split; [apply in_or_app; left; cbn; auto 10|].
    destruct sent as [[]|e]; cbn; [reflexivity|]. now destruct (is_Exception e). }
  split; [|split].
  - split.
    + exact (dispatch_iff lib settings env symbol s r b d Hrun).
    + intros (data & tdi & bollinger & signal & price & timestamp & action & text & Hgo).
      destruct (Hpath _ _ _ _ _ _ _ _ Hgo) as (H1 & H2 & _). now split.
  - intros data tdi bollinger signal price timestamp action text Hgo.
    destruct (Hpath _ _ _ _ _ _ _ _ Hgo) as (_ & _ & H3 & H4). now split.
  - intros data Hin Hins.
    destruct (insufficient_data_trace lib settings env symbol s r b d data Hrun Hin Hins)
      as [_ Hd].
    rewrite Hd. repeat split; reflexivity.
Qed.

(** The conditions hold for BTC/USDT with the sample collaborators: 100
    bars, a BUY signal, a store and a notifier that answer. *)
Lemma signal_dispatch_condition_witness :
  let d := events_of (TradingBot.collect_and_analyze_data sample_lib sample_settings quiet_env
                        "BTC/USDT") sample_state in
  dispatch_goes_through sample_lib sample_settings quiet_env "BTC/USDT" sample_state
    (sample_frame 100) [] [] sample_signal sample_price (Ts 29700000000000) (PyStr "BUY")
    ("🟢 **BUY SIGNAL**" +:+ LF
     +:+ "📊 Symbol: BTC/USDT" +:+ LF
     +:+ "💰 Price: $30450.1250" +:+ LF
     +:+ "⏰ Time: 29700000000000" +:+ LF
     +:+ "🎯 Confidence: 72.50%" +:+ LF
     +:+ "📈 Strategy: consolidated" +:+ LF
     +:+ LF
     +:+ "**Indicator Analysis:**" +:+ LF
     +:+ "• TDI: N/A" +:+ LF
     +:+ "• Bollinger: N/A" +:+ LF
     +:+ LF
     +:+ "**Risk Management:**" +:+ LF
     +:+ "• Stop Loss: $N/A" +:+ LF
     +:+ "• Take Profit: $N/A")
  /\ count is_store_signal d = 1%nat
  /\ count is_send_message d = 1%nat.
Proof.
  intros d.
  match goal with
  | |- ?G /\ _ => assert (Hgo : G)
  end.
  { unfold dispatch_goes_through. cbv zeta.
    split; [reflexivity|]. split; [vm_compute; discriminate|].
    split; [reflexivity|]. split; [reflexivity|]. split; [reflexivity|].
    split; [reflexivity|]. split; [apply insert_non_empty|].
    split; [vm_compute; reflexivity|]. split; [reflexivity|]. vm_compute. reflexivity. }
  split; [exact Hgo|].
  apply (proj2 (proj1 (signal_dispatch_condition sample_lib sample_settings quiet_env
                         "BTC/USDT" sample_state))).
  eauto 10.
Defined.

(** C1 fails on the code: the fetch for ETH/USDT raises, the handler logs
    it and sends the alert, the alert itself raises, and that exception
    leaves [collect_and_analyze_data], ends the cycle before BTC/USDT is
    looked at, and ends [run]. *)
Lemma alert_failure_escapes_pipeline :
  let env := sample_env
               (fun symbol => if String.eqb symbol "ETH/USDT"
                              then Raise (Exception "NetworkError" "timeout")
                              else Ok (Some (sample_frame 100)))
               (Ok tt)
               (fun _ => Raise (Exception "NetworkError" "telegram unreachable")) in
  let failure := Raise (Exception "NetworkError" "telegram unreachable") in
  result_of (TradingBot.collect_and_analyze_data sample_lib sample_settings env "ETH/USDT")
    sample_state = failure
  /\ events_of (TradingBot.collect_and_analyze_data sample_lib sample_settings env "ETH/USDT")
       sample_state
     = [EvGetMarketData "ETH/USDT" "5m" 100 (Raise (Exception "NetworkError" "timeout"));
        EvLog ERROR "Error processing data for ETH/USDT: timeout";
        EvSendMessage "❌ Error processing ETH/USDT: timeout" failure]
  /\ result_of (TradingBot.run_analysis_cycle sample_lib sample_settings env) sample_state
     = failure
  /\ fetched_symbols
       (events_of (TradingBot.run_analysis_cycle sample_lib sample_settings env) sample_state)
     = ["ETH/USDT"]
  /\ result_of (TradingBot.run sample_lib sample_settings env 2) sample_state
     = Raise (Exception "NetworkError" "telegram unreachable").
Proof. vm_compute. repeat split. Qed.

(** What can leave the pipeline: an exception that is no [Exception], or
    the exception of a failed alert. *)
Lemma pipeline_escape_routes (lib : Lib) (settings : Settings) (env : Collaborators)
    (symbol : string) (s : State) (e : exn) :
  result_of (TradingBot.collect_and_analyze_data lib settings env symbol) s = Raise e ->
  is_Exception e = false
  \/ exists cause,
       In (EvSendMessage ("❌ Error processing " +:+ symbol +:+ ": " +:+ exn_str cause)
             (Raise e))
          (events_of (TradingBot.collect_and_analyze_data lib settings env symbol) s).
Proof.
  unfold result_of.
  destruct (collect_shape lib settings env symbol s) as (r & b & Hrun).
  rewrite Hrun. cbn [fst]. intros Hr.
  revert Hrun.
  generalize (events_of (TradingBot.collect_and_analyze_data lib settings env symbol) s).
  intros d H.
  collect_inv H; try discriminate Hr; injection Hr as Hr; subst;
    try (left; assumption);
    right; eexists; simpl; repeat (first [left; reflexivity | right]).
Qed.

(** ** The cycle *)

(** The pipeline never looks at the running flag, and stop requests that
    arrive while it is suspended change nothing of what it does. *)
Lemma collect_blind (lib : Lib) (settings : Settings) (env : Collaborators)
    (stop1 stop2 : list Event -> bool) (symbol : string) (s1 s2 : State) :
  history s1 = history s2 ->
  (TradingBot.collect_and_analyze_data lib settings (with_stop env stop1) symbol s1).1
  = (TradingBot.collect_and_analyze_data lib settings (with_stop env stop2) symbol s2).1
  /\ history (TradingBot.collect_and_analyze_data lib settings (with_stop env stop1) symbol s1).2
     = history (TradingBot.collect_and_analyze_data lib settings (with_stop env stop2) symbol s2).2.
Proof.
  destruct s1 as [b1 h1], s2 as [b2 h2]. cbn [history]. intros ->.
  unfold TradingBot.collect_and_analyze_data, TradingBot.insufficient_data. mrun. oracles.
  repeat (path_step; oracles).
  all: split; reflexivity.
Qed.

Lemma for_each_cons {A} (x : A) (l : list A) (body : A -> M unit) (s : State) :
  for_each (x :: l) body s =
    match body x s with
    | (Ok _, s') => for_each l body s'
    | (Raise e, s') => (Raise e, s')
    end.
Proof. reflexivity. Qed.

(** One turn of the loop over the symbols: the pipeline, then the pause
    between symbols. *)
Lemma symbol_turn (lib : Lib) (settings : Settings) (env : Collaborators)
    (symbol : string) (s : State) :
  (TradingBot.collect_and_analyze_data lib settings env symbol;;
   TradingBot.await env (fun h => asyncio_sleep env h 1000000) (EvSleep 1000000)) s =
    match TradingBot.collect_and_analyze_data lib settings env symbol s with
    | (Ok _, s') =>
        let r := asyncio_sleep env (history s') 1000000 in
        let h := history s' ++ [EvSleep 1000000 r] in
        (r, {| running := running s' && negb (stop_requested env h); history := h |})
    | (Raise e, s') => (Raise e, s')
    end.
Proof. reflexivity. Qed.

Lemma cycle_blind (lib : Lib) (settings : Settings) (env : Collaborators)
    (stop1 stop2 : list Event -> bool) (l : list string) :
  forall s1 s2,
    history s1 = history s2 ->
    let cycle env :=
      for_each l (fun symbol =>
        TradingBot.collect_and_analyze_data lib settings env symbol;;
        TradingBot.await env (fun h => asyncio_sleep env h 1000000) (EvSleep 1000000)) in
    (cycle (with_stop env stop1) s1).1 = (cycle (with_stop env stop2) s2).1
    /\ history (cycle (with_stop env stop1) s1).2 = history (cycle (with_stop env stop2) s2).2.
Proof.
  induction l as [|symbol l IH]; intros s1 s2 Hh; cbv beta zeta; [now split|].
  rewrite !for_each_cons, !symbol_turn.
  destruct (collect_blind lib settings env stop1 stop2 symbol s1 s2 Hh) as [Hr Hs].
  destruct (TradingBot.collect_and_analyze_data lib settings (with_stop env stop1) symbol s1)
    as [r1 s1'].
  destruct (TradingBot.collect_and_analyze_data lib settings (with_stop env stop2) symbol s2)
    as [r2 s2'].
  cbn [fst snd] in Hr, Hs. subst r2.
  destruct r1 as [[]|e]; [|now split].
  cbv zeta. oracles. rewrite Hs.
  destruct (asyncio_sleep env (history s2') 1000000) as [[]|e]; [|now split].
  apply IH. reflexivity.
Qed.

(** A cycle requests the market data of the symbols in their declared
    order, one after the other, and of all of them unless an exception ends
    it; it logs no overrun warning. *)
Lemma cycle_trace (lib : Lib) (settings : Settings) (env : Collaborators) (l : list string) :
  forall s,
    let cycle :=
      for_each l (fun symbol =>
        TradingBot.collect_and_analyze_data lib settings env symbol;;
        TradingBot.await env (fun h => asyncio_sleep env h 1000000) (EvSleep 1000000)) in
    exists d,
      history (cycle s).2 = history s ++ d
      /\ fetched_symbols d `prefix_of` l
      /\ ((cycle s).1 = Ok tt -> fetched_symbols d = l)
      /\ count is_overrun_warning d = 0%nat.
Proof.
  induction l as [|symbol l IH]; intros s; cbv zeta.
  - exists []. cbn. rewrite app_nil_r. repeat split; reflexivity.
  - rewrite for_each_cons, symbol_turn.
    destruct (collect_trace lib settings env symbol s) as (d1 & Hd1 & Hf1 & Hw1).
    destruct (TradingBot.collect_and_analyze_data lib settings env symbol s) as [r1 s1].
    cbn [snd] in Hd1.
    destruct r1 as [[]|e].
    + cbv zeta.
      destruct (asyncio_sleep env (history s1) 1000000) as [[]|e] eqn:Es.
      * match goal with
        | |- context [for_each l ?body ?s'] =>
            destruct (IH s') as (d2 & Hd2 & Hp2 & Hok2 & Hw2)
        end.
        cbv zeta in Hd2, Hok2. cbn [history] in Hd2.
        exists (d1 ++ EvSleep 1000000 (Ok tt) :: d2).
        split; [rewrite Hd2, Hd1; now rewrite <- !app_assoc|].
        rewrite count_app, count_cons, Hw1, Hw2.
        unfold fetched_symbols in *. rewrite omap_app, Hf1. cbn.
        split; [now apply prefix_cons|].
        split; [intros Hr; now rewrite Hok2 | reflexivity].
      * exists (d1 ++ [EvSleep 1000000 (Raise e)]).
        split; [cbn; now rewrite Hd1, <- app_assoc|].
        rewrite count_app, Hw1.
        unfold fetched_symbols in *. rewrite omap_app, Hf1. cbn.
        split; [apply prefix_cons, prefix_nil|]. split; [discriminate | reflexivity].
    + exists d1. split; [assumption|]. rewrite Hf1.
      split; [apply prefix_cons, prefix_nil|]. split; [discriminate | assumption].
Qed.

(** ** The main loop *)

(** One pass through the loop body, step by step. *)
Lemma run_iteration_run (lib : Lib) (settings : Settings) (env : Collaborators) (s : State) :
  TradingBot.run_iteration lib settings env s =
    let start_time := now env (history s) in
    match TradingBot.run_analysis_cycle lib settings env
            {| running := running s; history := history s ++ [EvNow start_time] |} with
    | (Raise e, s1) => (Raise e, s1)
    | (Ok _, s1) =>
        let end_time := now env (history s1) in
        let cycle_duration := end_time - start_time in
        let sleep_time := Z.max 0 (analysis_interval settings - cycle_duration) in
        let h := history s1 ++ [EvNow end_time] in
        if 0 <? sleep_time
        then
          let debug := EvLog DEBUG ("Cycle completed in " +:+ seconds_2f lib cycle_duration
                                    +:+ "s, sleeping for " +:+ seconds_2f lib sleep_time +:+ "s") in
          let slept := asyncio_sleep env (h ++ [debug]) sleep_time in
          (slept,
           {| running := running s1
                         && negb (stop_requested env (h ++ [debug; EvSleep sleep_time slept]));
              history := h ++ [debug; EvSleep sleep_time slept] |})
        else
          (Ok tt,
           {| running := running s1;
              history := h ++ [EvLog WARNING ("Cycle took " +:+ seconds_2f lib cycle_duration
                                              +:+ "s, longer than interval!")] |})
    end.
Proof.
  unfold TradingBot.run_iteration. mrun.
  destruct (TradingBot.run_analysis_cycle lib settings env _) as [[[]|e] s1]; [|reflexivity].
  cbv zeta. destruct (0 <? _); [|reflexivity].
  cbn [history running]. now rewrite <- !app_assoc.
Qed.

Lemma main_loop_step (lib : Lib) (settings : Settings) (env : Collaborators)
    (fuel : nat) (s : State) :
  TradingBot.main_loop lib settings env (S fuel) s =
    if running s
    then match TradingBot.run_iteration lib settings env s with
         | (Ok _, s') => TradingBot.main_loop lib settings env fuel s'
         | (Raise e, s') => (Raise e, s')
         end
    else (Ok Finished, s).
Proof. cbn [TradingBot.main_loop]. mrun. now destruct (running s). Qed.

(** C5: after a cycle that has run through, the pause is
    [max(0, analysis_interval - elapsed)].  When it is positive the loop
    sleeps exactly that long and logs no overrun warning; when the cycle
    took at least the interval the pause is 0, no sleep is requested, the
    overrun warning is logged exactly once in this pass, and the loop, if
    still running, goes on right there with the next pass over all the
    symbols. *)
Theorem end_of_cycle_pause
    (lib : Lib) (settings : Settings) (env : Collaborators) (s s1 : State) :
  let start_time := now env (history s) in
  TradingBot.run_analysis_cycle lib settings env
    {| running := running s; history := history s ++ [EvNow start_time] |} = (Ok tt, s1) ->
  let end_time := now env (history s1) in
  let elapsed := end_time - start_time in
  let pause := Z.max 0 (analysis_interval settings - elapsed) in
  let h := history s1 ++ [EvNow end_time] in
  let debug := EvLog DEBUG ("Cycle completed in " +:+ seconds_2f lib elapsed
                            +:+ "s, sleeping for " +:+ seconds_2f lib pause +:+ "s") in
  let warning := EvLog WARNING ("Cycle took " +:+ seconds_2f lib elapsed
                                +:+ "s, longer than interval!") in
  (0 < pause ->
   let slept := asyncio_sleep env (h ++ [debug]) pause in
   TradingBot.run_iteration lib settings env s
   = (slept,
      {| running := running s1 && negb (stop_requested env (h ++ [debug; EvSleep pause slept]));
         history := h ++ [debug; EvSleep pause slept] |})
   /\ count is_overrun_warning (events_of (TradingBot.run_iteration lib settings env) s) = 0%nat)
  /\ (analysis_interval settings <= elapsed ->
      pause = 0
      /\ TradingBot.run_iteration lib settings env s
         = (Ok tt, {| running := running s1; history := h ++ [warning] |})
      /\ count is_overrun_warning (events_of (TradingBot.run_iteration lib settings env) s)
         = 1%nat
      /\ (forall fuel,
            running s = true -> running s1 = true ->
            TradingBot.main_loop lib settings env (S fuel) s
            = TradingBot.main_loop lib settings env fuel
                {| running := true; history := h ++ [warning] |})).
Proof.
  intros start_time Hcycle end_time elapsed pause h debug warning.
  pose proof (run_iteration_run lib settings env s) as Hrun. cbv zeta in Hrun.
  fold start_time in Hrun. rewrite Hcycle in Hrun.
  fold end_time elapsed pause h debug warning in Hrun.
  destruct (cycle_trace lib settings env (symbols settings)
              {| running := running s; history := history s ++ [EvNow start_time] |})
    as (d & Hd & _ & _ & Hw).
  cbv zeta in Hd. fold (TradingBot.run_analysis_cycle lib settings env) in Hd.
  rewrite Hcycle in Hd. cbn [snd history] in Hd.
  split.
  - intros Hpos slept. apply Z.ltb_lt in Hpos. rewrite Hpos in Hrun.
    split; [assumption|].
    rewrite (events_of_app _ s (EvNow start_time :: d
                                  ++ [EvNow end_time; debug; EvSleep pause slept])).
    + rewrite count_cons, count_app, Hw. reflexivity.
    + rewrite Hrun. cbn [snd history]. fold slept. unfold h. rewrite Hd.
      rewrite <- !app_assoc. reflexivity.
  - intros Hover.
    assert (Hzero : pause = 0) by (unfold pause; lia).
    rewrite Hzero in Hrun. cbn [Z.ltb Z.compare] in Hrun.
    split; [assumption|]. split; [assumption|]. split.
    + rewrite (events_of_app _ s (EvNow start_time :: d ++ [EvNow end_time; warning])).
      * rewrite count_cons, count_app, Hw. reflexivity.
      * rewrite Hrun. cbn [snd history]. unfold h. rewrite Hd.
        rewrite <- !app_assoc. reflexivity.
    + intros fuel Hs Hs1. rewrite main_loop_step, Hs, Hrun. now rewrite Hs1.
Qed.

(** The theorem applies to the sample collaborators under the five-second
    interval: the cycle over the two symbols returns and overruns. *)
Lemma end_of_cycle_pause_witness :
  let s0 := {| running := true; history := [EvNow 0] |} in
  let s1 := (TradingBot.run_analysis_cycle sample_lib hurried_settings quiet_env s0).2 in
  TradingBot.run_analysis_cycle sample_lib hurried_settings quiet_env s0 = (Ok tt, s1)
  /\ Z.max 0 (analysis_interval hurried_settings - (now quiet_env (history s1) - 0)) = 0.
Proof.
  assert (H : TradingBot.run_analysis_cycle sample_lib hurried_settings quiet_env
                {| running := true; history := [EvNow 0] |}
              = (Ok tt, (TradingBot.run_analysis_cycle sample_lib hurried_settings quiet_env
                           {| running := true; history := [EvNow 0] |}).2))
    by (vm_compute; reflexivity).
  split; [exact H|].
  refine (proj1 (proj2 (end_of_cycle_pause sample_lib hurried_settings quiet_env sample_state
                          _ H) _)).
  vm_compute. discriminate.
Defined.

(** ** Stopping *)

(** C6 as stated fails: the interrupt handler does not set the running
    flag; it schedules [shutdown] and raises [SystemExit(0)].  Such an
    exception, surfacing at the await of the fetch for ETH/USDT, is caught by
    no [except Exception] clause: it ends the cycle mid-way, BTC/USDT is
    never processed, and [run] ends with it. *)
Lemma interrupt_is_preemptive :
  let env := sample_env
               (fun symbol => if String.eqb symbol "ETH/USDT"
                              then Raise (SystemExit 0)
                              else Ok (Some (sample_frame 100)))
               (Ok tt) (fun _ => Ok tt) in
  TradingBot.signal_handler true 2 sample_state
  = (Raise (SystemExit 0),
     {| running := true;
        history := [EvPrint (LF +:+ "Received signal 2, shutting down...");
                    EvCreateTask "bot.shutdown()"] |})
  /\ events_of (TradingBot.run_analysis_cycle sample_lib sample_settings env) sample_state
     = [EvGetMarketData "ETH/USDT" "5m" 100 (Raise (SystemExit 0))]
  /\ result_of (TradingBot.run sample_lib sample_settings env 2) sample_state
     = Raise (SystemExit 0).
Proof. vm_compute. repeat split. Qed.

Lemma run_analysis_cycle_events (lib : Lib) (settings : Settings) (env : Collaborators)
    (s : State) :
  history (TradingBot.run_analysis_cycle lib settings env s).2
  = history s ++ events_of (TradingBot.run_analysis_cycle lib settings env) s.
Proof.
  destruct (cycle_trace lib settings env (symbols settings) s) as (d & Hd & _).
  cbv zeta in Hd. fold (TradingBot.run_analysis_cycle lib settings env) in Hd.
  now rewrite (events_of_app _ s d Hd).
Qed.

(** C6, amended: [shutdown] clears the running flag, and the main loop reads
    the flag only in its [while] test, at the cycle boundary.  Clearing the
    flag while a cycle is in progress changes nothing of that cycle, which
    requests every configured symbol unless an exception ends it; the loop
    then stops at its next test without starting another cycle.  An
    external interrupt is no such request: the handler leaves the flag as it
    is, schedules [shutdown] and raises [SystemExit(0)], and an exception
    that is no [Exception], raised at an await of the pipeline, passes the
    [except] clause unlogged and ends the cycle there. *)
Theorem stop_flag_read_at_cycle_boundary
    (lib : Lib) (settings : Settings) (env : Collaborators) :
  (forall s, running (TradingBot.shutdown lib env s).2 = false)
  /\ (forall stop1 stop2 s1 s2,
        history s1 = history s2 ->
        result_of (TradingBot.run_analysis_cycle lib settings (with_stop env stop1)) s1
        = result_of (TradingBot.run_analysis_cycle lib settings (with_stop env stop2)) s2
        /\ events_of (TradingBot.run_analysis_cycle lib settings (with_stop env stop1)) s1
           = events_of (TradingBot.run_analysis_cycle lib settings (with_stop env stop2)) s2)
  /\ (forall s,
        result_of (TradingBot.run_analysis_cycle lib settings env) s = Ok tt ->
        fetched_symbols (events_of (TradingBot.run_analysis_cycle lib settings env) s)
        = symbols settings)
  /\ (forall fuel s,
        running s = false ->
        TradingBot.main_loop lib settings env (S fuel) s = (Ok Finished, s))
  /\ (forall fuel s s',
        running s = true ->
        TradingBot.run_iteration lib settings env s = (Ok tt, s') ->
        running s' = false ->
        TradingBot.main_loop lib settings env (S (S fuel)) s = (Ok Finished, s'))
  /\ (forall bot signum s,
        TradingBot.signal_handler bot signum s
        = (Raise (SystemExit 0),
           {| running := running s;
              history := history s
                         ++ EvPrint (LF +:+ "Received signal " +:+ dec_Z signum
                                     +:+ ", shutting down...")
                            :: (if bot then [EvCreateTask "bot.shutdown()"] else []) |}))
  /\ (forall symbol s e,
        is_Exception e = false ->
        get_market_data env (history s) symbol (timeframe settings) (lookback_periods settings)
        = Raise e ->
        result_of (TradingBot.collect_and_analyze_data lib settings env symbol) s = Raise e
        /\ events_of (TradingBot.collect_and_analyze_data lib settings env symbol) s
           = [EvGetMarketData symbol (timeframe settings) (lookback_periods settings)
                (Raise e)]).
Proof.
  split; [intros s; apply shutdown_clears_flag|].
  split.
  { intros stop1 stop2 s1 s2 Hh.
    pose proof (cycle_blind lib settings env stop1 stop2 (symbols settings) s1 s2 Hh) as [Hr Hs].
    cbv beta zeta in Hr, Hs.
    fold (TradingBot.run_analysis_cycle lib settings (with_stop env stop1)) in Hr, Hs.
    fold (TradingBot.run_analysis_cycle lib settings (with_stop env stop2)) in Hr, Hs.
    split; [exact Hr|].
    rewrite !run_analysis_cycle_events, Hh in Hs.
    now apply app_inv_head in Hs. }
  split.
  { intros s Hok.
    destruct (cycle_trace lib settings env (symbols settings) s) as (d & Hd & _ & Hall & _).
    cbv zeta in Hd, Hall. fold (TradingBot.run_analysis_cycle lib settings env) in Hd, Hall.
    rewrite (events_of_app _ s d Hd). now apply Hall. }
  split; [intros fuel s Hs; now rewrite main_loop_step, Hs|].
  split.
  { intros fuel s s' Hs Hrun Hs'.
    now rewrite main_loop_step, Hs, Hrun, main_loop_step, Hs'. }
  split.
  { intros bot signum s. unfold TradingBot.signal_handler.
    destruct bot; mrun; [now rewrite <- app_assoc | reflexivity]. }
  intros symbol s e He Hfetch.
  assert (Hrun : TradingBot.collect_and_analyze_data lib settings env symbol s
                 = (Raise e,
                    {| running := running s
                                  && negb (stop_requested env
                                             (history s
                                              ++ [EvGetMarketData symbol (timeframe settings)
                                                    (lookback_periods settings) (Raise e)]));
                       history := history s
                                  ++ [EvGetMarketData symbol (timeframe settings)
                                        (lookback_periods settings) (Raise e)] |})).
  { unfold TradingBot.collect_and_analyze_data. mrun. now rewrite Hfetch, He. }
  split; [unfold result_of; now rewrite Hrun|].
  apply events_of_app. now rewrite Hrun.
Qed.

(** ** The market-data clients *)



(** A frame built from the exchange's rows has the five value columns, in
    order, each holding its cell of every row, and is indexed by the parsed
    first cells. *)
Lemma frame_of_ohlcv_shape (lib : Lib) (ohlcv : list (list pyval)) (df : DataFrame) :
  frame_of_ohlcv lib ohlcv = Ok df ->
  df_columns df
  = [("open", map (fun row => nth 1 row PyNone) ohlcv);
     ("high", map (fun row => nth 2 row PyNone) ohlcv);
     ("low", map (fun row => nth 3 row PyNone) ohlcv);
     ("close", map (fun row => nth 4 row PyNone) ohlcv);
     ("volume", map (fun row => nth 5 row PyNone) ohlcv)]
  /\ traverse (to_datetime_ms lib) (map (fun row => nth 0 row PyNone) ohlcv) = Ok (df_index df).
Proof.
  unfold frame_of_ohlcv.
  assert (Hcols : forall cols, pd_DataFrame ohlcv ohlcv_labels = Ok cols ->
                    cols = [("timestamp", map (fun row => nth 0 row PyNone) ohlcv);
                            ("open", map (fun row => nth 1 row PyNone) ohlcv);
                            ("high", map (fun row => nth 2 row PyNone) ohlcv);
                            ("low", map (fun row => nth 3 row PyNone) ohlcv);
                            ("close", map (fun row => nth 4 row PyNone) ohlcv);
                            ("volume", map (fun row => nth 5 row PyNone) ohlcv)]).
  { intros cols. unfold pd_DataFrame.
    destruct ohlcv as [|row rows]; [now intros [= <-]|].
    destruct (Nat.eqb _ _); [|discriminate]. now intros [= <-]. }
  destruct (pd_DataFrame ohlcv ohlcv_labels) as [cols|e0]; cbn [mbind Result_bind];
    [|discriminate].
  rewrite (Hcols cols eq_refl). cbn [df_getitem column String.eqb Ascii.eqb Bool.eqb].
  cbn [mbind Result_bind].
  destruct (traverse _ _) as [parsed|e1]; cbn [mbind Result_bind]; [|discriminate].
  intros [= <-]. split; reflexivity.
Qed.


Lemma traverse_Ok_iff (lib : Lib) (l : list pyval) :
  is_Ok (traverse (to_datetime_ms lib) l) = true
  <-> Forall (fun v => is_Some (parse_ms lib v)) l.
Proof.
  induction l as [|v l IH]; cbn [traverse]; [split; [constructor | reflexivity]|].
  destruct (to_datetime_ms lib v) as [t|e0] eqn:Ev; cbn [mbind Result_bind].
  - assert (Hv : is_Some (parse_ms lib v)).
    { unfold to_datetime_ms in Ev. destruct (parse_ms lib v); [eauto | discriminate]. }
    destruct (traverse (to_datetime_ms lib) l) as [ts|e]; cbn [mbind Result_bind is_Ok] in *.
    + split; [intros _; constructor; [exact Hv | now apply IH] | reflexivity].
    + split; [discriminate|]. intros H. apply Forall_cons in H as [_ H]. now apply IH.
  - split; [discriminate|]. intros H. apply Forall_cons in H as [[x Hx] _].
    unfold to_datetime_ms in Ev. rewrite Hx in Ev. discriminate.
Qed.






(** ** The notifier of [src/notifications/telegram.py]

    This class is not the notifier [src/main.py] imports: it reads other
    keys and has a template of its own, with no yellow emoji and no default
    for a missing field. *)
Lemma legacy_signal_text (lib : Lib) (signal : gmap string pyval)
    (symbol timeframe text : string) :
  TelegramNotifier.signal_text lib signal symbol timeframe = Ok text ->
  exists type rest,
    signal !! "type" = Some type
    /\ text = (if py_eq_str type "BUY" then "🟢" else "🔴") +:+ rest
    /\ is_Some (signal !! "entry")
    /\ is_Some (signal !! "stop_loss")
    /\ is_Some (signal !! "take_profit").
Proof.
  unfold TelegramNotifier.signal_text, getitem. intros H.
  destruct (signal !! "type") as [type|]; [|discriminate].
  cbn [mbind Result_bind] in H.
  destruct (signal !! "entry") as [entry|]; [|discriminate].
  cbn [mbind Result_bind] in H.
  destruct (format_spec_f 4 entry); [|discriminate].
  cbn [mbind Result_bind] in H.
  destruct (signal !! "stop_loss") as [stop_loss|]; [|discriminate].
  cbn [mbind Result_bind] in H.
  destruct (format_spec_f 4 stop_loss); [|discriminate].
  cbn [mbind Result_bind] in H.
  destruct (signal !! "take_profit") as [take_profit|]; [|discriminate].
  cbn [mbind Result_bind] in H.
  destruct (format_spec_f 4 take_profit); [|discriminate].
  cbn [mbind Result_bind] in H.
  destruct (signal !! "risk_factor"); [|discriminate].
  cbn [mbind Result_bind] in H.
  destruct (signal !! "tdi_value") as [tdi_value|]; [|discriminate].
  cbn [mbind Result_bind] in H.
  destruct (format_spec_f 2 tdi_value); [|discriminate].
  cbn [mbind Result_bind] in H.
  destruct (signal !! "time"); [|discriminate].
  cbn [mbind Result_bind] in H.
  injection H as <-.
  eexists _, _. split; [reflexivity|]. split; [reflexivity|]. eauto.
Qed.

(** The theorem on the stop flag applies to a stop request that arrives
    while the market data of the first symbol is being stored: the cycle
    still requests both symbols, and the loop ends after it. *)
Lemma stop_flag_read_at_cycle_boundary_witness :
  let env := with_stop quiet_env (fun h => Nat.eqb (length h) 3) in
  let s' := (TradingBot.run_iteration sample_lib sample_settings env sample_state).2 in
  running s' = false
  /\ fetched_symbols (history s') = ["ETH/USDT"; "BTC/USDT"]
  /\ TradingBot.main_loop sample_lib sample_settings env 2 sample_state = (Ok Finished, s').
Proof.
  split; [vm_compute; reflexivity|]. split; [vm_compute; reflexivity|].
  refine (proj1 (proj2 (proj2 (proj2 (proj2
            (stop_flag_read_at_cycle_boundary sample_lib sample_settings
               (with_stop quiet_env (fun h => Nat.eqb (length h) 3)))))))
            O sample_state _ eq_refl _ _).
  - vm_compute. reflexivity.
  - vm_compute. reflexivity.
Defined.

(** ** The scenarios of the specification *)

(** 100 bars for BTC/USDT and a BUY signal of confidence 72.5: one
    [store_signal] call and one notification, which carries the template
    filled in. *)
Lemma buy_signal_scenario :
  let d := events_of (TradingBot.collect_and_analyze_data sample_lib sample_settings quiet_env
                        "BTC/USDT") sample_state in
  count is_store_signal d = 1%nat
  /\ sent_texts d
     = ["🟢 **BUY SIGNAL**" +:+ LF
        +:+ "📊 Symbol: BTC/USDT" +:+ LF
        +:+ "💰 Price: $30450.1250" +:+ LF
        +:+ "⏰ Time: 29700000000000" +:+ LF
        +:+ "🎯 Confidence: 72.50%" +:+ LF
        +:+ "📈 Strategy: consolidated" +:+ LF
        +:+ LF
        +:+ "**Indicator Analysis:**" +:+ LF
        +:+ "• TDI: N/A" +:+ LF
        +:+ "• Bollinger: N/A" +:+ LF
        +:+ LF
        +:+ "**Risk Management:**" +:+ LF
        +:+ "• Stop Loss: $N/A" +:+ LF
        +:+ "• Take Profit: $N/A"].
Proof. vm_compute. split; reflexivity. Qed.

(** Only 10 bars: one warning, and neither the data store nor the notifier
    is called. *)
Lemma short_series_scenario :
  let env := sample_env (fun _ => Ok (Some (sample_frame 10))) (Ok tt) (fun _ => Ok tt) in
  events_of (TradingBot.collect_and_analyze_data sample_lib sample_settings env "BTC/USDT")
    sample_state
  = [EvGetMarketData "BTC/USDT" "5m" 100 (Ok (Some (sample_frame 10)));
     EvLog WARNING "Insufficient data for BTC/USDT"].
Proof. vm_compute. reflexivity. Qed.

(** The fetch for ETH/USDT fails and the alert goes through: the alert
    names ETH/USDT, and BTC/USDT is processed and dispatched as usual. *)
Lemma failed_fetch_scenario :
  let env := sample_env
               (fun symbol => if String.eqb symbol "ETH/USDT"
                              then Raise (Exception "NetworkError" "timeout")
                              else Ok (Some (sample_frame 100)))
               (Ok tt) (fun _ => Ok tt) in
  let d := events_of (TradingBot.run_analysis_cycle sample_lib sample_settings env)
             sample_state in
  result_of (TradingBot.run_analysis_cycle sample_lib sample_settings env) sample_state = Ok tt
  /\ fetched_symbols d = ["ETH/USDT"; "BTC/USDT"]
  /\ head (sent_texts d) = Some "❌ Error processing ETH/USDT: timeout"
  /\ count is_store_signal d = 1%nat
  /\ count is_send_message d = 2%nat.
Proof. vm_compute. repeat split. Qed.

(** * Further properties of the code *)

(** ** What the loop does and never does *)

Lemma count_orb_zero (p q : Event -> bool) (d : list Event) :
  count (fun ev => p ev || q ev) d = 0%nat -> count p d = 0%nat /\ count q d = 0%nat.
Proof.
  unfold count. induction d as [|ev d IH]; [now split|].
  cbn [List.filter]. destruct (p ev), (q ev); cbn; try discriminate. exact IH.
Qed.

Lemma count_outside_loop (d : list Event) :
  count is_outside_loop d = 0%nat ->
  count is_shutdown_log d = 0%nat /\ count is_notifier_shutdown d = 0%nat
  /\ count is_storage_close d = 0%nat /\ count is_fatal_log d = 0%nat.
Proof.
  intros H. apply count_orb_zero in H as [H Hf].
  apply count_orb_zero in H as [H Hs]. apply count_orb_zero in H as [Hl Hn].
  auto.
Qed.

Lemma collect_frame (lib : Lib) (settings : Settings) (env : Collaborators)
    (symbol : string) (s : State) :
  exists d,
    history (TradingBot.collect_and_analyze_data lib settings env symbol s).2 = history s ++ d
    /\ count is_pause d = 0%nat
    /\ count is_outside_loop d = 0%nat
    /\ (length (sent_texts d) <= 1)%nat
    /\ (forall e,
          (TradingBot.collect_and_analyze_data lib settings env symbol s).1 = Raise e ->
          is_Exception e = true ->
          exists ev, last d = Some ev /\ unguarded_failure ev e)
    /\ ((forall h, stop_requested env h = false) ->
        running (TradingBot.collect_and_analyze_data lib settings env symbol s).2 = running s).
Proof.
  unfold TradingBot.collect_and_analyze_data, TradingBot.insufficient_data. mrun.
  repeat path_step.
  all: eexists; split; [rewrite <- ?app_assoc; reflexivity|].
  all: split; [reflexivity|]; split; [reflexivity|]; split; [cbn; lia|].
  all: split.
  all: try (intros Hstop; rewrite ?Hstop; cbn [negb]; rewrite ?andb_true_r; reflexivity).
  all: intros e' [= <-] Hexc; try discriminate Hexc; try congruence.
  all: try (eexists; split; [reflexivity|]; cbn; auto).
Qed.

Lemma fetched_symbols_app (d1 d2 : list Event) :
  fetched_symbols (d1 ++ d2) = fetched_symbols d1 ++ fetched_symbols d2.
Proof. apply omap_app. Qed.

Lemma sent_texts_app (d1 d2 : list Event) :
  sent_texts (d1 ++ d2) = sent_texts d1 ++ sent_texts d2.
Proof. apply omap_app. Qed.

(** One turn of the loop over the symbols keeps what the pipeline keeps and
    adds the pause. *)
Lemma cycle_frame (lib : Lib) (settings : Settings) (env : Collaborators) (l : list string) :
  forall s,
    let cycle :=
      for_each l (fun symbol =>
        TradingBot.collect_and_analyze_data lib settings env symbol;;
        TradingBot.await env (fun h => asyncio_sleep env h 1000000) (EvSleep 1000000)) in
    exists d,
      history (cycle s).2 = history s ++ d
      /\ (count is_pause d <= length (fetched_symbols d))%nat
      /\ ((cycle s).1 = Ok tt -> count is_pause d = length l)
      /\ count is_outside_loop d = 0%nat
      /\ (length (sent_texts d) <= length (fetched_symbols d))%nat
      /\ (forall e,
            (cycle s).1 = Raise e -> is_Exception e = true ->
            exists ev, last d = Some ev /\ unguarded_failure ev e)
      /\ ((forall h, stop_requested env h = false) -> running (cycle s).2 = running s)
      /\ (l = [] -> d = [])
      /\ ((cycle s).1 = Ok tt -> l <> [] -> last d = Some (EvSleep 1000000 (Ok tt))).
Proof.
  induction l as [|symbol l IH]; intros s; cbv zeta.
  - exists []. cbn. rewrite app_nil_r.
    repeat split; try reflexivity; try lia; try discriminate. congruence.
  - rewrite for_each_cons, symbol_turn.
    destruct (collect_frame lib settings env symbol s) as (d1 & Hd1 & Hp1 & Hc1 & Hs1 & Hl1 & Hr1).
    destruct (collect_trace lib settings env symbol s) as (d1' & Hd1' & Hf1 & _).
    rewrite Hd1 in Hd1'. apply app_inv_head in Hd1'. subst d1'.
    destruct (TradingBot.collect_and_analyze_data lib settings env symbol s) as [r1 s1].
    cbn [fst snd] in Hd1, Hl1, Hr1.
    destruct r1 as [[]|e].
    + cbv zeta.
      destruct (asyncio_sleep env (history s1) 1000000) as [[]|e] eqn:Es.
      * match goal with
        | |- context [for_each l ?body ?s'] =>
            destruct (IH s') as (d2 & Hd2 & Hp2 & Hall2 & Hc2 & Hs2 & Hl2 & Hr2 & Hnil2 & Hlast2)
        end.
        cbv zeta in Hd2, Hall2, Hl2, Hr2, Hlast2. cbn [history running] in Hd2, Hr2.
        exists (d1 ++ EvSleep 1000000 (Ok tt) :: d2).
        split; [rewrite Hd2, Hd1; now rewrite <- !app_assoc|].
        rewrite !count_app, !count_cons, Hp1, Hc1, Hc2.
        rewrite !fetched_symbols_app, !sent_texts_app, Hf1, !length_app.
        change (fetched_symbols (EvSleep 1000000 (Ok tt) :: d2)) with (fetched_symbols d2).
        change (sent_texts (EvSleep 1000000 (Ok tt) :: d2)) with (sent_texts d2).
        change (is_pause (EvSleep 1000000 (Ok tt))) with true.
        change (is_outside_loop (EvSleep 1000000 (Ok tt))) with false.
        cbn [length].
        split; [lia|]. split; [intros Hr; rewrite (Hall2 Hr); lia|].
        split; [reflexivity|]. split; [lia|].
        split.
        -- intros e He Hexc. destruct (Hl2 e He Hexc) as (ev & Hlast & Hev).
           exists ev. split; [|assumption].
           now rewrite last_app_cons, last_cons, Hlast.
        -- split; [|split; [discriminate|]].
           ++ intros Hstop. rewrite (Hr2 Hstop), Hstop, (Hr1 Hstop). cbn.
              now rewrite andb_true_r.
           ++ intros Hok _. rewrite last_app_cons, last_cons.
              destruct l as [|symbol' l']; [now rewrite (Hnil2 eq_refl)|].
              now rewrite (Hlast2 Hok).
      * exists (d1 ++ [EvSleep 1000000 (Raise e)]).
        split; [cbn; now rewrite Hd1, <- app_assoc|].
        rewrite !count_app, Hp1, Hc1.
        rewrite !fetched_symbols_app, !sent_texts_app, Hf1, !length_app.
        change (fetched_symbols [EvSleep 1000000 (Raise e)]) with (@nil string).
        change (sent_texts [EvSleep 1000000 (Raise e)]) with (@nil string).
        change (count is_pause [EvSleep 1000000 (Raise e)]) with 1%nat.
        change (count is_outside_loop [EvSleep 1000000 (Raise e)]) with 0%nat.
        cbn [length].
        split; [lia|]. split; [discriminate|]. split; [reflexivity|]. split; [lia|].
        split.
        -- intros e' [= <-] _. exists (EvSleep 1000000 (Raise e)).
           split; [apply last_snoc | reflexivity].
        -- split; [|split; discriminate].
           intros Hstop. rewrite Hstop, (Hr1 Hstop). cbn. now rewrite andb_true_r.
    + exists d1. split; [assumption|]. rewrite Hp1, Hf1.
      split; [cbn; lia|]. split; [discriminate|]. split; [assumption|]. split; [cbn; lia|].
      split; [intros e' [= <-] Hexc; now apply Hl1|].
      split; [|split; discriminate]. intros Hstop. now apply Hr1.
Qed.

Lemma iteration_frame (lib : Lib) (settings : Settings) (env : Collaborators) (s : State) :
  exists d,
    history (TradingBot.run_iteration lib settings env s).2 = history s ++ d
    /\ count is_outside_loop d = 0%nat
    /\ (forall e,
          (TradingBot.run_iteration lib settings env s).1 = Raise e ->
          is_Exception e = true ->
          exists ev, last d = Some ev /\ unguarded_failure ev e)
    /\ ((forall h, stop_requested env h = false) ->
        running (TradingBot.run_iteration lib settings env s).2 = running s).
Proof.
  rewrite run_iteration_run. cbv zeta.
  destruct (cycle_frame lib settings env (symbols settings)
              {| running := running s; history := history s ++ [EvNow (now env (history s))] |})
    as (d & Hd & _ & _ & Hc & _ & Hl & Hr & _ & _).
  cbv zeta in Hd, Hl, Hr. fold (TradingBot.run_analysis_cycle lib settings env) in Hd, Hl, Hr.
  destruct (TradingBot.run_analysis_cycle lib settings env _) as [[[]|e] [b1 h1]];
    cbn [fst snd history running] in Hd, Hl, Hr; subst h1; cbn [history running].
  - destruct (0 <? _) eqn:Hpos.
    + cbn [fst snd history running]. rewrite <- !app_assoc. eexists.
      split; [reflexivity|].
      split; [rewrite !count_app, Hc; reflexivity|].
      split.
      * intros e He Hexc. eexists.
        split; [rewrite !last_app; cbn [last]; reflexivity|].
        unfold unguarded_failure. now rewrite He.
      * intros Hstop. rewrite Hstop, (Hr Hstop). cbn. now rewrite andb_true_r.
    + eexists. cbn [fst snd history running].
      split; [rewrite <- !app_assoc; reflexivity|].
      split; [rewrite !count_app, Hc; reflexivity|].
      split; [discriminate | assumption].
  - exists (EvNow (now env (history s)) :: d). cbn [fst snd history running].
    split; [rewrite <- app_assoc; reflexivity|].
    split; [rewrite count_cons, Hc; reflexivity|].
    split; [|assumption].
    intros e' [= <-] Hexc. destruct (Hl e eq_refl Hexc) as (ev & Hlast & Hev).
    exists ev. split; [|assumption]. now rewrite last_cons, Hlast.
Qed.

Lemma main_loop_frame (lib : Lib) (settings : Settings) (env : Collaborators) (fuel : nat) :
  forall s,
    exists d,
      history (TradingBot.main_loop lib settings env fuel s).2 = history s ++ d
      /\ count is_outside_loop d = 0%nat
      /\ (forall e,
            (TradingBot.main_loop lib settings env fuel s).1 = Raise e ->
            is_Exception e = true ->
            exists ev, last d = Some ev /\ unguarded_failure ev e)
      /\ ((TradingBot.main_loop lib settings env fuel s).1 = Ok Finished ->
          running (TradingBot.main_loop lib settings env fuel s).2 = false)
      /\ ((forall h, stop_requested env h = false) ->
          running s = true ->
          (TradingBot.main_loop lib settings env fuel s).1 <> Ok Finished).
Proof.
  induction fuel as [|fuel IH]; intros s.
  - exists []. cbn. rewrite app_nil_r. repeat split; try discriminate.
  - rewrite main_loop_step.
    destruct (running s) eqn:Hs.
    + destruct (iteration_frame lib settings env s) as (d1 & Hd1 & Hc1 & Hl1 & Hr1).
      destruct (TradingBot.run_iteration lib settings env s) as [[[]|e] s1];
        cbn [fst snd] in Hd1, Hl1, Hr1.
      * destruct (IH s1) as (d2 & Hd2 & Hc2 & Hl2 & Hf2 & Hn2).
        exists (d1 ++ d2).
        split; [rewrite Hd2, Hd1; now rewrite app_assoc|].
        split; [rewrite count_app, Hc1, Hc2; reflexivity|].
        split.
        -- intros e He Hexc. destruct (Hl2 e He Hexc) as (ev & Hlast & Hev).
           exists ev. split; [|assumption]. now rewrite last_app, Hlast.
        -- split; [assumption|].
           intros Hstop _. apply Hn2; [assumption|]. rewrite (Hr1 Hstop). exact Hs.
      * exists d1. cbn [fst snd].
        split; [assumption|]. split; [assumption|].
        split; [intros e' [= <-]; now apply Hl1|].
        split; discriminate.
    + exists []. cbn [fst snd]. rewrite app_nil_r.
      split; [reflexivity|]. split; [reflexivity|].
      split; [discriminate|]. split; [intros _; exact Hs|].
      intros _ H. discriminate H.
Qed.

(** [run], step by step. *)
Lemma run_run (lib : Lib) (settings : Settings) (env : Collaborators) (fuel : nat) (s : State) :
  let s0 := {| running := true;
               history := history s ++ [EvLog INFO "Starting trading bot main loop..."] |} in
  TradingBot.run lib settings env fuel s =
    match TradingBot.main_loop lib settings env fuel s0 with
    | (Ok c, s1) => (Ok c, s1)
    | (Raise e, s1) =>
        if is_Exception e
        then
          let h := history s1 ++ [EvLog ERROR ("Error in main loop: " +:+ exn_str e)] in
          let text := "❌ Trading bot error: " +:+ exn_str e in
          let r := send_message env h text in
          (match r with Ok _ => Raise e | Raise e' => Raise e' end,
           {| running := running s1 && negb (stop_requested env (h ++ [EvSendMessage text r]));
              history := h ++ [EvSendMessage text r] |})
        else (Raise e, s1)
    end.
Proof.
  unfold TradingBot.run. mrun.
  destruct (TradingBot.main_loop lib settings env fuel _) as [[c|e] s1]; [reflexivity|].
  destruct (is_Exception e); [|reflexivity].
  cbn [history running]. now destruct (send_message env _ _) as [[]|e'].
Qed.

(** X6: [run] has no exit of its own.  When it returns the running flag is
    False; when no other task ever clears the flag it does not return
    however long it runs (it can only end by an exception); and it sets the
    flag itself on entry, so what the flag was before, for instance after an
    earlier [shutdown], makes no difference. *)
Theorem run_stops_only_on_request
    (lib : Lib) (settings : Settings) (env : Collaborators) (fuel : nat) (s : State) :
  (result_of (TradingBot.run lib settings env fuel) s = Ok Finished ->
   running (TradingBot.run lib settings env fuel s).2 = false)
  /\ ((forall h, stop_requested env h = false) ->
      result_of (TradingBot.run lib settings env fuel) s <> Ok Finished)
  /\ (forall b,
        TradingBot.run lib settings env fuel {| running := b; history := history s |}
        = TradingBot.run lib settings env fuel s).
Proof.
  assert (H3 : forall b,
             TradingBot.run lib settings env fuel {| running := b; history := history s |}
             = TradingBot.run lib settings env fuel s)
    by (intros b; now rewrite !run_run).
  split; [|split; [|exact H3]]; unfold result_of; rewrite run_run; cbv zeta;
    match goal with
    | |- context [TradingBot.main_loop lib settings env fuel ?s0] =>
        destruct (main_loop_frame lib settings env fuel s0) as (d & _ & _ & _ & Hf & Hn);
        cbn [running] in Hn;
        destruct (TradingBot.main_loop lib settings env fuel s0) as [[c|e] s1] eqn:Hloop
    end; cbn [fst snd] in Hf, Hn.
  - exact Hf.
  - destruct (is_Exception e); [destruct (send_message _ _ _)|]; discriminate.
  - intros Hstop. now apply Hn.
  - intros _. destruct (is_Exception e); [destruct (send_message _ _ _)|]; discriminate.
Qed.

(** With the sample collaborators nobody clears the flag: two passes of
    the loop do not end it. *)
Lemma run_stops_only_on_request_witness :
  (forall h, stop_requested quiet_env h = false)
  /\ result_of (TradingBot.run sample_lib sample_settings quiet_env 2) sample_state
     = Ok OutOfFuel.
Proof.
  split; [reflexivity|].
  destruct (result_of (TradingBot.run sample_lib sample_settings quiet_env 2) sample_state)
    as [[]|e] eqn:E.
  - destruct (proj1 (proj2 (run_stops_only_on_request sample_lib sample_settings quiet_env 2
                              sample_state)) (fun _ => eq_refl) E).
  - reflexivity.
  - vm_compute in E. discriminate E.
Defined.

(** X7: when [run] ends with an [Exception], the call that failed is the
    last thing the loop did and is one of the two calls nothing guards: the
    alert of the pipeline's [except] clause, or an [asyncio.sleep].  [run]
    then logs the failure and tries to report it through the notifier, and
    raises it again when the report went through; when the report itself
    raises, that exception is what leaves [run]. *)
Theorem run_failure_is_reported
    (lib : Lib) (settings : Settings) (env : Collaborators) (fuel : nat) (s : State) (e : exn) :
  result_of (TradingBot.run lib settings env fuel) s = Raise e ->
  is_Exception e = true ->
  exists d cause failed reported,
    events_of (TradingBot.run lib settings env fuel) s
    = d ++ [failed;
            EvLog ERROR ("Error in main loop: " +:+ exn_str cause);
            EvSendMessage ("❌ Trading bot error: " +:+ exn_str cause) reported]
    /\ unguarded_failure failed cause
    /\ is_Exception cause = true
    /\ (reported = Ok tt /\ e = cause \/ reported = Raise e).
Proof.
  unfold result_of. intros Hr Hexc.
  pose proof (run_run lib settings env fuel s) as Hrun. cbv zeta in Hrun.
  match type of Hrun with
  | context [TradingBot.main_loop lib settings env fuel ?s0] =>
      destruct (main_loop_frame lib settings env fuel s0) as (d & Hd & _ & Hl & _);
      destruct (TradingBot.main_loop lib settings env fuel s0) as [[c|cause] [b1 h1]]
  end; cbn [fst snd history running] in Hd, Hl, Hrun;
    rewrite Hrun in Hr; cbn [fst] in Hr; [discriminate|].
  destruct (is_Exception cause) eqn:Hcause.
  - destruct (Hl cause eq_refl Hcause) as (failed & Hlast & Hfailed).
    apply last_Some in Hlast as (d' & ->).
    exists (EvLog INFO "Starting trading bot main loop..." :: d'), cause, failed.
    eexists. split; [|split; [exact Hfailed|split; [exact Hcause|]]].
    + apply events_of_app. rewrite Hrun. cbn [snd history]. subst h1.
      rewrite <- !app_assoc. reflexivity.
    + cbn [fst] in Hr. subst h1. rewrite <- !app_assoc in Hr. cbn [app] in Hr.
      destruct (send_message env _ _) as [[]|e'].
      * left. split; [reflexivity|]. now injection Hr.
      * right. now injection Hr as ->.
  - cbn [fst] in Hr. injection Hr as ->. congruence.
Qed.

(** The theorem applies when the fetch for ETH/USDT times out while the
    notifier is unreachable. *)
Lemma run_failure_is_reported_witness :
  result_of (TradingBot.run sample_lib sample_settings failing_env 2) sample_state
  = Raise (Exception "NetworkError" "telegram unreachable")
  /\ exists d cause failed reported,
       events_of (TradingBot.run sample_lib sample_settings failing_env 2) sample_state
       = d ++ [failed;
               EvLog ERROR ("Error in main loop: " +:+ exn_str cause);
               EvSendMessage ("❌ Trading bot error: " +:+ exn_str cause) reported]
       /\ unguarded_failure failed cause.
Proof.
  assert (H : result_of (TradingBot.run sample_lib sample_settings failing_env 2) sample_state
              = Raise (Exception "NetworkError" "telegram unreachable"))
    by (vm_compute; reflexivity).
  split; [exact H|].
  destruct (run_failure_is_reported sample_lib sample_settings failing_env 2 sample_state
              _ H eq_refl) as (d & cause & failed & reported & Hd & Hf & _).
  now exists d, cause, failed, reported.
Defined.

(** X5: a cycle pauses one second after each symbol it has processed, the
    last one included: a cycle that returns has paused once per configured
    symbol and, unless no symbol is configured, ends with that pause.  It
    never pauses or sends more often than it fetches, and with no symbols
    configured it does nothing at all. *)
Theorem cycle_pauses_after_every_symbol
    (lib : Lib) (settings : Settings) (env : Collaborators) (s : State) :
  let d := events_of (TradingBot.run_analysis_cycle lib settings env) s in
  (count is_pause d <= length (fetched_symbols d))%nat
  /\ (length (sent_texts d) <= length (fetched_symbols d))%nat
  /\ (result_of (TradingBot.run_analysis_cycle lib settings env) s = Ok tt ->
      count is_pause d = length (symbols settings)
      /\ (symbols settings <> [] -> last d = Some (EvSleep 1000000 (Ok tt))))
  /\ (symbols settings = [] ->
      d = [] /\ result_of (TradingBot.run_analysis_cycle lib settings env) s = Ok tt).
Proof.
  intros d.
  destruct (cycle_frame lib settings env (symbols settings) s)
    as (d' & Hd & Hp & Hall & _ & Hs & _ & _ & Hnil & Hlast).
  cbv zeta in Hd, Hall, Hlast.
  fold (TradingBot.run_analysis_cycle lib settings env) in Hd, Hall, Hlast.
  assert (d = d') as -> by (apply events_of_app, Hd).
  split; [exact Hp|]. split; [exact Hs|].
  split; [intros Hok; split; [now apply Hall | now apply Hlast]|].
  intros Hempty. split; [now apply Hnil|].
  unfold result_of, TradingBot.run_analysis_cycle. now rewrite Hempty.
Qed.

(** [initialize], step by step. *)
Lemma initialize_run (lib : Lib) (env : Collaborators) (s : State) :
  let h0 := history s ++ [EvLog INFO "Initializing trading bot..."] in
  let opened := storage_initialize env h0 in
  let h1 := h0 ++ [EvStorageInitialize opened] in
  let connected := notifier_initialize env h1 in
  let h2 := h1 ++ [EvNotifierInitialize connected] in
  let t := now env h2 in
  let text := "🤖 Trading Bot Started at " +:+ datetime_strftime lib t in
  let h3 := h2 ++ [EvNow t] in
  let sent := send_message env h3 text in
  let h4 := h3 ++ [EvSendMessage text sent] in
  let reraised {A} (r : Result A) :=
    match r with
    | Raise e =>
        if is_Exception e
        then [EvLog ERROR ("Failed to initialize trading bot: " +:+ exn_str e)]
        else []
    | Ok _ => []
    end in
  result_of (TradingBot.initialize lib env) s = first_failure opened connected sent
  /\ history (TradingBot.initialize lib env s).2
     = match opened with
       | Raise _ => h1 ++ reraised opened
       | Ok _ =>
           match connected with
           | Raise _ => h2 ++ reraised connected
           | Ok _ =>
               match sent with
               | Raise _ => h4 ++ reraised sent
               | Ok _ => h4 ++ [EvLog INFO "Trading bot initialized successfully"]
               end
           end
       end.
Proof.
  intros h0 opened h1 connected h2 t text h3 sent h4 reraised.
  unfold result_of, TradingBot.initialize. mrun.
  fold h0. fold opened. fold h1.
  destruct opened as [[]|e] eqn:E1.
  - fold connected. fold h2. destruct connected as [[]|e] eqn:E2.
    + fold t. fold text. fold h3. fold sent. fold h4. destruct sent as [[]|e] eqn:E3.
      * split; reflexivity.
      * cbn. destruct (is_Exception e); cbn; rewrite ?app_nil_r; split; reflexivity.
    + cbn. destruct (is_Exception e); cbn; rewrite ?app_nil_r; split; reflexivity.
  - cbn. destruct (is_Exception e); cbn; rewrite ?app_nil_r; split; reflexivity.
Qed.

Lemma initialize_events (lib : Lib) (env : Collaborators) (s : State) :
  let h0 := history s ++ [EvLog INFO "Initializing trading bot..."] in
  let opened := storage_initialize env h0 in
  let h1 := h0 ++ [EvStorageInitialize opened] in
  let connected := notifier_initialize env h1 in
  let h2 := h1 ++ [EvNotifierInitialize connected] in
  let t := now env h2 in
  let text := "🤖 Trading Bot Started at " +:+ datetime_strftime lib t in
  let sent := send_message env (h2 ++ [EvNow t]) text in
  let reraised {A} (r : Result A) :=
    match r with
    | Raise e =>
        if is_Exception e
        then [EvLog ERROR ("Failed to initialize trading bot: " +:+ exn_str e)]
        else []
    | Ok _ => []
    end in
  history (TradingBot.initialize lib env s).2
  = history s
    ++ EvLog INFO "Initializing trading bot..." :: EvStorageInitialize opened ::
       match opened with
       | Raise _ => reraised opened
       | Ok _ =>
           EvNotifierInitialize connected ::
             match connected with
             | Raise _ => reraised connected
             | Ok _ =>
                 EvNow t :: EvSendMessage text sent ::
                   match sent with
                   | Raise _ => reraised sent
                   | Ok _ => [EvLog INFO "Trading bot initialized successfully"]
                   end
             end
       end.
Proof.
  intros h0 opened h1 connected h2 t text sent reraised.
  destruct (initialize_run lib env s) as [_ H]. cbv zeta in H. rewrite H.
  fold h0 opened h1 connected h2 t text sent.
  unfold h2, h1, h0.
  destruct opened; [destruct connected; [destruct sent|]|]; now rewrite <- !app_assoc.
Qed.

(** X1: [initialize] opens the storage, then the notifier, then sends the
    startup notification, each step only after the one before it returned.
    It returns normally exactly when all three did; otherwise it raises what
    the first failing step raised, unchanged, after logging it once when it
    is an [Exception].  The success record is logged exactly on a normal
    return; nothing is closed and no market data is requested. *)
Theorem initialization_stops_at_first_failure (lib : Lib) (env : Collaborators) (s : State) :
  let h0 := history s ++ [EvLog INFO "Initializing trading bot..."] in
  let opened := storage_initialize env h0 in
  let h1 := h0 ++ [EvStorageInitialize opened] in
  let connected := notifier_initialize env h1 in
  let h2 := h1 ++ [EvNotifierInitialize connected] in
  let t := now env h2 in
  let text := "🤖 Trading Bot Started at " +:+ datetime_strftime lib t in
  let sent := send_message env (h2 ++ [EvNow t]) text in
  let d := events_of (TradingBot.initialize lib env) s in
  result_of (TradingBot.initialize lib env) s = first_failure opened connected sent
  /\ count is_storage_initialize d = 1%nat
  /\ count is_notifier_initialize d = (if is_Ok opened then 1 else 0)%nat
  /\ sent_texts d = (if is_Ok opened && is_Ok connected then [text] else [])
  /\ count is_error d
     = match first_failure opened connected sent with
       | Raise e => if is_Exception e then 1%nat else 0%nat
       | Ok _ => 0%nat
       end
  /\ (In (EvLog INFO "Trading bot initialized successfully") d <->
      result_of (TradingBot.initialize lib env) s = Ok tt)
  /\ count is_closing d = 0%nat
  /\ fetched_symbols d = [].
Proof.
  intros h0 opened h1 connected h2 t text sent d.
  destruct (initialize_run lib env s) as [Hr _]. cbv zeta in Hr.
  fold h0 opened h1 connected h2 t text sent in Hr.
  pose proof (initialize_events lib env s) as Hd. cbv zeta in Hd.
  fold h0 opened h1 connected h2 t text sent in Hd.
  apply events_of_app in Hd. fold d in Hd.
  rewrite Hr, Hd. clear Hr Hd d.
  destruct opened as [[]|e1]; [destruct connected as [[]|e2]; [destruct sent as [[]|e3]|]|];
    cbn [first_failure is_Ok andb];
    try destruct (is_Exception _) eqn:Hexc;
    (split; [reflexivity|]); (split; [reflexivity|]); (split; [reflexivity|]);
    (split; [reflexivity|]); (split; [reflexivity|]);
    (split; [|split; reflexivity]);
    (split; [cbn; intros H; try reflexivity;
               repeat (destruct H as [H|H]; [discriminate H|]); destruct H
            | intros H; try discriminate H; cbn; auto 10]).
Qed.

Lemma run_frame (lib : Lib) (settings : Settings) (env : Collaborators) (fuel : nat) (s : State) :
  exists d,
    history (TradingBot.run lib settings env fuel s).2 = history s ++ d
    /\ count is_outside_loop d = 0%nat.
Proof.
  rewrite run_run. cbv zeta.
  match goal with
  | |- context [TradingBot.main_loop lib settings env fuel ?s0] =>
      destruct (main_loop_frame lib settings env fuel s0) as (d & Hd & Hc & _);
      destruct (TradingBot.main_loop lib settings env fuel s0) as [[c|e] [b1 h1]]
  end; cbn [fst snd history running] in Hd; subst h1.
  - exists (EvLog INFO "Starting trading bot main loop..." :: d). cbn [snd history].
    split; [now rewrite <- app_assoc|]. now rewrite count_cons, Hc.
  - destruct (is_Exception e).
    + eexists. cbn [snd history]. split; [rewrite <- !app_assoc; reflexivity|].
      cbn [app]. rewrite count_cons, count_app, Hc. reflexivity.
    + exists (EvLog INFO "Starting trading bot main loop..." :: d). cbn [snd history].
      split; [now rewrite <- app_assoc|]. now rewrite count_cons, Hc.
Qed.

Lemma initialize_frame (lib : Lib) (env : Collaborators) (s : State) :
  exists d,
    history (TradingBot.initialize lib env s).2 = history s ++ d
    /\ count is_outside_loop d = 0%nat
    /\ count is_loop_start d = 0%nat
    /\ fetched_symbols d = [].
Proof.
  eexists. split; [apply initialize_events|]. cbv zeta.
  destruct (storage_initialize env _) as [[]|e1];
    [destruct (notifier_initialize env _) as [[]|e2];
     [destruct (send_message env _ _) as [[]|e3]|]|];
    try destruct (is_Exception _); repeat split; reflexivity.
Qed.

Lemma shutdown_frame (lib : Lib) (env : Collaborators) (s : State) :
  exists d,
    history (TradingBot.shutdown lib env s).2 = history s ++ d
    /\ count is_shutdown_log d = 1%nat
    /\ (count is_notifier_shutdown d <= 1)%nat
    /\ (count is_storage_close d <= 1)%nat
    /\ count is_fatal_log d = 0%nat
    /\ count is_loop_start d = 0%nat
    /\ fetched_symbols d = []
    /\ (forall e, (TradingBot.shutdown lib env s).1 = Raise e -> is_Exception e = false)
    /\ running (TradingBot.shutdown lib env s).2 = false.
Proof.
  pose proof (shutdown_run lib env s) as Hrun. cbv zeta in Hrun. rewrite Hrun. clear Hrun.
  destruct (send_message env _ _) as [[]|e1];
    [destruct (notifier_shutdown env _) as [[]|e2];
     [destruct (storage_close env _) as [[]|e3]|]|];
    cbn [fst snd history running swallowed failure_log];
    try destruct (is_Exception _) eqn:Hexc;
    rewrite <- ?app_assoc; eexists; (split; [reflexivity|]);
    cbn; repeat split; try lia; try discriminate; congruence.
Qed.

Lemma count_fatal_log_one (msg : string) :
  count is_fatal_log [EvLog ERROR ("Fatal error: " +:+ msg)] = 1%nat.
Proof. reflexivity. Qed.

Lemma main_steps (lib : Lib) (settings : Settings) (env : Collaborators)
    (construct : list Event -> Result unit) (fuel : nat) (s : State) :
  main lib settings env construct fuel s =
    match construct (history s) with
    | Raise e => main_except e s
    | Ok _ =>
        match TradingBot.initialize lib env {| running := false; history := history s |} with
        | (Raise e, s1) => try_finally (main_except e) (TradingBot.shutdown lib env) s1
        | (Ok _, si) =>
            match TradingBot.run lib settings env fuel si with
            | (Ok OutOfFuel, s1) => (Ok OutOfFuel, s1)
            | (Ok Finished, s1) => try_finally (mret Finished) (TradingBot.shutdown lib env) s1
            | (Raise e, s1) => try_finally (main_except e) (TradingBot.shutdown lib env) s1
            end
        end
    end.
Proof.
  unfold main, new_bot.
  destruct (construct (history s)) as [[]|e]; [|reflexivity].
  unfold mbind at 1. unfold M_bind at 1.
  destruct (TradingBot.initialize lib env _) as [[[]|e] si]; reflexivity.
Qed.

(** [main] once the bot is constructed: the body, the [except] clauses, and
    [shutdown] last. *)
Lemma main_constructed (lib : Lib) (settings : Settings) (env : Collaborators)
    (construct : list Event -> Result unit) (fuel : nat) (s : State) :
  is_Ok (construct (history s)) = true ->
  result_of (main lib settings env construct fuel) s <> Ok OutOfFuel ->
  exists d s2,
    history s2 = history s ++ d
    /\ count is_shutdown_log d = 0%nat
    /\ count is_notifier_shutdown d = 0%nat
    /\ count is_storage_close d = 0%nat
    /\ (count is_fatal_log d <= 1)%nat
    /\ exists r,
         main lib settings env construct fuel s
         = (match (TradingBot.shutdown lib env s2).1 with
            | Ok _ => r
            | Raise e => Raise e
            end, (TradingBot.shutdown lib env s2).2)
         /\ (forall e, r = Raise e -> is_Exception e = false)
         /\ (count is_fatal_log d = 1%nat -> r = Raise (SystemExit 1)).
Proof.
  unfold result_of. rewrite main_steps.
  destruct (construct (history s)) as [[]|e0]; [intros _|discriminate].
  destruct (initialize_frame lib env {| running := false; history := history s |})
    as (di & Hdi & Hci & _).
  destruct (TradingBot.initialize lib env {| running := false; history := history s |})
    as [[[]|e] [bi hi]] eqn:Hinit; cbn [snd history] in Hdi; subst hi.
  - destruct (run_frame lib settings env fuel {| running := bi; history := history s ++ di |})
      as (dr & Hdr & Hcr).
    destruct (TradingBot.run lib settings env fuel _) as [[[]|e] [br hr]] eqn:Hrun;
      cbn [snd history] in Hdr; subst hr.
    + intros _.
      destruct (count_outside_loop _ Hci) as (? & ? & ? & ?).
      destruct (count_outside_loop _ Hcr) as (? & ? & ? & ?).
      exists (di ++ dr), {| running := br; history := (history s ++ di) ++ dr |}.
      split; [cbn; now rewrite app_assoc|].
      rewrite !count_app. repeat (split; [lia|]).
      exists (Ok Finished). unfold try_finally. cbn [mret M_ret].
      destruct (TradingBot.shutdown lib env _) as [[[]|e] s3]; cbn [fst snd];
        (split; [reflexivity|]); split; try discriminate; lia.
    + intros H. now destruct H.
    + intros _.
      destruct (count_outside_loop _ Hci) as (? & ? & ? & ?).
      destruct (count_outside_loop _ Hcr) as (? & ? & ? & ?).
      unfold try_finally, main_except.
      destruct e as [cls msg|code| |]; mrun.
      * exists (di ++ dr ++ [EvLog ERROR ("Fatal error: " +:+ exn_str (Exception cls msg))]),
          {| running := br;
             history := ((history s ++ di) ++ dr)
                        ++ [EvLog ERROR ("Fatal error: " +:+ exn_str (Exception cls msg))] |}.
        split; [cbn [history]; rewrite <- !app_assoc; reflexivity|].
        rewrite !count_app, count_fatal_log_one. repeat (split; [cbn; lia|]).
        exists (Raise (SystemExit 1)).
        destruct (TradingBot.shutdown lib env _) as [[[]|e] s3]; cbn [fst snd];
          (split; [reflexivity|]); split; try reflexivity; now intros ? [= <-].
      * exists (di ++ dr), {| running := br; history := (history s ++ di) ++ dr |}.
        split; [cbn; now rewrite app_assoc|].
        rewrite !count_app. repeat (split; [lia|]).
        exists (Raise (SystemExit code)).
        destruct (TradingBot.shutdown lib env _) as [[[]|e] s3]; cbn [fst snd];
          (split; [reflexivity|]); split; try (now intros ? [= <-]); lia.
      * exists (di ++ dr ++ [EvPrint (LF +:+ "Keyboard interrupt received, shutting down...")]),
          {| running := br;
             history := ((history s ++ di) ++ dr)
                        ++ [EvPrint (LF +:+ "Keyboard interrupt received, shutting down...")] |}.
        split; [cbn [history]; rewrite <- !app_assoc; reflexivity|].
        rewrite !count_app. repeat (split; [cbn; lia|]).
        exists (Ok Finished).
        destruct (TradingBot.shutdown lib env _) as [[[]|e] s3]; cbn [fst snd];
          (split; [reflexivity|]); split; try discriminate; cbn; lia.
      * exists (di ++ dr), {| running := br; history := (history s ++ di) ++ dr |}.
        split; [cbn; now rewrite app_assoc|].
        rewrite !count_app. repeat (split; [lia|]).
        exists (Raise CancelledError).
        destruct (TradingBot.shutdown lib env _) as [[[]|e] s3]; cbn [fst snd];
          (split; [reflexivity|]); split; try (now intros ? [= <-]); lia.
  - intros _.
    destruct (count_outside_loop _ Hci) as (? & ? & ? & ?).
    unfold try_finally, main_except.
    destruct e as [cls msg|code| |]; mrun.
    + exists (di ++ [EvLog ERROR ("Fatal error: " +:+ exn_str (Exception cls msg))]),
        {| running := bi;
           history := (history s ++ di)
                      ++ [EvLog ERROR ("Fatal error: " +:+ exn_str (Exception cls msg))] |}.
      split; [cbn [history]; rewrite <- !app_assoc; reflexivity|].
      rewrite !count_app, count_fatal_log_one. repeat (split; [cbn; lia|]).
      exists (Raise (SystemExit 1)).
      destruct (TradingBot.shutdown lib env _) as [[[]|e] s3]; cbn [fst snd];
        (split; [reflexivity|]); split; try reflexivity; now intros ? [= <-].
    + exists di, {| running := bi; history := history s ++ di |}.
      split; [reflexivity|].
      repeat (split; [lia|]).
      exists (Raise (SystemExit code)).
      destruct (TradingBot.shutdown lib env _) as [[[]|e] s3]; cbn [fst snd];
        (split; [reflexivity|]); split; try (now intros ? [= <-]); lia.
    + exists (di ++ [EvPrint (LF +:+ "Keyboard interrupt received, shutting down...")]),
        {| running := bi;
           history := (history s ++ di)
                      ++ [EvPrint (LF +:+ "Keyboard interrupt received, shutting down...")] |}.
      split; [cbn [history]; rewrite <- !app_assoc; reflexivity|].
      rewrite !count_app. repeat (split; [cbn; lia|]).
      exists (Ok Finished).
      destruct (TradingBot.shutdown lib env _) as [[[]|e] s3]; cbn [fst snd];
        (split; [reflexivity|]); split; try discriminate; cbn; lia.
    + exists di, {| running := bi; history := history s ++ di |}.
      split; [reflexivity|].
      repeat (split; [lia|]).
      exists (Raise CancelledError).
      destruct (TradingBot.shutdown lib env _) as [[[]|e] s3]; cbn [fst snd];
        (split; [reflexivity|]); split; try (now intros ? [= <-]); lia.
Qed.

Lemma main_not_constructed (lib : Lib) (settings : Settings) (env : Collaborators)
    (construct : list Event -> Result unit) (fuel : nat) (s : State) (e : exn) :
  construct (history s) = Raise e ->
  main lib settings env construct fuel s
  = match e with
    | Exception _ _ =>
        (Raise (SystemExit 1),
         {| running := running s;
            history := history s ++ [EvLog ERROR ("Fatal error: " +:+ exn_str e)] |})
    | KeyboardInterrupt =>
        (Ok Finished,
         {| running := running s;
            history := history s
                       ++ [EvPrint (LF +:+ "Keyboard interrupt received, shutting down...")] |})
    | _ => (Raise e, s)
    end.
Proof.
  intros H. rewrite main_steps, H. unfold main_except. now destruct e; mrun.
Qed.

(** X9: once the loop is left, [main] has run [shutdown] exactly once if
    the bot was constructed, whatever ended initialisation or the loop, and
    the running flag is False; the notifier and the storage are each closed
    at most once.  If the constructor failed there is no bot to shut down,
    and neither the notifier nor the data store is called at all. *)
Theorem main_shuts_down_exactly_once
    (lib : Lib) (settings : Settings) (env : Collaborators)
    (construct : list Event -> Result unit) (fuel : nat) (s : State) :
  result_of (main lib settings env construct fuel) s <> Ok OutOfFuel ->
  let d := events_of (main lib settings env construct fuel) s in
  count is_shutdown_log d = (if is_Ok (construct (history s)) then 1 else 0)%nat
  /\ (count is_notifier_shutdown d <= 1)%nat
  /\ (count is_storage_close d <= 1)%nat
  /\ (is_Ok (construct (history s)) = true ->
      running (main lib settings env construct fuel s).2 = false)
  /\ (is_Ok (construct (history s)) = false ->
      count is_notifier d = 0%nat /\ count is_data_store d = 0%nat).
Proof.
  intros Hfuel d.
  destruct (construct (history s)) as [[]|e] eqn:Hc; cbn [is_Ok].
  - destruct (main_constructed lib settings env construct fuel s) as
      (d0 & s2 & Hd0 & H1 & H2 & H3 & _ & r & Hmain & _); [now rewrite Hc | exact Hfuel|].
    destruct (shutdown_frame lib env s2) as (d1 & Hd1 & G1 & G2 & G3 & _ & _ & _ & _ & Hflag).
    assert (d = d0 ++ d1) as ->.
    { apply events_of_app. rewrite Hmain. cbn [snd]. now rewrite Hd1, Hd0, app_assoc. }
    rewrite !count_app, Hmain. cbn [snd].
    split; [lia|]. split; [lia|]. split; [lia|]. split; [intros _; exact Hflag | discriminate].
  - assert (d = match e with
                | Exception _ _ => [EvLog ERROR ("Fatal error: " +:+ exn_str e)]
                | KeyboardInterrupt =>
                    [EvPrint (LF +:+ "Keyboard interrupt received, shutting down...")]
                | _ => []
                end) as ->.
    { apply events_of_app. rewrite (main_not_constructed _ _ _ _ _ _ e Hc).
      destruct e; cbn [snd history]; now rewrite ?app_nil_r. }
    destruct e; repeat split; cbn; try lia; discriminate.
Qed.

(** The theorem applies when the notifier is unreachable: initialisation
    fails, and [shutdown] runs once. *)
Lemma main_shuts_down_exactly_once_witness :
  result_of (main sample_lib sample_settings unreachable_env (fun _ => Ok tt) 2) sample_state
  = Raise (SystemExit 1)
  /\ count is_shutdown_log
       (events_of (main sample_lib sample_settings unreachable_env (fun _ => Ok tt) 2)
          sample_state) = 1%nat.
Proof.
  assert (H : result_of (main sample_lib sample_settings unreachable_env (fun _ => Ok tt) 2)
                sample_state = Raise (SystemExit 1))
    by (vm_compute; reflexivity).
  split; [exact H|].
  refine (proj1 (main_shuts_down_exactly_once sample_lib sample_settings unreachable_env
                   (fun _ => Ok tt) 2 sample_state _)).
  rewrite H. discriminate.
Defined.

Lemma main_out_of_fuel (lib : Lib) (settings : Settings) (env : Collaborators)
    (construct : list Event -> Result unit) (fuel : nat) (s : State) :
  result_of (main lib settings env construct fuel) s = Ok OutOfFuel ->
  exists d,
    history (main lib settings env construct fuel s).2 = history s ++ d
    /\ count is_outside_loop d = 0%nat.
Proof.
  unfold result_of. rewrite main_steps.
  destruct (construct (history s)) as [[]|e0].
  - destruct (initialize_frame lib env {| running := false; history := history s |})
      as (di & Hdi & Hci & _).
    destruct (TradingBot.initialize lib env _) as [[[]|e] [bi hi]];
      cbn [snd history] in Hdi; subst hi.
    + destruct (run_frame lib settings env fuel {| running := bi; history := history s ++ di |})
        as (dr & Hdr & Hcr).
      destruct (TradingBot.run lib settings env fuel _) as [[[]|e] [br hr]];
        cbn [snd history] in Hdr; subst hr.
      * unfold try_finally. cbn [mret M_ret].
        destruct (TradingBot.shutdown lib env _) as [[[]|e] s3]; discriminate.
      * intros _. exists (di ++ dr). cbn [snd history].
        split; [now rewrite app_assoc|]. now rewrite count_app, Hci, Hcr.
      * unfold try_finally, main_except. destruct e; mrun;
          destruct (TradingBot.shutdown lib env _) as [[[]|e] s3]; discriminate.
    + unfold try_finally, main_except. destruct e; mrun;
        destruct (TradingBot.shutdown lib env _) as [[[]|e'] s3]; discriminate.
  - unfold main_except. destruct e0; mrun; discriminate.
Qed.

(** X8: no [Exception] leaves [main].  It logs at most one fatal error,
    and when it has logged one it does not return normally; when the
    constructor of the bot fails with an [Exception], the fatal record is
    all that happens before the exit with status 1. *)
Theorem main_never_raises_an_Exception
    (lib : Lib) (settings : Settings) (env : Collaborators)
    (construct : list Event -> Result unit) (fuel : nat) (s : State) :
  let d := events_of (main lib settings env construct fuel) s in
  (forall e, result_of (main lib settings env construct fuel) s = Raise e ->
             is_Exception e = false)
  /\ (count is_fatal_log d <= 1)%nat
  /\ (count is_fatal_log d = 1%nat ->
      exists e, result_of (main lib settings env construct fuel) s = Raise e)
  /\ (forall cls msg,
        construct (history s) = Raise (Exception cls msg) ->
        result_of (main lib settings env construct fuel) s = Raise (SystemExit 1)
        /\ d = [EvLog ERROR ("Fatal error: " +:+ msg)]).
Proof.
  intros d.
  destruct (construct (history s)) as [[]|e0] eqn:Hc.
  - assert (Hcases : result_of (main lib settings env construct fuel) s = Ok OutOfFuel
                     \/ result_of (main lib settings env construct fuel) s <> Ok OutOfFuel).
    { destruct (result_of (main lib settings env construct fuel) s) as [[]|e];
        [right; discriminate | now left | right; discriminate]. }
    destruct Hcases as [Hout|Hfuel].
    + destruct (main_out_of_fuel lib settings env construct fuel s Hout) as (d0 & Hd0 & Hc0).
      assert (d = d0) as -> by (apply events_of_app, Hd0).
      destruct (count_outside_loop _ Hc0) as (_ & _ & _ & Hf).
      rewrite Hout, Hf. split; [discriminate|]. split; [lia|]. split; discriminate.
    + destruct (main_constructed lib settings env construct fuel s) as
        (d0 & s2 & Hd0 & _ & _ & _ & Hle & r & Hmain & Hr & Hfatal);
        [now rewrite Hc | exact Hfuel|].
      destruct (shutdown_frame lib env s2)
        as (d1 & Hd1 & _ & _ & _ & G & _ & _ & Hexc & _).
      assert (d = d0 ++ d1) as ->.
      { apply events_of_app. rewrite Hmain. cbn [snd]. now rewrite Hd1, Hd0, app_assoc. }
      unfold result_of. rewrite Hmain, count_app, G. cbn [fst].
      destruct (TradingBot.shutdown lib env s2).1 as [[]|e'] eqn:Hs.
      * split; [exact Hr|]. split; [lia|]. split; [|discriminate].
        intros H1. rewrite Hfatal by lia. eauto.
      * split; [intros e [= <-]; now apply Hexc|]. split; [lia|].
        split; [eauto | discriminate].
  - assert (Hd : d = match e0 with
                     | Exception _ _ => [EvLog ERROR ("Fatal error: " +:+ exn_str e0)]
                     | KeyboardInterrupt =>
                         [EvPrint (LF +:+ "Keyboard interrupt received, shutting down...")]
                     | _ => []
                     end).
    { apply events_of_app. rewrite (main_not_constructed _ _ _ _ _ _ e0 Hc).
      destruct e0; cbn [snd history]; now rewrite ?app_nil_r. }
    unfold result_of. rewrite Hd, (main_not_constructed _ _ _ _ _ _ e0 Hc).
    destruct e0 as [cls0 msg0|code| |]; cbn [fst].
    + split; [now intros e [= <-]|]. rewrite count_fatal_log_one.
      split; [lia|]. split; [eauto|]. now intros cls msg [= -> ->].
    + split; [now intros e [= <-]|]. split; [cbn; lia|]. split; discriminate.
    + split; [discriminate|]. split; [cbn; lia|]. split; discriminate.
    + split; [now intros e [= <-]|]. split; [cbn; lia|]. split; discriminate.
Qed.

Lemma initialize_failure_logged (lib : Lib) (env : Collaborators) (s : State) (e : exn) :
  result_of (TradingBot.initialize lib env) s = Raise e ->
  is_Exception e = true ->
  last (events_of (TradingBot.initialize lib env) s)
  = Some (EvLog ERROR ("Failed to initialize trading bot: " +:+ exn_str e)).
Proof.
  intros Hr Hexc.
  destruct (initialize_run lib env s) as [Hres _]. cbv zeta in Hres. rewrite Hres in Hr.
  pose proof (initialize_events lib env s) as Hd. cbv zeta in Hd.
  apply events_of_app in Hd. rewrite Hd. clear Hd Hres.
  destruct (storage_initialize env _) as [[]|e1];
    [destruct (notifier_initialize env _) as [[]|e2];
     [destruct (send_message env _ _) as [[]|e3]|]|];
    cbn [first_failure] in Hr; try discriminate Hr; injection Hr as ->;
    rewrite Hexc; reflexivity.
Qed.

(** X10: when initialisation fails with an [Exception], [main] never
    starts the loop and requests no market data: after the record of
    [initialize] it logs the fatal error, runs [shutdown] (stop notification
    and closings included, although initialisation did not complete), and
    ends with [SystemExit(1)], or with what [shutdown] raised. *)
Theorem failed_initialization_exits_after_cleanup
    (lib : Lib) (settings : Settings) (env : Collaborators)
    (construct : list Event -> Result unit) (fuel : nat) (s : State) (e : exn) :
  is_Ok (construct (history s)) = true ->
  let s0 := {| running := false; history := history s |} in
  result_of (TradingBot.initialize lib env) s0 = Raise e ->
  is_Exception e = true ->
  let d := events_of (main lib settings env construct fuel) s in
  let s1 := (TradingBot.initialize lib env s0).2 in
  let fatal := EvLog ERROR ("Fatal error: " +:+ exn_str e) in
  let s2 := {| running := running s1; history := history s1 ++ [fatal] |} in
  d = events_of (TradingBot.initialize lib env) s0
      ++ fatal :: events_of (TradingBot.shutdown lib env) s2
  /\ In (EvLog ERROR ("Failed to initialize trading bot: " +:+ exn_str e)) d
  /\ count is_loop_start d = 0%nat
  /\ fetched_symbols d = []
  /\ count is_shutdown_log d = 1%nat
  /\ result_of (main lib settings env construct fuel) s
     = match result_of (TradingBot.shutdown lib env) s2 with
       | Ok _ => Raise (SystemExit 1)
       | Raise e' => Raise e'
       end.
Proof.
  intros Hc s0 Hinit Hexc d s1 fatal s2.
  pose proof (initialize_failure_logged lib env s0 e Hinit Hexc) as Hlog.
  destruct (initialize_frame lib env s0) as (di & Hdi & _ & Hli & Hfi).
  destruct (shutdown_frame lib env s2) as (d1 & Hd1 & G1 & _ & _ & _ & Gl & Gf & _ & _).
  rewrite (events_of_app _ s0 di Hdi) in *.
  rewrite (events_of_app _ s2 d1 Hd1).
  assert (Hmain : main lib settings env construct fuel s
                  = (match (TradingBot.shutdown lib env s2).1 with
                     | Ok _ => Raise (SystemExit 1)
                     | Raise e' => Raise e'
                     end, (TradingBot.shutdown lib env s2).2)).
  { rewrite main_steps. destruct (construct (history s)) as [[]|]; [|discriminate].
    unfold result_of in Hinit. fold s0. unfold s2, fatal, s1.
    destruct (TradingBot.initialize lib env s0) as [r si]. cbn [fst snd] in Hinit |- *.
    subst r. unfold try_finally, main_except.
    destruct e; try discriminate. mrun.
    now destruct (TradingBot.shutdown lib env _) as [[[]|e'] s3]. }
  assert (Hd : d = di ++ fatal :: d1).
  { apply events_of_app. rewrite Hmain. cbn [snd]. rewrite Hd1. unfold s2. cbn [history].
    unfold s1. rewrite Hdi. unfold s0. cbn [history]. now rewrite <- !app_assoc. }
  split; [exact Hd|]. rewrite Hd.
  split.
  { apply in_or_app. left. apply last_Some in Hlog as (l & ->).
    apply in_or_app. right. now left. }
  rewrite !count_app, !count_cons, fetched_symbols_app, Hli, Hfi, Gl, G1.
  change (fetched_symbols (fatal :: d1)) with (fetched_symbols d1). rewrite Gf.
  split; [reflexivity|]. split; [reflexivity|].
  destruct (count_outside_loop di) as (-> & _).
  { destruct (initialize_frame lib env s0) as (di' & Hdi' & Hci' & _).
    rewrite Hdi in Hdi'. apply app_inv_head in Hdi'. now subst di'. }
  split; [reflexivity|].
  unfold result_of. now rewrite Hmain.
Qed.

(** The theorem applies when the notifier is unreachable: the startup
    notification fails, and [main] ends with status 1. *)
Lemma failed_initialization_exits_after_cleanup_witness :
  result_of (TradingBot.initialize sample_lib unreachable_env)
    {| running := false; history := [] |}
  = Raise (Exception "NetworkError" "telegram unreachable")
  /\ result_of (main sample_lib sample_settings unreachable_env (fun _ => Ok tt) 2) sample_state
     = Raise (SystemExit 1).
Proof.
  assert (H : result_of (TradingBot.initialize sample_lib unreachable_env)
                {| running := false; history := history sample_state |}
              = Raise (Exception "NetworkError" "telegram unreachable"))
    by (vm_compute; reflexivity).
  split; [exact H|].
  destruct (failed_initialization_exits_after_cleanup sample_lib sample_settings
              unreachable_env (fun _ => Ok tt) 2 sample_state _ eq_refl H eq_refl)
    as (_ & _ & _ & _ & _ & Hr).
  rewrite Hr. vm_compute. reflexivity.
Defined.

(** ** The pipeline, the legacy notifier and the frame of the clients *)

Lemma dispatch_inputs_inv (signal : gmap string pyval) (data : DataFrame)
    (price : pyval) (timestamp : Timestamp) (action : pyval) :
  dispatch_inputs signal data = Ok (price, timestamp, action) ->
  index_last data = Ok timestamp
  /\ signal !! "action" = Some action
  /\ exists close, column (df_columns data) "close" = Some close /\ last close = Some price.
Proof.
  unfold dispatch_inputs, df_getitem, iloc_last, index_last, getitem.
  destruct (column (df_columns data) "close") as [close|] eqn:E1; [|discriminate].
  cbn [mbind Result_bind].
  destruct (last close) as [p|] eqn:E2; [|discriminate]. cbn [mbind Result_bind].
  destruct (last (df_index data)) as [t|] eqn:E3; [|discriminate]. cbn [mbind Result_bind].
  destruct (signal !! "action") as [a|] eqn:E4; [|discriminate]. cbn [mbind Result_bind].
  intros [= <- <- <-]. split; [reflexivity|]. split; [reflexivity|].
  exists close. split; [reflexivity | exact E2].
Qed.

Ltac in_cases :=
  repeat match goal with
         | H : In _ (_ :: _) |- _ => destruct H as [H|H]; try discriminate H
         | H : In _ [] |- _ => destruct H
         | H : _ \/ _ |- _ => destruct H as [H|H]; try discriminate H
         | H : False |- _ => destruct H
         end.

(** X2: within one run of the pipeline every step works on the frame that
    was fetched.  What is stored is the fetched frame, under the symbol, and
    it has at least the minimum number of rows; the indicators see it only
    after it was stored successfully; the strategy is given exactly what the
    two indicators returned for it; and a signal that is stored is the one
    the strategy returned, stamped with the last index entry of that
    frame. *)
Theorem pipeline_works_on_the_fetched_frame
    (lib : Lib) (settings : Settings) (env : Collaborators) (symbol : string) (s : State) :
  let d := events_of (TradingBot.collect_and_analyze_data lib settings env symbol) s in
  (forall sym data r,
     In (EvStoreMarketData sym data r) d ->
     sym = symbol
     /\ In (EvGetMarketData symbol (timeframe settings) (lookback_periods settings)
              (Ok (Some data))) d
     /\ min_data_points settings <= df_len data)
  /\ (forall data r,
        In (EvTdiCalculate data r) d -> In (EvStoreMarketData symbol data (Ok tt)) d)
  /\ (forall data r,
        In (EvBollingerCalculate data r) d -> exists tdi, In (EvTdiCalculate data (Ok tdi)) d)
  /\ (forall data tdi bollinger r,
        In (EvGenerateSignal data tdi bollinger r) d ->
        In (EvTdiCalculate data (Ok tdi)) d /\ In (EvBollingerCalculate data (Ok bollinger)) d)
  /\ (forall sym signal timestamp r,
        In (EvStoreSignal sym signal timestamp r) d ->
        sym = symbol
        /\ exists data tdi bollinger,
             In (EvGenerateSignal data tdi bollinger (Ok (Some signal))) d
             /\ index_last data = Ok timestamp).
Proof.
  intros d.
  destruct (collect_shape lib settings env symbol s) as (r & b & Hrun). fold d in Hrun.
  clearbody d. collect_inv Hrun.
  all: repeat match goal with
              | H : dispatch_inputs _ _ = Ok _ |- _ => apply dispatch_inputs_inv in H as (? & ? & ?)
              | H : (_ <? _) = false |- _ => apply Z.ltb_ge in H
              end.
  all: repeat split; intros; in_cases; simplify_eq; cbn; eauto 12.
Qed.

(** X3: one run of the pipeline hands the notifier at most one text.  At
    most one of the guarded steps (fetch, storing of the data, indicators,
    strategy) fails; when one fails with an [Exception] the only text is the
    alert naming the symbol and the exception, the failure is logged, and no
    signal is stored.  When none fails, a text that is sent is the message
    of the signal the strategy returned, built from the last close and the
    last index entry of the fetched frame: a failure of the dispatch itself
    never raises an alert. *)
Theorem alert_exactly_for_step_failures
    (lib : Lib) (settings : Settings) (env : Collaborators) (symbol : string) (s : State) :
  let d := events_of (TradingBot.collect_and_analyze_data lib settings env symbol) s in
  (length (sent_texts d) <= 1)%nat
  /\ (length (omap step_failure d) <= 1)%nat
  /\ (forall e,
        In e (omap step_failure d) ->
        sent_texts d = ["❌ Error processing " +:+ symbol +:+ ": " +:+ exn_str e]
        /\ In (EvLog ERROR ("Error processing data for " +:+ symbol +:+ ": " +:+ exn_str e)) d
        /\ count is_store_signal d = 0%nat)
  /\ (omap step_failure d = [] ->
      forall text,
        In text (sent_texts d) ->
        exists data tdi bollinger signal price timestamp action,
          In (EvGenerateSignal data tdi bollinger (Ok (Some signal))) d
          /\ dispatch_inputs signal data = Ok (price, timestamp, action)
          /\ TradingBot.signal_message lib symbol signal price timestamp = Ok text).
Proof.
  intros d.
  destruct (collect_shape lib settings env symbol s) as (r & b & Hrun). fold d in Hrun.
  clearbody d. collect_inv Hrun.
  all: unfold sent_texts; cbn [omap list_omap step_failure length];
    repeat match goal with
           | H : is_Exception _ = _ |- _ => rewrite !H
           end;
    cbn [omap list_omap step_failure length].
  all: repeat split; try lia; intros; in_cases; simplify_eq.
  all: try match goal with
           | |- exists _, _ =>
               do 7 eexists; (split; [|split; eassumption]); cbn; auto 10
           end.
  all: cbn; auto 10.
Qed.

Lemma format_spec_f_formattable (prec : nat) (v : pyval) :
  is_Ok (format_spec_f prec v) = formattable v.
Proof.
  destruct v as [|s0|z|f]; try reflexivity.
  cbn [format_spec_f formattable]. now destruct (float_of_int z).
Qed.

Lemma getitem_raises (d : gmap string pyval) (key : string) (e : exn) :
  getitem d key = Raise e -> is_Exception e = true.
Proof. unfold getitem. destruct (d !! key); [discriminate | now intros [= <-]]. Qed.

Lemma format_spec_f_raises (prec : nat) (v : pyval) (e : exn) :
  format_spec_f prec v = Raise e -> is_Exception e = true.
Proof.
  unfold format_spec_f, float_of_int. cbv zeta.
  destruct v as [|x|z|f]; try discriminate; try (now intros [= <-]).
  repeat match goal with |- context [if ?c then _ else _] => destruct c end;
    cbn [mbind Result_bind]; try discriminate. now intros [= <-].
Qed.

Lemma decide_is_Some {A} (o : option A) :
  bool_decide (is_Some o) = match o with Some _ => true | None => false end.
Proof.
  destruct o; [apply bool_decide_eq_true; eauto|].
  apply bool_decide_eq_false. now intros [x Hx].
Qed.

(** X16: [TelegramNotifier.send_signal] builds its text exactly when the
    signal holds all seven keys it reads and a number under each of the
    four it formats.  It then posts once, to the [sendMessage] URL of the
    bot, with the chat id, the text and the Markdown parse mode, and ends as
    the post ends: a failure of the post is not caught.  Otherwise it
    raises an [Exception] and nothing is posted. *)
Theorem legacy_signal_needs_every_field
    (lib : Lib) (secrets : TelegramNotifier.Secrets) (http : TelegramNotifier.Http)
    (signal : gmap string pyval) (symbol timeframe : string) (s : State) :
  let m := TelegramNotifier.send_signal lib secrets http signal symbol timeframe in
  let url := "https://api.telegram.org/bot" +:+ TelegramNotifier.token secrets
             +:+ "/sendMessage" in
  (is_Ok (TelegramNotifier.signal_text lib signal symbol timeframe) = legacy_complete signal)
  /\ (forall text,
        TelegramNotifier.signal_text lib signal symbol timeframe = Ok text ->
        let params := [("chat_id", TelegramNotifier.chat_id secrets); ("text", text);
                       ("parse_mode", "Markdown")] in
        events_of m s = [EvHttpPost url params (http (history s) url params)]
        /\ result_of m s = http (history s) url params)
  /\ (forall e,
        TelegramNotifier.signal_text lib signal symbol timeframe = Raise e ->
        events_of m s = [] /\ result_of m s = Raise e /\ is_Exception e = true).
Proof.
  intros m url.
  split; [|split].
  - unfold TelegramNotifier.signal_text, legacy_complete, getitem.
    cbn [forallb]. rewrite !decide_is_Some.
    destruct (signal !! "type") as [type|]; cbn [mbind Result_bind is_Ok]; [|reflexivity].
    destruct (signal !! "entry") as [entry|]; cbn [mbind Result_bind is_Ok]; [|reflexivity].
    rewrite <- (format_spec_f_formattable 4 entry).
    destruct (format_spec_f 4 entry); cbn [mbind Result_bind is_Ok andb];
      [|now rewrite ?andb_false_r].
    destruct (signal !! "stop_loss") as [stop_loss|]; cbn [mbind Result_bind is_Ok andb];
      [|reflexivity].
    rewrite <- (format_spec_f_formattable 4 stop_loss).
    destruct (format_spec_f 4 stop_loss); cbn [mbind Result_bind is_Ok andb];
      [|now rewrite ?andb_false_r].
    destruct (signal !! "take_profit") as [take_profit|]; cbn [mbind Result_bind is_Ok andb];
      [|reflexivity].
    rewrite <- (format_spec_f_formattable 4 take_profit).
    destruct (format_spec_f 4 take_profit); cbn [mbind Result_bind is_Ok andb];
      [|now rewrite ?andb_false_r].
    destruct (signal !! "risk_factor") as [risk_factor|]; cbn [mbind Result_bind is_Ok andb];
      [|reflexivity].
    destruct (signal !! "tdi_value") as [tdi_value|]; cbn [mbind Result_bind is_Ok andb];
      [|reflexivity].
    rewrite <- (format_spec_f_formattable 2 tdi_value).
    destruct (format_spec_f 2 tdi_value); cbn [mbind Result_bind is_Ok andb];
      [|now rewrite ?andb_false_r].
    destruct (signal !! "time") as [time|]; cbn [mbind Result_bind is_Ok andb]; reflexivity.
  - intros text Htext params.
    unfold m, TelegramNotifier.send_signal, TelegramNotifier._send_message, result_of, events_of.
    mrun. rewrite Htext. cbn [fst snd history]. fold url. fold params.
    split; [apply drop_app_length | reflexivity].
  - intros e He.
    unfold m, TelegramNotifier.send_signal, result_of, events_of. mrun. rewrite He.
    cbn [fst snd]. rewrite drop_all. split; [reflexivity|]. split; [reflexivity|].
    revert He. unfold TelegramNotifier.signal_text. intros H.
    repeat match type of H with
           | mbind _ ?r = Raise _ =>
               let E := fresh "E" in
               destruct r eqn:E; cbn [mbind Result_bind] in H;
               [|injection H as <-;
                 first [exact (getitem_raises _ _ _ E) | exact (format_spec_f_raises _ _ _ E)]]
           end.
    discriminate H.
Qed.

(** X4: [handle_signal] on input it cannot use.  When the frame is empty
    or has no close column, or the signal has no action, nothing is stored
    and nothing is sent: one error is logged and the call returns.  When
    these can be read but the text of the notification cannot be built (no
    confidence, no strategy name, a price of [None], a not-a-time
    timestamp), [store_signal] is still called once and nothing is sent; if
    the signal was stored, the call returns after logging the failure of the
    notification. *)
Theorem incomplete_signal_is_stored_but_not_announced
    (lib : Lib) (env : Collaborators) (symbol : string) (signal : gmap string pyval)
    (data : DataFrame) (s : State) :
  let m := TradingBot.handle_signal lib env symbol signal data in
  let d := events_of m s in
  (is_Ok (dispatch_inputs signal data) = false ->
   result_of m s = Ok tt
   /\ count is_store_signal d = 0%nat
   /\ count is_send_message d = 0%nat
   /\ count is_error d = 1%nat)
  /\ (df_index data = [] \/ column (df_columns data) "close" = None
      \/ signal !! "action" = None ->
      is_Ok (dispatch_inputs signal data) = false)
  /\ (forall price timestamp action e,
        dispatch_inputs signal data = Ok (price, timestamp, action) ->
        TradingBot.signal_message lib symbol signal price timestamp = Raise e ->
        count is_store_signal d = 1%nat
        /\ count is_send_message d = 0%nat
        /\ (In (EvStoreSignal symbol signal timestamp (Ok tt)) d ->
            result_of m s = Ok tt
            /\ last d = Some (EvLog ERROR ("Error sending notification: " +:+ exn_str e))))
  /\ (forall price timestamp,
        signal !! "confidence" = None \/ signal !! "strategy_name" = None
        \/ timestamp = NaT \/ price = PyNone ->
        is_Ok (TradingBot.signal_message lib symbol signal price timestamp) = false).
Proof.
  intros m d.
  assert (Hd : history (m s).2 = history s ++ d /\ True).
  { split; [|exact I]. unfold d, events_of, m. rewrite handle_signal_run.
    destruct (dispatch_inputs signal data) as [[[price timestamp] action]|e]; cbv zeta.
    - destruct (store_signal env _ symbol signal timestamp) as [[]|e].
      + rewrite send_signal_notification_run.
        destruct (TradingBot.signal_message lib symbol signal price timestamp);
          cbv zeta; cbn [snd history]; rewrite <- !app_assoc; now rewrite drop_app_length.
      + cbn [snd history]. rewrite <- !app_assoc. now rewrite drop_app_length.
    - cbn [snd history]. now rewrite drop_app_length. }
  destruct Hd as [Hd _]. apply events_of_app in Hd as Hd'. fold d in Hd'.
  unfold result_of. revert Hd. unfold m. rewrite handle_signal_run. intros Hd.
  split; [|split; [|split]].
  - destruct (dispatch_inputs signal data) as [[[price timestamp] action]|e]; [discriminate|].
    intros _. cbn [fst snd history] in Hd |- *. apply app_inv_head in Hd. rewrite <- Hd.
    repeat split; reflexivity.
  - unfold dispatch_inputs, df_getitem, iloc_last, index_last, getitem.
    intros [H|[H|H]].
    + destruct (column (df_columns data) "close") as [close|]; [|reflexivity].
      cbn [mbind Result_bind]. destruct (last close); [|reflexivity].
      cbn [mbind Result_bind]. now rewrite H.
    + now rewrite H.
    + destruct (column (df_columns data) "close") as [close|]; [|reflexivity].
      cbn [mbind Result_bind]. destruct (last close); [|reflexivity].
      cbn [mbind Result_bind]. destruct (last (df_index data)); [|reflexivity].
      cbn [mbind Result_bind]. now rewrite H.
  - intros price timestamp action e Hin Hmsg. rewrite Hin in Hd |- *. cbv zeta in Hd |- *.
    destruct (store_signal env _ symbol signal timestamp) as [[]|e'] eqn:Hstore.
    + rewrite send_signal_notification_run, Hmsg in Hd |- *.
      cbn [fst snd history] in Hd |- *.
      rewrite <- !app_assoc in Hd. apply app_inv_head in Hd. rewrite <- Hd.
      repeat split; reflexivity.
    + cbn [fst snd history running] in Hd |- *.
      rewrite <- !app_assoc in Hd. apply app_inv_head in Hd. rewrite <- Hd.
      split; [cbn; now destruct (is_Exception e')|].
      split; [cbn; now destruct (is_Exception e')|].
      intros H. cbn in H. destruct H as [H|[H|H]]; try discriminate H.
      destruct (is_Exception e'); cbn in H; [destruct H as [H|H]; [discriminate H|]|];
        destruct H.
  - unfold TradingBot.signal_message, getitem, strftime, format_spec_f.
    intros price timestamp H.
    destruct (signal !! "action"); cbn [mbind Result_bind]; [|reflexivity].
    destruct price as [|x|z|f]; try reflexivity.
    + destruct H as [H|[H|[H|H]]]; try discriminate H;
        destruct (float_of_int z); cbn [mbind Result_bind]; try reflexivity;
        destruct timestamp; cbn [mbind Result_bind]; try reflexivity; try discriminate H;
        destruct (signal !! "confidence") as [c|]; cbn [mbind Result_bind];
        try reflexivity; try discriminate H;
        destruct c; cbn [mbind Result_bind]; try reflexivity;
        try (destruct (float_of_int _); cbn [mbind Result_bind]; try reflexivity);
        now rewrite H.
    + destruct H as [H|[H|[H|H]]]; try discriminate H;
        cbn [mbind Result_bind];
        destruct timestamp; cbn [mbind Result_bind]; try reflexivity; try discriminate H;
        destruct (signal !! "confidence") as [c|]; cbn [mbind Result_bind];
        try reflexivity; try discriminate H;
        destruct c; cbn [mbind Result_bind]; try reflexivity;
        try (destruct (float_of_int _); cbn [mbind Result_bind]; try reflexivity);
        now rewrite H.
Qed.

Lemma traverse_length {A B} (f : A -> Result B) (l : list A) (l' : list B) :
  traverse f l = Ok l' -> length l' = length l.
Proof.
  revert l'. induction l as [|x l IH]; intros l'; cbn [traverse].
  - now intros [= <-].
  - destruct (f x); cbn [mbind Result_bind]; [|discriminate].
    destruct (traverse f l) as [ys|]; cbn [mbind Result_bind]; [|discriminate].
    intros [= <-]. cbn. now rewrite (IH ys).
Qed.

(** X17: the frame of the market-data clients is built exactly when the
    answer of the exchange is empty or its widest bar has six cells, and
    pandas accepts the first cell of every bar as a timestamp.  A frame that
    is built has one row per bar (as many index entries, and as many values
    in each column) and no timestamp column; an empty answer gives an empty
    frame, not a failure. *)
Theorem frame_has_one_row_per_bar (lib : Lib) (ohlcv : list (list pyval)) :
  (is_Ok (frame_of_ohlcv lib ohlcv) = true <->
   (ohlcv = [] \/ widest ohlcv = 6%nat)
   /\ Forall (fun row => is_Some (parse_ms lib (nth 0 row PyNone))) ohlcv)
  /\ (forall df,
        frame_of_ohlcv lib ohlcv = Ok df ->
        df_len df = Z.of_nat (length ohlcv)
        /\ Forall (fun c => length c.2 = length ohlcv) (df_columns df)
        /\ column (df_columns df) "timestamp" = None)
  /\ frame_of_ohlcv lib []
     = Ok {| df_index := [];
             df_columns := [("open", []); ("high", []); ("low", []); ("close", []);
                            ("volume", [])] |}.
Proof.
  split; [|split; [|reflexivity]].
  - assert (Hpd : forall cols, pd_DataFrame ohlcv ohlcv_labels = Ok cols ->
                    column cols "timestamp" = Some (map (fun row => nth 0 row PyNone) ohlcv)).
    { intros cols. unfold pd_DataFrame.
      destruct ohlcv as [|row rows]; [now intros [= <-]|].
      destruct (Nat.eqb _ _); [|discriminate]. now intros [= <-]. }
    assert (Hw : is_Ok (pd_DataFrame ohlcv ohlcv_labels) = true
                 <-> (ohlcv = [] \/ widest ohlcv = 6%nat)).
    { unfold pd_DataFrame, widest.
      destruct ohlcv as [|row rows]; [split; [now left | reflexivity]|].
      change (length ohlcv_labels) with 6%nat.
      destruct (Nat.eqb _ 6) eqn:E; cbn [is_Ok].
      - apply Nat.eqb_eq in E. split; [now right | reflexivity].
      - apply Nat.eqb_neq in E. split; [discriminate|]. intros [H|H]; [discriminate H|].
        contradiction. }
    unfold frame_of_ohlcv.
    destruct (pd_DataFrame ohlcv ohlcv_labels) as [cols|e] eqn:Ep; cbn [mbind Result_bind].
    + unfold df_getitem. rewrite (Hpd cols eq_refl). cbn [mbind Result_bind].
      pose proof (traverse_Ok_iff lib (map (fun row => nth 0 row PyNone) ohlcv)) as Ht.
      rewrite Forall_map in Ht.
      destruct (traverse _ _) as [ts|e]; cbn [mbind Result_bind is_Ok] in *.
      * split; [intros _; split; [now apply Hw | now apply Ht] | reflexivity].
      * split; [discriminate|]. intros [_ H]. now apply Ht.
    + cbn [is_Ok] in *. split; [discriminate|]. intros [H _]. now apply Hw.
  - intros df Hdf.
    destruct (frame_of_ohlcv_shape lib ohlcv df Hdf) as [Hc Hi].
    apply traverse_length in Hi. rewrite length_map in Hi.
    unfold df_len. rewrite Hi, Hc.
    split; [reflexivity|]. split; [|reflexivity].
    repeat constructor; cbn [snd]; apply length_map.
Qed.

(** ** The account and trading methods of [BinanceClient] *)

Section AccountMethods.

Import BinanceAccount.

Ltac xrun :=
  unfold BinanceAccount.try_except, BinanceAccount.call, BinanceAccount.lift,
    BinanceAccount.print, mbind, BinanceAccount.X_bind, mret, BinanceAccount.X_ret;
  cbn beta iota zeta delta [fst snd].

Lemma positive_items_filter fos kvs :
  Forall (fun kv => is_Ok (py_float fos kv.2) = true) kvs ->
  positive_items fos kvs = Ok (List.filter (fun kv => positive_total fos kv.2) kvs).
Proof.
  induction 1 as [|[k v] kvs Hv _ IH]; [reflexivity|].
  cbn [positive_items List.filter snd] in *. unfold positive_total at 1.
  destruct (py_float fos v) as [f|e]; [|discriminate].
  cbn [mbind Result_bind]. rewrite IH. cbn [mbind Result_bind].
  now destruct (gt_zero f).
Qed.

Lemma positive_items_raises fos kvs :
  Exists (fun kv => is_Ok (py_float fos kv.2) = false) kvs ->
  exists cls msg, positive_items fos kvs = Raise (Exception cls msg).
Proof.
  induction kvs as [|[k v] kvs IH]; intros H; [inversion H|].
  cbn [positive_items].
  destruct (py_float fos v) as [f|e] eqn:Ev; cbn [mbind Result_bind].
  - apply Exists_cons in H as [H|H]; [cbn in H; rewrite Ev in H; discriminate|].
    destruct (IH H) as (cls & msg & ->). cbn [mbind Result_bind]. eauto.
  - unfold py_float in Ev.
    destruct v as [|s|z|f]; try discriminate.
    + injection Ev as <-. eauto.
    + destruct (fos s); [discriminate|]. injection Ev as <-. eauto.
    + unfold float_of_int in Ev. cbv zeta in Ev.
      repeat match type of Ev with
             | context [if ?c then _ else _] => destruct c
             end; try discriminate.
      injection Ev as <-. eauto.
Qed.

(** X11: when the exchange answers, the answer has a dictionary under
    ['total'] and every total converts to a float, [get_account_balance]
    returns exactly the currencies whose total is greater than zero, in the
    order of the exchange and with the values as they came (zero, negative
    and NaN totals are dropped), after a single call of the exchange and
    without printing. *)
Theorem account_balance_keeps_positive_totals
    (float_of_str : string -> pyfloat + string) (exchange : Exchange)
    (h : list ExchangeEvent) (balance : gmap string pyobj) (kvs : list (string * pyval)) :
  fetch_balance exchange h = Ok balance ->
  balance !! "total" = Some (Dict kvs) ->
  Forall (fun kv => is_Ok (py_float float_of_str kv.2) = true) kvs ->
  outcome_of (get_account_balance float_of_str exchange) h
  = Ok (List.filter (fun kv => positive_total float_of_str kv.2) kvs)
  /\ calls_of (get_account_balance float_of_str exchange) h = [FetchBalance (Ok balance)].
Proof.
  intros Hf Ht Hv. unfold outcome_of, calls_of, get_account_balance. xrun.
  rewrite Hf. unfold getitem. rewrite Ht. cbn [items].
  rewrite (positive_items_filter _ _ Hv). cbn [fst snd].
  split; [reflexivity | apply drop_app_length].
Qed.

Lemma create_order_run (exchange : Exchange) (symbol side : string)
    (quantity price stop_loss take_profit : pyval) (h : list ExchangeEvent) :
  let main_order := order_params symbol side quantity price in
  let stop_order := protective_params symbol side quantity stop_loss take_profit in
  let placed := exchange_create_order exchange h main_order in
  let h1 := h ++ [CreateOrder main_order placed] in
  let guarded := exchange_create_order exchange h1 stop_order in
  let failure {A} (r : Result A) :=
    match r with
    | Raise e => if is_Exception e then [Printed ("Error creating order: " +:+ exn_str e)] else []
    | Ok _ => []
    end in
  let neutral {A} (r : Result A) : Result Order :=
    match r with
    | Raise e => if is_Exception e then Ok [] else Raise e
    | Ok _ => Ok []
    end in
  create_order exchange symbol side quantity price stop_loss take_profit h
  = match placed with
    | Raise _ => (neutral placed, h1 ++ failure placed)
    | Ok order =>
        if py_bool stop_loss && py_bool take_profit
        then match guarded with
             | Ok _ => (Ok order, h1 ++ [CreateOrder stop_order guarded])
             | Raise _ => (neutral guarded, (h1 ++ [CreateOrder stop_order guarded]) ++ failure guarded)
             end
        else (Ok order, h1)
    end.
Proof.
  intros main_order stop_order placed h1 guarded failure neutral.
  unfold create_order. xrun. fold main_order placed h1.
  destruct placed as [order|e].
  - destruct (py_bool stop_loss && py_bool take_profit); [|reflexivity].
    xrun. fold stop_order guarded.
    destruct guarded as [o|e]; [reflexivity|].
    cbn. destruct (is_Exception e); [reflexivity | now rewrite app_nil_r].
  - cbn. destruct (is_Exception e); [reflexivity | now rewrite app_nil_r].
Qed.

Lemma py_float_Exception fos v e : py_float fos v = Raise e -> is_Exception e = true.
Proof.
  unfold py_float, float_of_int. cbv zeta.
  destruct v as [|s|z|f]; try discriminate.
  - now intros [= <-].
  - destruct (fos s); [discriminate | now intros [= <-]].
  - repeat match goal with
           | |- context [if ?c then _ else _] => destruct c
           end; try discriminate.
    now intros [= <-].
Qed.

Lemma positive_items_Exception fos kvs e :
  positive_items fos kvs = Raise e -> is_Exception e = true.
Proof.
  induction kvs as [|[k v] kvs IH]; cbn [positive_items]; [discriminate|].
  destruct (py_float fos v) as [f|e0] eqn:Ev; cbn [mbind Result_bind].
  - destruct (positive_items fos kvs); cbn [mbind Result_bind]; [discriminate|].
    intros [= <-]. now apply IH.
  - intros [= <-]. now apply (py_float_Exception fos v).
Qed.

Lemma get_account_balance_run fos (exchange : Exchange) (h : list ExchangeEvent) :
  let fetched := fetch_balance exchange h in
  let computed :=
    balance ← fetched; total ← getitem balance "total"; kvs ← items total;
    positive_items fos kvs in
  get_account_balance fos exchange h
  = match computed with
    | Ok r => (Ok r, h ++ [FetchBalance fetched])
    | Raise e =>
        if is_Exception e
        then (Ok [], h ++ [FetchBalance fetched; Printed ("Error fetching balance: " +:+ exn_str e)])
        else (Raise e, h ++ [FetchBalance fetched])
    end.
Proof.
  intros fetched computed. unfold get_account_balance. xrun. fold fetched.
  unfold computed. clear computed.
  destruct fetched as [balance|e]; cbn [mbind Result_bind].
  - destruct (getitem balance "total") as [total|e]; cbn [mbind Result_bind].
    + destruct (items total) as [kvs|e]; cbn [mbind Result_bind].
      * destruct (positive_items fos kvs) as [r|e]; [reflexivity|].
        destruct (is_Exception e); [now rewrite <- app_assoc | reflexivity].
      * destruct (is_Exception e); [now rewrite <- app_assoc | reflexivity].
    + destruct (is_Exception e); [now rewrite <- app_assoc | reflexivity].
  - destruct (is_Exception e); [now rewrite <- app_assoc | reflexivity].
Qed.

Lemma positive_items_raise_inv fos kvs e :
  positive_items fos kvs = Raise e ->
  Exists (fun kv => is_Ok (py_float fos kv.2) = false) kvs.
Proof.
  induction kvs as [|[k v] kvs IH]; cbn [positive_items]; [discriminate|].
  destruct (py_float fos v) as [f|e0] eqn:Ev; cbn [mbind Result_bind].
  - destruct (positive_items fos kvs); cbn [mbind Result_bind]; [discriminate|].
    intros [= <-]. right. now apply IH.
  - intros _. left. cbn. now rewrite Ev.
Qed.

(** X12: [get_account_balance] raises no [Exception].  It prints one line
    and returns the empty dictionary exactly when the call of the exchange
    raised an [Exception], the answer has no ['total'], ['total'] is no
    dictionary, or one of the totals does not convert to a float: a single
    [None] among the totals empties the result, which then reads like an
    account without funds. *)
Theorem account_balance_failure_is_empty
    (float_of_str : string -> pyfloat + string) (exchange : Exchange) (h : list ExchangeEvent) :
  let fetched := fetch_balance exchange h in
  let m := get_account_balance float_of_str exchange in
  let failed :=
    (exists cls msg, fetched = Raise (Exception cls msg))
    \/ (exists balance,
          fetched = Ok balance
          /\ (balance !! "total" = None
              \/ (exists v, balance !! "total" = Some (Scalar v))
              \/ exists kvs,
                   balance !! "total" = Some (Dict kvs)
                   /\ Exists (fun kv => is_Ok (py_float float_of_str kv.2) = false) kvs)) in
  (forall e, outcome_of m h = Raise e -> is_Exception e = false)
  /\ (failed <->
      exists msg, calls_of m h = [FetchBalance fetched; Printed ("Error fetching balance: " +:+ msg)])
  /\ (failed -> outcome_of m h = Ok [])
  /\ (~ failed -> calls_of m h = [FetchBalance fetched]).
Proof.
  intros fetched m failed.
  pose proof (get_account_balance_run float_of_str exchange h) as Hrun. cbv zeta in Hrun.
  fold fetched in Hrun.
  assert (Hfail : failed ->
            exists cls msg,
              (balance ← fetched; total ← getitem balance "total"; kvs ← items total;
               positive_items float_of_str kvs) = Raise (Exception cls msg)).
  { intros [(cls & msg & ->)|(balance & -> & H)]; cbn [mbind Result_bind]; [eauto|].
    unfold getitem.
    destruct H as [->|[(v & ->)|(kvs & -> & Hbad)]]; cbn [items mbind Result_bind]; eauto.
    destruct (positive_items_raises _ _ Hbad) as (cls & msg & ->). eauto. }
  assert (Hinv : forall e,
            (balance ← fetched; total ← getitem balance "total"; kvs ← items total;
             positive_items float_of_str kvs) = Raise e ->
            is_Exception e = true -> failed).
  { intros e He Hexc. unfold failed.
    destruct fetched as [balance|e0]; cbn [mbind Result_bind] in He.
    - right. exists balance. split; [reflexivity|]. unfold getitem in He.
      destruct (balance !! "total") as [[v|kvs]|]; cbn [items mbind Result_bind] in He;
        [right; left; eauto | | now left].
      right. right. exists kvs. split; [reflexivity|].
      now apply (positive_items_raise_inv _ _ e).
    - injection He as ->. left. destruct e; try discriminate. eauto. }
  unfold outcome_of, calls_of, m. rewrite Hrun. clear Hrun.
  destruct (balance ← fetched; total ← getitem balance "total"; kvs ← items total;
            positive_items float_of_str kvs) as [r|e] eqn:Ec.
  - cbn [fst snd]. rewrite drop_app_length.
    split; [discriminate|].
    split; [|split].
    + split; [intros Hf; destruct (Hfail Hf) as (? & ? & ?); discriminate
             | intros (msg & ?); discriminate].
    + intros Hf. destruct (Hfail Hf) as (? & ? & ?); discriminate.
    + reflexivity.
  - destruct (is_Exception e) eqn:Hexc; cbn [fst snd]; rewrite drop_app_length.
    + split; [discriminate|].
      split; [|split].
      * split; [intros _; now exists (exn_str e) | intros _; now apply (Hinv e)].
      * reflexivity.
      * intros Hnf. destruct Hnf. now apply (Hinv e).
    + split; [now intros ? [= <-]|].
      split; [|split].
      * split; [intros Hf; destruct (Hfail Hf) as (? & ? & [= ->]); discriminate
               | intros (msg & ?); discriminate].
      * intros Hf. destruct (Hfail Hf) as (? & ? & [= ->]); discriminate.
      * reflexivity.
Qed.

(** X13: [create_order] calls the exchange once for the main order and a
    second time, for the stop-loss order, exactly when the main order was
    accepted and both [stop_loss] and [take_profit] are truthy; never more
    often.  The main order is a limit order carrying the price exactly when
    the price is truthy, a market order without price otherwise (so for
    [None] and for 0).  The stop-loss order is for the same symbol and
    quantity, sells when the side is ['BUY'] and buys for any other side,
    and uses [stop_loss] both as stop price and as price. *)
Theorem stop_order_follows_accepted_order
    (exchange : Exchange) (symbol side : string)
    (quantity price stop_loss take_profit : pyval) (h : list ExchangeEvent) :
  let main_order := order_params symbol side quantity price in
  let stop_order := protective_params symbol side quantity stop_loss take_profit in
  let placed := exchange_create_order exchange h main_order in
  let guarded := exchange_create_order exchange (h ++ [CreateOrder main_order placed]) stop_order in
  let d := calls_of (create_order exchange symbol side quantity price stop_loss take_profit) h in
  List.filter is_create_order d
  = CreateOrder main_order placed
      :: (if is_Ok placed && py_bool stop_loss && py_bool take_profit
          then [CreateOrder stop_order guarded]
          else [])
  /\ kwarg main_order "type" = Some (Scalar (PyStr (if py_bool price then "limit" else "market")))
  /\ kwarg main_order "price" = (if py_bool price then Some (Scalar price) else None)
  /\ kwarg stop_order "side"
     = Some (Scalar (PyStr (if String.eqb side "BUY" then "SELL" else "BUY")))
  /\ kwarg stop_order "type" = Some (Scalar (PyStr "STOP_LOSS_LIMIT"))
  /\ kwarg stop_order "stopPrice" = Some (Scalar stop_loss)
  /\ kwarg stop_order "price" = Some (Scalar stop_loss)
  /\ kwarg stop_order "symbol" = kwarg main_order "symbol"
  /\ kwarg stop_order "quantity" = kwarg main_order "quantity".
Proof.
  intros main_order stop_order placed guarded d.
  split.
  - unfold d, calls_of. rewrite create_order_run. cbv zeta.
    fold main_order stop_order placed. fold guarded.
    destruct placed as [order|e]; cbn [is_Ok andb].
    + destruct (py_bool stop_loss && py_bool take_profit); cbn [snd].
      * destruct guarded as [o|e]; cbn [snd];
          rewrite <- ?app_assoc, drop_app_length; [reflexivity|].
        cbn. now destruct (is_Exception e).
      * now rewrite drop_app_length.
    + cbn [snd]. rewrite <- ?app_assoc, drop_app_length. cbn. now destruct (is_Exception e).
  - unfold main_order, stop_order, order_params, protective_params.
    destruct (py_bool price); repeat split; reflexivity.
Qed.

(** X14: [create_order] raises no [Exception].  A result returned without
    a printed line is the order the exchange returned for the main order.
    When the main order is rejected the result is the empty dictionary,
    after one call and one printed line; and when the main order was
    accepted but the stop-loss order is rejected, the result is the empty
    dictionary as well: the accepted order is not returned. *)
Theorem rejected_stop_order_hides_accepted_order
    (exchange : Exchange) (symbol side : string)
    (quantity price stop_loss take_profit : pyval) (h : list ExchangeEvent) :
  let main_order := order_params symbol side quantity price in
  let stop_order := protective_params symbol side quantity stop_loss take_profit in
  let placed := exchange_create_order exchange h main_order in
  let guarded := exchange_create_order exchange (h ++ [CreateOrder main_order placed]) stop_order in
  let m := create_order exchange symbol side quantity price stop_loss take_profit in
  (forall e, outcome_of m h = Raise e -> is_Exception e = false)
  /\ (forall order,
        outcome_of m h = Ok order ->
        List.filter is_printed (calls_of m h) = [] ->
        placed = Ok order)
  /\ (forall cls msg,
        placed = Raise (Exception cls msg) ->
        outcome_of m h = Ok []
        /\ calls_of m h = [CreateOrder main_order placed; Printed ("Error creating order: " +:+ msg)])
  /\ (forall order cls msg,
        placed = Ok order ->
        py_bool stop_loss && py_bool take_profit = true ->
        guarded = Raise (Exception cls msg) ->
        outcome_of m h = Ok []
        /\ calls_of m h
           = [CreateOrder main_order (Ok order); CreateOrder stop_order guarded;
              Printed ("Error creating order: " +:+ msg)]).
Proof.
  intros main_order stop_order placed guarded m.
  unfold outcome_of, calls_of, m. rewrite create_order_run. cbv zeta.
  fold main_order stop_order placed. fold guarded.
  destruct placed as [order|e] eqn:Ep.
  - destruct (py_bool stop_loss && py_bool take_profit) eqn:Eb.
    + destruct guarded as [o|e] eqn:Eg; cbn [fst snd].
      * rewrite <- ?app_assoc, drop_app_length.
        split; [discriminate|]. split; [now intros ? [= <-]|].
        split; [discriminate|]. discriminate.
      * rewrite <- ?app_assoc, drop_app_length.
        destruct (is_Exception e) eqn:Hexc.
        -- split; [discriminate|]. split; [cbn; discriminate|].
           split; [discriminate|].
           intros order' cls msg [= <-] _ [= ->]. split; reflexivity.
        -- split; [now intros ? [= <-]|]. split; [discriminate|].
           split; [discriminate|].
           intros order' cls msg _ _ [= ->]. discriminate.
    + cbn [fst snd]. rewrite drop_app_length.
      split; [discriminate|]. split; [now intros ? [= <-]|].
      split; [discriminate|]. discriminate.
  - cbn [fst snd]. rewrite <- ?app_assoc, drop_app_length.
    destruct (is_Exception e) eqn:Hexc.
    + split; [discriminate|]. split; [cbn; discriminate|].
      split; [|discriminate].
      intros cls msg [= ->]. split; reflexivity.
    + split; [now intros ? [= <-]|]. split; [discriminate|].
      split; [|discriminate].
      intros cls msg [= ->]. discriminate.
Qed.

(** X15: [test_connection] raises no [Exception]; it returns True exactly
    when [fetch_time] returned, and False exactly when it raised an
    [Exception], which is then printed; the exchange is called once. *)
Theorem connection_test_reports_reachability (exchange : Exchange) (h : list ExchangeEvent) :
  let answered := fetch_time exchange h in
  let m := test_connection exchange in
  (forall e, outcome_of m h = Raise e -> is_Exception e = false)
  /\ (outcome_of m h = Ok true <-> is_Ok answered = true)
  /\ (outcome_of m h = Ok false <-> exists cls msg, answered = Raise (Exception cls msg))
  /\ (is_Ok answered = true -> calls_of m h = [FetchTime answered])
  /\ (forall cls msg,
        answered = Raise (Exception cls msg) ->
        calls_of m h = [FetchTime answered; Printed ("Connection test failed: " +:+ msg)]).
Proof.
  intros answered m. unfold outcome_of, calls_of, m, test_connection. xrun. fold answered.
  destruct answered as [t|e]; cbn [fst snd is_Ok].
  - rewrite drop_app_length.
    split; [discriminate|]. split; [now split|].
    split; [split; [discriminate | intros (? & ? & ?); discriminate]|].
    split; [reflexivity | discriminate].
  - destruct e as [cls msg| | |]; cbn [is_Exception fst snd];
      rewrite <- ?app_assoc, drop_app_length.
    + split; [discriminate|]. split; [split; discriminate|].
      split; [split; eauto|]. split; [discriminate|].
      now intros ? ? [= <- <-].
    + split; [now intros ? [= <-]|]. split; [split; discriminate|].
      split; [split; [discriminate | intros (? & ? & ?); discriminate]|].
      split; discriminate.
    + split; [now intros ? [= <-]|]. split; [split; discriminate|].
      split; [split; [discriminate | intros (? & ? & ?); discriminate]|].
      split; discriminate.
    + split; [now intros ? [= <-]|]. split; [split; discriminate|].
      split; [split; [discriminate | intros (? & ? & ?); discriminate]|].
      split; discriminate.
Qed.

End AccountMethods.

(** The theorem applies to totals of 0.5 BTC, no ETH and 1200 USDT: ETH is
    dropped. *)
Lemma account_balance_keeps_positive_totals_witness :
  outcome_of (BinanceAccount.get_account_balance sample_float_of_str
                (sample_exchange sample_totals)) []
  = Ok [("BTC", PyFloat (Ffin false 1 (-1))); ("USDT", PyInt 1200)].
Proof.
  refine (proj1 (account_balance_keeps_positive_totals sample_float_of_str
                   (sample_exchange sample_totals) []
                   (<["total" := BinanceAccount.Dict sample_totals]> ∅) sample_totals
                   eq_refl _ _)).
  - vm_compute. reflexivity.
  - repeat constructor.
Defined.

(** With a total of [None] for BNB beside them, nothing is returned. *)
Lemma account_balance_failure_is_empty_witness :
  outcome_of (BinanceAccount.get_account_balance sample_float_of_str
                (sample_exchange (("BNB", PyNone) :: sample_totals))) []
  = Ok [].
Proof.
  refine (proj1 (proj2 (proj2 (account_balance_failure_is_empty sample_float_of_str
                   (sample_exchange (("BNB", PyNone) :: sample_totals)) []))) _).
  right. eexists. split; [reflexivity|]. right. right. eexists.
  split; [vm_compute; reflexivity|]. left. reflexivity.
Defined.

(** A market order that is accepted, with a stop-loss order that is
    rejected: the caller gets the empty dictionary. *)
Lemma rejected_stop_order_hides_accepted_order_witness :
  outcome_of (BinanceAccount.create_order (sample_exchange sample_totals) "BTC/USDT" "BUY"
                (PyFloat (Ffin false 1 (-1))) PyNone (PyInt 29000) (PyInt 32000)) []
  = Ok [].
Proof.
  refine (proj1 (proj2 (proj2 (proj2 (rejected_stop_order_hides_accepted_order
            (sample_exchange sample_totals) "BTC/USDT" "BUY"
            (PyFloat (Ffin false 1 (-1))) PyNone (PyInt 29000) (PyInt 32000) [])))
            _ _ _ eq_refl eq_refl eq_refl)).
Defined.
